(** * VirtualConsoleComponentRender.js: a shallow embedding

    The console widget of the repository is modelled as a state-passing
    program over an explicit [World]: the module-level variables of the
    script ([consoleMessageBuffer], [activeConsoleAppender]), the browser
    objects it talks to (the original console, [localStorage], the clock),
    and a heap of [VirtualConsoleComponent] instances, so that a function
    bound to an instance and the instance itself are one object.  Methods
    run in a small state-and-exception monad [M].

    Strings are Rocq strings holding the UTF-8 bytes of the JavaScript
    text.  What the browser decides is a field of the class [Host]: the
    result of [eval] in the iframe, [JSON.stringify] and [String] on
    values other than strings, the clock, the failures of the store.

    The limits of the model: an [async] method runs to its end as one
    step, with the template that [fetch] delivers as its argument; code
    evaluated in the iframe acts on the page only through the console of
    the iframe; the conversion of [e.message] to text returns for every
    value of the host; what the store throws is an exception object of
    the browser, which [JSON.stringify] writes; an instance whose stored
    history [JSON.parse] reads as something else than a list of strings
    is recorded apart, and the methods are modelled on the other
    instances; the box of the panel while it is displayed has the size
    that the template gives; scrolling and focus are left out, and
    [debounce] is modelled on its own, with the timers of the page
    (module [Debounce]).

    The file part_000 is the same class without the slot of the active
    display; the definitions that differ take the file as a parameter. *)

From Stdlib Require Import ZArith Ascii String List Lia Bool.
From stdpp Require Import base option list gmap strings.

Local Open Scope Z_scope.

(** ** Strings as the script uses them *)

Module JsStr.

Definition code (a : ascii) : N := N_of_ascii a.

(** White space and line terminators of ECMAScript ([trim], [\s]), by
    the length of their UTF-8 encoding. *)
Definition ws1 (a : ascii) : bool :=
  let n := code a in
  (((9 <=? n) && (n <=? 13)) || (n =? 32))%N.

(** U+00A0 *)
Definition ws2 (a b : ascii) : bool :=
  ((code a =? 194) && (code b =? 160))%N.

(** U+1680, U+2000..U+200A, U+2028, U+2029, U+202F, U+205F, U+3000,
    U+FEFF *)
Definition ws3 (a b c : ascii) : bool :=
  let x := code a in let y := code b in let z := code c in
  (((x =? 225) && (y =? 154) && (z =? 128))
   || ((x =? 226) && (y =? 128)
       && (((128 <=? z) && (z <=? 138)) || (z =? 168) || (z =? 169)
           || (z =? 175)))
   || ((x =? 226) && (y =? 129) && (z =? 159))
   || ((x =? 227) && (y =? 128) && (z =? 128))
   || ((x =? 239) && (y =? 187) && (z =? 191)))%N.

(** Drops leading white space.  With [back] the string is read from its
    end, so the bytes of a character come in reverse order. *)
Fixpoint strip (back : bool) (s : string) : string :=
  match s with
  | String a s1 =>
      if ws1 a then strip back s1
      else
        match s1 with
        | String b s2 =>
            if (if back then ws2 b a else ws2 a b) then strip back s2
            else
              match s2 with
              | String c s3 =>
                  if (if back then ws3 c b a else ws3 a b c)
                  then strip back s3 else s
              | EmptyString => s
              end
        | EmptyString => s
        end
  | EmptyString => s
  end.

Fixpoint rev_onto (s acc : string) : string :=
  match s with
  | EmptyString => acc
  | String a s' => rev_onto s' (String a acc)
  end.

Definition rev (s : string) : string := rev_onto s EmptyString.

(** [String.prototype.trim] *)
Definition trim (s : string) : string :=
  rev (strip true (rev (strip false s))).

Definition is_empty (s : string) : bool :=
  match s with EmptyString => true | _ => false end.

(** [s] begins with a white space character: [\s] at the start. *)
Definition starts_with_space (s : string) : bool :=
  match s with
  | String a s1 =>
      ws1 a ||
      match s1 with
      | String b s2 =>
          ws2 a b ||
          match s2 with
          | String c _ => ws3 a b c
          | EmptyString => false
          end
      | EmptyString => false
      end
  | EmptyString => false
  end.

Fixpoint strip_prefix (p s : string) : option string :=
  match p with
  | EmptyString => Some s
  | String a p' =>
      match s with
      | String b s' => if Ascii.eqb a b then strip_prefix p' s' else None
      | EmptyString => None
      end
  end.

(** [s.match(/^(let|const|var|function|class)\s/)] is not null. *)
Definition matches_declaration (s : string) : bool :=
  existsb
    (fun kw =>
       match strip_prefix kw s with
       | Some rest => starts_with_space rest
       | None => false
       end)
    ("let" :: "const" :: "var" :: "function" :: "class" :: nil).

(** [hay.includes(needle)] *)
Fixpoint includes (needle hay : string) : bool :=
  match strip_prefix needle hay with
  | Some _ => true
  | None =>
      match hay with
      | EmptyString => false
      | String _ hay' => includes needle hay'
      end
  end.

Definition quote : string := String (ascii_of_N 34) EmptyString.
Definition backslash : string := String (ascii_of_N 92) EmptyString.
Definition newline : string := String (ascii_of_N 10) EmptyString.

Definition hex_digit (n : N) : string :=
  String (ascii_of_N (if (n <? 10)%N then 48 + n else 87 + n)%N) EmptyString.

(** One character of [QuoteJSONString]; bytes from 0x80 on belong to
    characters that are copied as they are. *)
Definition json_escape (a : ascii) : string :=
  let n := code a in
  if (n =? 8)%N then backslash +:+ "b"
  else if (n =? 9)%N then backslash +:+ "t"
  else if (n =? 10)%N then backslash +:+ "n"
  else if (n =? 12)%N then backslash +:+ "f"
  else if (n =? 13)%N then backslash +:+ "r"
  else if (n =? 34)%N then backslash +:+ quote
  else if (n =? 92)%N then backslash +:+ backslash
  else if (n <? 32)%N
       then backslash +:+ "u00" +:+ hex_digit (n / 16) +:+ hex_digit (n mod 16)
  else String a EmptyString.

Fixpoint json_escape_all (s : string) : string :=
  match s with
  | EmptyString => EmptyString
  | String a s' => json_escape a +:+ json_escape_all s'
  end.

(** [JSON.stringify(s)] for a string [s] *)
Definition json_string (s : string) : string :=
  quote +:+ json_escape_all s +:+ quote.

Fixpoint join (sep : string) (l : list string) : string :=
  match l with
  | nil => EmptyString
  | x :: nil => x
  | x :: l' => x +:+ sep +:+ join sep l'
  end.

(** [JSON.stringify(a)] for an array [a] of strings (no indentation) *)
Definition json_string_array (l : list string) : string :=
  "[" +:+ join "," (map json_string l) +:+ "]".

End JsStr.

(** ** Values and completions *)

(** A JavaScript value.  [undefined], [null] and strings are the values
    the script itself tells apart; every other value (numbers, booleans,
    objects, functions, symbols) is a value of the host. *)
Inductive JsValue (V : Type) : Type :=
| JsUndefined
| JsNull
| JsString (s : string)
| JsHost (v : V).

Arguments JsUndefined {V}.
Arguments JsNull {V}.
Arguments JsString {V} s.
Arguments JsHost {V} v.

(** How a statement ends: normally with a value, or by throwing one. *)
Inductive Completion (V A : Type) : Type :=
| Normal (a : A)
| Throw (e : JsValue V).

Arguments Normal {V A} a.
Arguments Throw {V A} e.

(** [{ timestamp, type, message }] *)
Record MessageEntry : Type := mkEntry {
  timestamp : string;
  type : string;
  message : string
}.

Inductive ConsoleMethod : Type := log | warn | error.

(** What [JSON.parse] makes of the stored history: an array whose
    elements are all strings, or any other value ([null], a number, a
    boolean, a string, an object, an array with another element). *)
Inductive Parsed (V : Type) : Type :=
| ParsedStrings (history : list string)
| ParsedOther (v : JsValue V).

Arguments ParsedStrings {V} history.
Arguments ParsedOther {V} v.

(** The two files of the repository that define the console. *)
Inductive SourceFile : Type :=
| VirtualConsoleComponentRender
| part_000.

(** ** The browser *)

Class Host : Type := {
  (** values other than [undefined], [null] and strings *)
  HostValue : Type;
  (** the [window] of the iframe, with the bindings made in it so far *)
  IframeWindow : Type;
  (** [typeof v === 'object'] *)
  host_typeof_object : HostValue -> bool;
  (** [JSON.stringify(v, null, 2)]: a text, [undefined], or a throw *)
  host_JSON_stringify : HostValue -> Completion HostValue (option string);
  (** [String(v)]: the text, or what [toString] or the conversion throws *)
  host_String : HostValue -> Completion HostValue string;
  (** the text of [e.message] inside a template literal *)
  host_message : HostValue -> string;
  (** the [TypeError] raised when a property of [null] or [undefined] is
      read *)
  host_TypeError : HostValue;
  (** [new Date().toLocaleTimeString()] at the n-th reading of the clock *)
  host_toLocaleTimeString : nat -> string;
  (** [contentWindow] of the iframe once [about:blank] has loaded and the
      console of the iframe has been wrapped *)
  host_contentWindow : IframeWindow;
  (** [iframeWindow.eval(code)]: the window afterwards, what the wrapped
      console of the iframe passed to [__appendConsoleMessage] meanwhile,
      and the completion *)
  host_eval : IframeWindow -> string ->
              IframeWindow * list MessageEntry
              * Completion HostValue (JsValue HostValue);
  (** [localStorage.getItem] and [setItem] may throw *)
  host_getItem_error : gmap string string -> string ->
                       option (JsValue HostValue);
  host_setItem_error : gmap string string -> string -> string ->
                       option (JsValue HostValue);
  (** [JSON.parse] of the stored history *)
  host_JSON_parse : string -> Completion HostValue (Parsed HostValue);
  (** what the store throws is an exception object of the browser, which
      [JSON.stringify] writes *)
  host_getItem_error_json :
    forall store key e,
      host_getItem_error store key = Some e ->
      exists v r,
        e = JsHost v /\ host_typeof_object v = true
        /\ host_JSON_stringify v = Normal r;
  host_setItem_error_json :
    forall store key value e,
      host_setItem_error store key value = Some e ->
      exists v r,
        e = JsHost v /\ host_typeof_object v = true
        /\ host_JSON_stringify v = Normal r
}.

(** [#consoleDisplay]: the style properties the script writes and the
    size of the box that the layout gives it when it is displayed. *)
Record DisplayElement : Type := mkDisplay {
  style_width : string;
  style_height : string;
  style_display : string;
  style_resize : string;
  layoutWidth : string;
  layoutHeight : string
}.

(** [offsetWidth] and [offsetHeight]: an element that is not displayed
    has no box, and both are 0. *)
Definition offsetWidth (d : DisplayElement) : string :=
  if String.eqb (style_display d) "none" then "0" else layoutWidth d.

Definition offsetHeight (d : DisplayElement) : string :=
  if String.eqb (style_display d) "none" then "0" else layoutHeight d.

(** The named regions of [VirtualConsoleComponent.html]: the initial value
    of a text field when the element exists. *)
Record Template : Type := mkTemplate {
  tpl_consoleOutput : option string;
  tpl_consoleInput : option string;
  tpl_clearButton : bool;
  tpl_hideButton : bool;
  tpl_showButton : bool;
  tpl_consoleDisplay : option DisplayElement;
  tpl_consoleIframe : bool
}.

(** A function made by [bind]: a new object each time, calling
    [appendMessage] on [bound_this]. *)
Record BoundFunction : Type := mkBound {
  fn_identity : nat;
  bound_this : nat
}.

Section Console.

Context `{H : Host}.

Local Abbreviation Value := (JsValue HostValue).
Local Abbreviation Outcome := (Completion HostValue).

(** An instance of [VirtualConsoleComponent].  An element that
    [querySelector] did not find is [None]. *)
Record Widget : Type := mkWidget {
  textarea : option string;
  inputElement : option string;
  consoleDisplay : option DisplayElement;
  showButton : option string;
  hideButton : bool;
  consoleIframe : bool;
  iframeWindow : option IframeWindow;
  isConsoleVisible : bool;
  lastKnownWidth : string;
  lastKnownHeight : string;
  inputHistory : list string;
  historyIndex : Z;
  cumulativeExecutedCode : string;
  resizeObserver : option bool
}.

Record World : Type := mkWorld {
  consoleMessageBuffer : list MessageEntry;
  activeConsoleAppender : option BoundFunction;
  (** the calls that reached [originalLog], [originalWarn],
      [originalError] *)
  originalConsole : list (ConsoleMethod * list Value);
  localStorage : gmap string string;
  widgets : gmap nat Widget;
  nextWidget : nat;
  nextFunction : nat;
  clockReads : nat;
  (** the instances whose history is not a list of strings, each with
      the value that is its history; the methods are modelled on the
      instances of [widgets] only *)
  strangers : gmap nat Value
}.

(** *** Field updates *)

Definition set_textarea (v : option string) (w : Widget) : Widget :=
  mkWidget v (inputElement w) (consoleDisplay w) (showButton w)
    (hideButton w) (consoleIframe w) (iframeWindow w) (isConsoleVisible w)
    (lastKnownWidth w) (lastKnownHeight w) (inputHistory w) (historyIndex w)
    (cumulativeExecutedCode w) (resizeObserver w).

Definition set_inputElement (v : option string) (w : Widget) : Widget :=
  mkWidget (textarea w) v (consoleDisplay w) (showButton w)
    (hideButton w) (consoleIframe w) (iframeWindow w) (isConsoleVisible w)
    (lastKnownWidth w) (lastKnownHeight w) (inputHistory w) (historyIndex w)
    (cumulativeExecutedCode w) (resizeObserver w).

Definition set_consoleDisplay (v : option DisplayElement) (w : Widget)
  : Widget :=
  mkWidget (textarea w) (inputElement w) v (showButton w)
    (hideButton w) (consoleIframe w) (iframeWindow w) (isConsoleVisible w)
    (lastKnownWidth w) (lastKnownHeight w) (inputHistory w) (historyIndex w)
    (cumulativeExecutedCode w) (resizeObserver w).

Definition set_showButton (v : option string) (w : Widget) : Widget :=
  mkWidget (textarea w) (inputElement w) (consoleDisplay w) v
    (hideButton w) (consoleIframe w) (iframeWindow w) (isConsoleVisible w)
    (lastKnownWidth w) (lastKnownHeight w) (inputHistory w) (historyIndex w)
    (cumulativeExecutedCode w) (resizeObserver w).

Definition set_hideButton (v : bool) (w : Widget) : Widget :=
  mkWidget (textarea w) (inputElement w) (consoleDisplay w) (showButton w)
    v (consoleIframe w) (iframeWindow w) (isConsoleVisible w)
    (lastKnownWidth w) (lastKnownHeight w) (inputHistory w) (historyIndex w)
    (cumulativeExecutedCode w) (resizeObserver w).

Definition set_consoleIframe (v : bool) (w : Widget) : Widget :=
  mkWidget (textarea w) (inputElement w) (consoleDisplay w) (showButton w)
    (hideButton w) v (iframeWindow w) (isConsoleVisible w)
    (lastKnownWidth w) (lastKnownHeight w) (inputHistory w) (historyIndex w)
    (cumulativeExecutedCode w) (resizeObserver w).

Definition set_iframeWindow (v : option IframeWindow) (w : Widget) : Widget :=
  mkWidget (textarea w) (inputElement w) (consoleDisplay w) (showButton w)
    (hideButton w) (consoleIframe w) v (isConsoleVisible w)
    (lastKnownWidth w) (lastKnownHeight w) (inputHistory w) (historyIndex w)
    (cumulativeExecutedCode w) (resizeObserver w).

Definition set_isConsoleVisible (v : bool) (w : Widget) : Widget :=
  mkWidget (textarea w) (inputElement w) (consoleDisplay w) (showButton w)
    (hideButton w) (consoleIframe w) (iframeWindow w) v
    (lastKnownWidth w) (lastKnownHeight w) (inputHistory w) (historyIndex w)
    (cumulativeExecutedCode w) (resizeObserver w).

Definition set_inputHistory (v : list string) (w : Widget) : Widget :=
  mkWidget (textarea w) (inputElement w) (consoleDisplay w) (showButton w)
    (hideButton w) (consoleIframe w) (iframeWindow w) (isConsoleVisible w)
    (lastKnownWidth w) (lastKnownHeight w) v (historyIndex w)
    (cumulativeExecutedCode w) (resizeObserver w).

Definition set_historyIndex (v : Z) (w : Widget) : Widget :=
  mkWidget (textarea w) (inputElement w) (consoleDisplay w) (showButton w)
    (hideButton w) (consoleIframe w) (iframeWindow w) (isConsoleVisible w)
    (lastKnownWidth w) (lastKnownHeight w) (inputHistory w) v
    (cumulativeExecutedCode w) (resizeObserver w).

Definition set_cumulativeExecutedCode (v : string) (w : Widget) : Widget :=
  mkWidget (textarea w) (inputElement w) (consoleDisplay w) (showButton w)
    (hideButton w) (consoleIframe w) (iframeWindow w) (isConsoleVisible w)
    (lastKnownWidth w) (lastKnownHeight w) (inputHistory w) (historyIndex w)
    v (resizeObserver w).

Definition set_resizeObserver (v : option bool) (w : Widget) : Widget :=
  mkWidget (textarea w) (inputElement w) (consoleDisplay w) (showButton w)
    (hideButton w) (consoleIframe w) (iframeWindow w) (isConsoleVisible w)
    (lastKnownWidth w) (lastKnownHeight w) (inputHistory w) (historyIndex w)
    (cumulativeExecutedCode w) v.

Definition set_consoleMessageBuffer (v : list MessageEntry) (W : World)
  : World :=
  mkWorld v (activeConsoleAppender W) (originalConsole W) (localStorage W)
    (widgets W) (nextWidget W) (nextFunction W) (clockReads W) (strangers W).

Definition set_activeConsoleAppender (v : option BoundFunction) (W : World)
  : World :=
  mkWorld (consoleMessageBuffer W) v (originalConsole W) (localStorage W)
    (widgets W) (nextWidget W) (nextFunction W) (clockReads W) (strangers W).

Definition set_originalConsole (v : list (ConsoleMethod * list Value))
  (W : World) : World :=
  mkWorld (consoleMessageBuffer W) (activeConsoleAppender W) v
    (localStorage W) (widgets W) (nextWidget W) (nextFunction W)
    (clockReads W) (strangers W).

Definition set_localStorage (v : gmap string string) (W : World) : World :=
  mkWorld (consoleMessageBuffer W) (activeConsoleAppender W)
    (originalConsole W) v (widgets W) (nextWidget W) (nextFunction W)
    (clockReads W) (strangers W).

Definition set_widgets (v : gmap nat Widget) (W : World) : World :=
  mkWorld (consoleMessageBuffer W) (activeConsoleAppender W)
    (originalConsole W) (localStorage W) v (nextWidget W) (nextFunction W)
    (clockReads W) (strangers W).

Definition set_nextWidget (v : nat) (W : World) : World :=
  mkWorld (consoleMessageBuffer W) (activeConsoleAppender W)
    (originalConsole W) (localStorage W) (widgets W) v (nextFunction W)
    (clockReads W) (strangers W).

Definition set_nextFunction (v : nat) (W : World) : World :=
  mkWorld (consoleMessageBuffer W) (activeConsoleAppender W)
    (originalConsole W) (localStorage W) (widgets W) (nextWidget W) v
    (clockReads W) (strangers W).

Definition set_clockReads (v : nat) (W : World) : World :=
  mkWorld (consoleMessageBuffer W) (activeConsoleAppender W)
    (originalConsole W) (localStorage W) (widgets W) (nextWidget W)
    (nextFunction W) v (strangers W).

Definition set_strangers (v : gmap nat Value) (W : World) : World :=
  mkWorld (consoleMessageBuffer W) (activeConsoleAppender W)
    (originalConsole W) (localStorage W) (widgets W) (nextWidget W)
    (nextFunction W) (clockReads W) v.

(** *** The monad: state of the world, and exceptions *)

Definition M (A : Type) : Type := World -> Outcome A * World.

Definition ret {A : Type} (a : A) : M A := fun W => (Normal a, W).

Definition bind {A B : Type} (m : M A) (k : A -> M B) : M B :=
  fun W =>
    match m W with
    | (Normal a, W') => k a W'
    | (Throw e, W') => (Throw e, W')
    end.

Definition throw {A : Type} (e : Value) : M A := fun W => (Throw e, W).

(** [try { body } catch (e) { handler }] *)
Definition try_catch {A : Type} (body : M A) (handler : Value -> M A) : M A :=
  fun W =>
    match body W with
    | (Normal a, W') => (Normal a, W')
    | (Throw e, W') => handler e W'
    end.

(** An expression that touches nothing but may throw. *)
Definition lift {A : Type} (c : Outcome A) : M A := fun W => (c, W).

Definition get : M World := fun W => (Normal W, W).

Definition modify (f : World -> World) : M unit := fun W => (Normal tt, f W).

#[global] Instance M_ret : MRet M := @ret.
#[global] Instance M_bind : MBind M := fun A B k m => bind m k.

(** The world a computation leaves, and its completion. *)
Definition exec {A : Type} (m : M A) (W : World) : World := snd (m W).
Definition completion {A : Type} (m : M A) (W : World) : Outcome A :=
  fst (m W).

#[global] Instance Widget_inhabited : Inhabited Widget :=
  populate (mkWidget None None None None false false None false "" "" [] 0
              "" None).

(** [this]: the instance a method runs on, read from the heap now. *)
Definition the (this : nat) : M Widget :=
  fun W => (Normal (widgets W !!! this), W).

(** An assignment to fields of [this]. *)
Definition update (this : nat) (f : Widget -> Widget) : M unit :=
  modify (fun W => set_widgets (alter f this (widgets W)) W).

(** [new Date().toLocaleTimeString()] *)
Definition now : M string :=
  fun W => (Normal (host_toLocaleTimeString (clockReads W)),
            set_clockReads (S (clockReads W)) W).

(** [originalLog.apply(console, args)] and its two siblings *)
Definition original (method : ConsoleMethod) (args : list Value) : M unit :=
  modify (fun W => set_originalConsole (originalConsole W ++ [(method, args)]) W).

(** *** formatConsoleMessage *)

(** [String(v)] as the callback of [args.map] returns it. *)
Definition String_of (v : HostValue) : Outcome (option string) :=
  match host_String v with
  | Normal text => Normal (Some text)
  | Throw e => Throw e
  end.

(** What the callback of [args.map] returns; [None] is [undefined].
    What [String] throws is not caught. *)
Definition format_argument (arg : Value) : Outcome (option string) :=
  match arg with
  | JsHost v =>
      if host_typeof_object v then
        match host_JSON_stringify v with
        | Normal r => Normal r
        | Throw _ => String_of v
        end
      else String_of v
  | JsUndefined => Normal (Some "undefined")
  | JsNull => Normal (Some "null")
  | JsString s => Normal (Some s)
  end.

(** [args.map(...)]: the arguments in order, up to the first one whose
    conversion throws. *)
Fixpoint format_arguments (args : list Value)
  : Outcome (list (option string)) :=
  match args with
  | [] => Normal []
  | arg :: rest =>
      match format_argument arg with
      | Normal r =>
          match format_arguments rest with
          | Normal results => Normal (r :: results)
          | Throw e => Throw e
          end
      | Throw e => Throw e
      end
  end.

(** [join] writes an [undefined] element as the empty string. *)
Definition formatConsoleMessage (args : list Value) : Outcome string :=
  match format_arguments args with
  | Normal results =>
      Normal (JsStr.join " " (map (fun r => default "" r) results))
  | Throw e => Throw e
  end.

(** *** appendMessage *)

(** [`[${timestamp}] [${type}] ${message}\n`] *)
Definition line (timestamp type message : string) : string :=
  "[" +:+ timestamp +:+ "] [" +:+ type +:+ "] " +:+ message +:+ JsStr.newline.

Definition append_line (text : string) (w : Widget) : Widget :=
  match textarea w with
  | Some value => set_textarea (Some (value +:+ text)) w
  | None => w
  end.

(** [appendMessage(message, type, timestamp)]; every caller passes
    [type], and a missing [timestamp] reads the clock. *)
Definition appendMessage (this : nat) (message type : string)
  (timestamp : option string) : M unit :=
  ts ← match timestamp with
       | Some t => mret t
       | None => now
       end;
  update this (append_line (line ts type message)).

(** *** The intercepted console *)

Variable file : SourceFile.

Definition type_of (method : ConsoleMethod) : string :=
  match method with
  | log => "LOG"
  | warn => "WARN"
  | error => "ERROR"
  end.

Definition push_entry (entry : MessageEntry) : M unit :=
  modify (fun W =>
            set_consoleMessageBuffer (consoleMessageBuffer W ++ [entry]) W).

(** The body shared by the three wrappers, which differ in the type of
    the entry and in the original function they forward to. *)
Definition intercepted (method : ConsoleMethod) (args : list Value) : M unit :=
  time ← now;
  formattedMessage ← lift (formatConsoleMessage args);
  let messageEntry := mkEntry time (type_of method) formattedMessage in
  W ← get;
  match file, activeConsoleAppender W with
  | VirtualConsoleComponentRender, Some appender =>
      appendMessage (bound_this appender) (message messageEntry)
        (type messageEntry) (Some (timestamp messageEntry))
  | _, _ => push_entry messageEntry
  end;;
  original method args.

Definition console_log : list Value -> M unit := intercepted log.
Definition console_warn : list Value -> M unit := intercepted warn.
Definition console_error : list Value -> M unit := intercepted error.

(** *** localStorage *)

Definition WIDTH_KEY : string := "virtualConsoleWidth".
Definition HEIGHT_KEY : string := "virtualConsoleHeight".
Definition VISIBLE_KEY : string := "virtualConsoleVisible".
Definition HISTORY_KEY : string := "virtualConsoleHistory".

Definition getLocalStorageItem (key defaultValue : string) : M string :=
  try_catch
    (W ← get;
     match host_getItem_error (localStorage W) key with
     | Some e => throw e
     | None => mret (default defaultValue (localStorage W !! key))
     end)
    (fun e =>
       console_error [JsString "Error al leer de localStorage:"; e];;
       mret defaultValue).

Definition setLocalStorageItem (key value : string) : M unit :=
  try_catch
    (W ← get;
     match host_setItem_error (localStorage W) key value with
     | Some e => throw e
     | None => modify (fun W => set_localStorage (<[key := value]> (localStorage W)) W)
     end)
    (fun e => console_error [JsString "Error al escribir en localStorage:"; e]).

(** *** The class VirtualConsoleComponent *)

(** [constructor()]: returns the new instance.  [this.inputHistory.length]
    is read after the [try]: it throws when the history is [null].  An
    instance whose history is another value that is not a list of strings
    is recorded with that value among the [strangers]. *)
Definition constructor : M nat :=
  visible ← getLocalStorageItem VISIBLE_KEY "true";
  width ← getLocalStorageItem WIDTH_KEY "80vw";
  height ← getLocalStorageItem HEIGHT_KEY "25vh";
  stored ← getLocalStorageItem HISTORY_KEY "[]";
  parsed ← match host_JSON_parse stored with
           | Normal value => mret value
           | Throw e =>
               original error
                 [JsString "Error al cargar el historial de la consola:"; e];;
               mret (ParsedStrings [])
           end;
  match parsed with
  | ParsedStrings history =>
      W ← get;
      let this := nextWidget W in
      modify (fun W =>
                set_nextWidget (S this)
                  (set_widgets
                     (<[this :=
                          mkWidget None None None None false false None
                            (bool_decide (visible = "true")) width height
                            history (Z.of_nat (length history)) "" None]>
                        (widgets W)) W));;
      mret this
  | ParsedOther JsNull | ParsedOther JsUndefined =>
      throw (JsHost host_TypeError)
  | ParsedOther v =>
      W ← get;
      let this := nextWidget W in
      modify (fun W =>
                set_nextWidget (S this)
                  (set_strangers (<[this := v]> (strangers W)) W));;
      mret this
  end.

(** [setupIframeContext()]: the promise is taken as settled when the
    method returns. *)
Definition setupIframeContext (this : nat) : M unit :=
  w ← the this;
  if consoleIframe w
  then update this (set_iframeWindow (Some host_contentWindow))
  else original error [JsString "Iframe de consola no encontrado."].

(** The assignments of [updateVisibility] to the fields of [this]. *)
Definition show_or_hide (w : Widget) : Widget :=
  match consoleDisplay w, showButton w with
  | Some d, Some _ =>
      let visible := isConsoleVisible w in
      set_showButton (Some (if visible then "none" else "block"))
        (set_consoleDisplay
           (Some (mkDisplay (style_width d) (style_height d)
                    (if visible then "flex" else "none")
                    (if visible then "both" else "none")
                    (layoutWidth d) (layoutHeight d))) w)
  | _, _ => w
  end.

Definition updateVisibility (this : nat) : M unit :=
  update this show_or_hide.

Definition saveConsoleSize (this : nat) : M unit :=
  w ← the this;
  match consoleDisplay w with
  | Some d =>
      let actualWidth := offsetWidth d +:+ "px" in
      let actualHeight := offsetHeight d +:+ "px" in
      setLocalStorageItem WIDTH_KEY actualWidth;;
      setLocalStorageItem HEIGHT_KEY actualHeight
  | None => mret tt
  end.

Definition hideConsole (this : nat) : M unit :=
  update this (set_isConsoleVisible false);;
  updateVisibility this;;
  setLocalStorageItem VISIBLE_KEY "false";;
  saveConsoleSize this.

Definition showConsole (this : nat) : M unit :=
  update this (set_isConsoleVisible true);;
  updateVisibility this;;
  setLocalStorageItem VISIBLE_KEY "true".

(** One turn of the loop of [flushMessageBuffer] per unit of [fuel]. *)
Fixpoint flush_loop (fuel : nat) (this : nat) : M unit :=
  match fuel with
  | O => mret tt
  | S fuel' =>
      W ← get;
      match consoleMessageBuffer W with
      | [] => mret tt
      | entry :: rest =>
          modify (set_consoleMessageBuffer rest);;
          appendMessage this (message entry) (type entry)
            (Some (timestamp entry));;
          flush_loop fuel' this
      end
  end.

(** [flushMessageBuffer()]: the loop shortens the buffer at each turn,
    so its length bounds the number of turns. *)
Definition flushMessageBuffer (this : nat) : M unit :=
  W ← get;
  flush_loop (length (consoleMessageBuffer W)) this.

(** [this.appendMessage.bind(this)] *)
Definition bind_appendMessage (this : nat) : M BoundFunction :=
  W ← get;
  modify (set_nextFunction (S (nextFunction W)));;
  mret (mkBound (nextFunction W) this).

(** [a === b] for a variable holding [null] or a function *)
Definition strictly_equal (a : option BoundFunction) (b : BoundFunction)
  : bool :=
  match a with
  | Some f => Nat.eqb (fn_identity f) (fn_identity b)
  | None => false
  end.

(** [activeConsoleAppender = this.appendMessage.bind(this)] *)
Definition register (this : nat) : M unit :=
  appender ← bind_appendMessage this;
  modify (set_activeConsoleAppender (Some appender)).

(** [if (activeConsoleAppender === this.appendMessage.bind(this))
    activeConsoleAppender = null] *)
Definition unregister (this : nat) : M unit :=
  mine ← bind_appendMessage this;
  W ← get;
  if strictly_equal (activeConsoleAppender W) mine
  then modify (set_activeConsoleAppender None)
  else mret tt.

(** The references that [querySelector] finds in the template. *)
Definition query_elements (html : Template) (w : Widget) : Widget :=
  set_consoleIframe (tpl_consoleIframe html)
    (set_consoleDisplay (tpl_consoleDisplay html)
       (set_showButton (if tpl_showButton html then Some "" else None)
          (set_hideButton (tpl_hideButton html)
             (set_inputElement (tpl_consoleInput html)
                (set_textarea (tpl_consoleOutput html) w))))).

Definition apply_saved_size (w : Widget) : Widget :=
  match consoleDisplay w with
  | Some d =>
      set_consoleDisplay
        (Some (mkDisplay (lastKnownWidth w) (lastKnownHeight w)
                 (style_display d) (style_resize d)
                 (layoutWidth d) (layoutHeight d))) w
  | None => w
  end.

Definition observe_size (w : Widget) : Widget :=
  match consoleDisplay w with
  | Some _ => set_resizeObserver (Some true) w
  | None => w
  end.

Definition stop_observing (w : Widget) : Widget :=
  match resizeObserver w with
  | Some _ => set_resizeObserver (Some false) w
  | None => w
  end.

(** [connectedCallback()], given the template that [fetch] delivered.
    The listeners it installs are [on_keydown] and [on_input] below; the
    buttons call [clearConsole], [hideConsole] and [showConsole]. *)
Definition connectedCallback (this : nat) (html : Template) : M unit :=
  update this (query_elements html);;
  update this apply_saved_size;;
  update this observe_size;;
  setupIframeContext this;;
  match file with
  | VirtualConsoleComponentRender => register this
  | part_000 => mret tt
  end;;
  flushMessageBuffer this;;
  updateVisibility this.

Definition disconnectedCallback (this : nat) : M unit :=
  update this stop_observing;;
  match file with
  | VirtualConsoleComponentRender => unregister this
  | part_000 => mret tt
  end.

(** [history.length === 0 || history[history.length - 1] !== text] *)
Definition differs_from_last (history : list string) (text : string) : bool :=
  (Nat.eqb (length history) 0)
  || negb (bool_decide (last history = Some text)).

(** [this.inputHistory[i]]; [None] is [undefined]. *)
Definition history_entry (history : list string) (i : Z) : option string :=
  if i <? 0 then None else history !! Z.to_nat i.

(** The block that [navigateHistory] and [processInput] share:
    [if (history.length === 0 || last !== text) { push; persist }] *)
Definition remember (this : nat) (text : string) : M unit :=
  w ← the this;
  if differs_from_last (inputHistory w) text
  then
    update this (fun w => set_inputHistory (inputHistory w ++ [text]) w);;
    w ← the this;
    setLocalStorageItem HISTORY_KEY (JsStr.json_string_array (inputHistory w))
  else mret tt.

Definition move_cursor (direction : Z) (w : Widget) : Widget :=
  set_historyIndex (historyIndex w + direction) w.

Definition clamp_cursor (w : Widget) : Widget :=
  if historyIndex w <? 0 then set_historyIndex 0 w
  else if Z.of_nat (length (inputHistory w)) <? historyIndex w
       then set_historyIndex (Z.of_nat (length (inputHistory w))) w
       else w.

Definition show_entry (w : Widget) : Widget :=
  match inputElement w with
  | Some _ =>
      if historyIndex w =? Z.of_nat (length (inputHistory w))
      then set_inputElement (Some "") w
      else set_inputElement
             (Some (default "undefined"
                      (history_entry (inputHistory w) (historyIndex w))))
             w
  | None => w
  end.

Definition navigateHistory (this : nat) (direction : Z) : M unit :=
  w ← the this;
  match inputElement w with
  | None => mret tt
  | Some value =>
      (if (direction =? -1)
          && (historyIndex w =? Z.of_nat (length (inputHistory w)))
          && negb (JsStr.is_empty (JsStr.trim value))
       then remember this (JsStr.trim value)
       else mret tt);;
      update this (move_cursor direction);;
      update this clamp_cursor;;
      update this show_entry
  end.

(** [window.__appendConsoleMessage(msg, type, ts)] for each call of the
    console that the code made in the iframe. *)
Fixpoint report (this : nat) (reported : list MessageEntry) : M unit :=
  match reported with
  | [] => mret tt
  | entry :: rest =>
      appendMessage this (message entry) (type entry)
        (Some (timestamp entry));;
      report this rest
  end.

(** [this.iframeWindow.eval(code)]: what the console of the iframe
    reports reaches [appendMessage] of this instance while the code
    runs. *)
Definition iframe_eval (this : nat) (window : IframeWindow) (code : string)
  : M Value :=
  let '(window', reported, result) := host_eval window code in
  update this (set_iframeWindow (Some window'));;
  report this reported;;
  match result with
  | Normal v => mret v
  | Throw e => throw e
  end.

(** [`${e.message}`]: reading a property of [null] or [undefined]
    throws, and a string has no such property. *)
Definition message_of (e : Value) : Outcome string :=
  match e with
  | JsUndefined | JsNull => Throw (JsHost host_TypeError)
  | JsString _ => Normal "undefined"
  | JsHost v => Normal (host_message v)
  end.

(** [`${JSON.stringify(v, null, 2)}`] *)
Definition JSON_stringify (v : Value) : Outcome string :=
  match v with
  | JsUndefined => Normal "undefined"
  | JsNull => Normal "null"
  | JsString s => Normal (JsStr.json_string s)
  | JsHost h =>
      match host_JSON_stringify h with
      | Normal r => Normal (default "undefined" r)
      | Throw e => Throw e
      end
  end.

Definition is_undefined (v : Value) : bool :=
  match v with
  | JsUndefined => true
  | _ => false
  end.

(** The [try] and [catch] of [processInput]: the value of
    [resultToDisplay] after them. *)
Definition evaluate (this : nat) (window : IframeWindow)
  (finalCodeToExecute : string) : M Value :=
  try_catch
    (result ← iframe_eval this window finalCodeToExecute;
     update this (set_cumulativeExecutedCode finalCodeToExecute);;
     mret result)
    (fun e =>
       text ← lift (message_of e);
       appendMessage this ("  Error: " +:+ text) "ERROR" None;;
       mret JsUndefined).

(** The marker shown when there is no value to show. *)
Definition result_marker (input : string) : string :=
  if JsStr.matches_declaration (JsStr.trim input)
  then "  < (Declaración ejecutada)"
  else "  < (undefined)".

(** The last statement of [processInput]. *)
Definition display_result (this : nat) (input : string)
  (resultToDisplay : Value) : M unit :=
  if negb (is_undefined resultToDisplay)
  then
    text ← lift (JSON_stringify resultToDisplay);
    appendMessage this ("  < " +:+ text) "OUTPUT" None
  else appendMessage this (result_marker input) "OUTPUT" None.

Definition processInput (this : nat) (input : string) : M unit :=
  if JsStr.is_empty (JsStr.trim input) then mret tt
  else
    remember this (JsStr.trim input);;
    appendMessage this ("> " +:+ input) "INPUT" None;;
    w ← the this;
    match iframeWindow w with
    | None =>
        appendMessage this
          "  Error: El contexto de la consola no está listo." "ERROR" None
    | Some window =>
        let finalCodeToExecute :=
          cumulativeExecutedCode w +:+ JsStr.newline +:+ input in
        resultToDisplay ← evaluate this window finalCodeToExecute;
        display_result this input resultToDisplay
    end.

Definition clear_output (w : Widget) : Widget :=
  match textarea w with
  | Some _ => set_textarea (Some "") w
  | None => w
  end.

Definition clearConsole (this : nat) : M unit :=
  update this clear_output;;
  update this (set_cumulativeExecutedCode "");;
  setupIframeContext this;;
  appendMessage this "Consola y contexto de ejecución limpiados." "SYSTEM"
    None.

(** *** The listeners installed by connectedCallback *)

Inductive Key : Type := Enter | ArrowUp | ArrowDown | OtherKey.

Definition reset_cursor (w : Widget) : Widget :=
  set_historyIndex (Z.of_nat (length (inputHistory w))) w.

(** The [keydown] listener of the input field. *)
Definition on_keydown (this : nat) (key : Key) : M unit :=
  w ← the this;
  match inputElement w with
  | None => mret tt
  | Some value =>
      match key with
      | Enter =>
          processInput this value;;
          update this (set_inputElement (Some ""));;
          update this reset_cursor
      | ArrowUp => navigateHistory this (-1)
      | ArrowDown => navigateHistory this 1
      | OtherKey => mret tt
      end
  end.

Definition edited (value : string) (w : Widget) : Widget :=
  match inputElement w with
  | Some _ =>
      let w := set_inputElement (Some value) w in
      if negb (historyIndex w =? Z.of_nat (length (inputHistory w)))
         && negb (bool_decide
                    (history_entry (inputHistory w) (historyIndex w)
                     = Some value))
      then set_historyIndex (Z.of_nat (length (inputHistory w))) w
      else w
  | None => w
  end.

(** The [input] listener, after the user changed the field to [value]. *)
Definition on_input (this : nat) (value : string) : M unit :=
  update this (edited value).

(** *** The event loop *)

(** What can happen to the page: a call of the console from any script,
    the life cycle of an element, and the actions of the user. *)
Inductive Event : Type :=
| ev_console (method : ConsoleMethod) (args : list Value)
| ev_new
| ev_connected (this : nat) (html : Template)
| ev_disconnected (this : nat)
| ev_keydown (this : nat) (key : Key)
| ev_input (this : nat) (value : string)
| ev_click_clear (this : nat)
| ev_click_hide (this : nat)
| ev_click_show (this : nat).

Definition handle (ev : Event) : M unit :=
  match ev with
  | ev_console method args => intercepted method args
  | ev_new => constructor;; mret tt
  | ev_connected this html => connectedCallback this html
  | ev_disconnected this => disconnectedCallback this
  | ev_keydown this key => on_keydown this key
  | ev_input this value => on_input this value
  | ev_click_clear this => clearConsole this
  | ev_click_hide this => hideConsole this
  | ev_click_show this => showConsole this
  end.

(** An exception that leaves a handler ends that handler only. *)
Definition run (events : list Event) (W : World) : World :=
  fold_left (fun W ev => exec (handle ev) W) events W.

(** The page before the script has run anything. *)
Definition initial (storage : gmap string string) : World :=
  mkWorld [] None [] storage ∅ 0 0 0 ∅.

End Console.

Arguments Widget {H}.
Arguments World {H}.
Arguments Event {H}.

(** ** A small browser, to run the script on *)

Module Demo.

(** Values of the host: integers, a plain object with its JSON text, an
    object that contains itself, the same without a prototype
    ([o = Object.create(null); o.self = o]), and error objects. *)
Inductive DemoValue : Type :=
| DNumber (n : nat)
| DObject (json : string)
| DCircular
| DBare
| DError (name text : string).

Definition nullRead : DemoValue :=
  DError "TypeError" "Cannot read properties of null (reading 'message')".

Definition circularStructure : DemoValue :=
  DError "TypeError" "Converting circular structure to JSON".

Definition notPrimitive : DemoValue :=
  DError "TypeError" "Cannot convert object to primitive value".

Definition digit (n : nat) : string :=
  String (ascii_of_nat (48 + n)) EmptyString.

(** Decimal text of a number below 100. *)
Definition decimal (n : nat) : string :=
  if Nat.ltb n 10 then digit n
  else digit (Nat.div n 10) +:+ digit (Nat.modulo n 10).

Definition demo_stringify (v : DemoValue)
  : Completion DemoValue (option string) :=
  match v with
  | DNumber n => Normal (Some (decimal n))
  | DObject json => Normal (Some json)
  | DCircular | DBare => Throw (JsHost circularStructure)
  | DError _ _ => Normal (Some "{}")
  end.

Definition demo_String (v : DemoValue) : Completion DemoValue string :=
  match v with
  | DNumber n => Normal (decimal n)
  | DObject _ | DCircular => Normal "[object Object]"
  | DBare => Throw (JsHost notPrimitive)
  | DError name text => Normal (name +:+ ": " +:+ text)
  end.

Definition demo_message (v : DemoValue) : string :=
  match v with
  | DError _ text => text
  | _ => "undefined"
  end.

Definition demo_typeof_object (v : DemoValue) : bool :=
  match v with
  | DNumber _ => false
  | _ => true
  end.

Definition nl : string := JsStr.newline.

(** The programs the demonstrations submit, and what a browser answers.
    The window counts the evaluations it has run. *)
Definition demo_eval (window : nat) (code : string)
  : nat * list MessageEntry * Completion DemoValue (JsValue DemoValue) :=
  if bool_decide (code = nl +:+ "let x = 1;")
  then (S window, [], Normal JsUndefined)
  else if bool_decide (code = nl +:+ "let x = 1;" +:+ nl +:+ "x + 1")
  then (S window, [], Normal (JsHost (DNumber 2)))
  else if bool_decide (code = nl +:+ "var a = {}; a.self = a; a")
  then (S window, [], Normal (JsHost DCircular))
  else if bool_decide (code = nl +:+ "throw null")
  then (S window, [], Throw JsNull)
  else if bool_decide (code = nl +:+ "y")
  then (S window, [], Throw (JsHost (DError "ReferenceError" "y is not defined")))
  else if bool_decide (code = nl +:+ "let z = y;")
  then (S window, [], Throw (JsHost (DError "ReferenceError" "y is not defined")))
  else if bool_decide (code = nl +:+ "console.log(7)")
  then (S window, [mkEntry "09:00:00" "IFRAME_LOG" "7"], Normal JsUndefined)
  else (S window, [], Normal JsUndefined).

Definition demo_parse (stored : string)
  : Completion DemoValue (Parsed DemoValue) :=
  if bool_decide (stored = "[]") then Normal (ParsedStrings [])
  else if bool_decide (stored = JsStr.json_string_array ["let x = 1;"])
  then Normal (ParsedStrings ["let x = 1;"])
  else if bool_decide (stored = "null") then Normal (ParsedOther JsNull)
  else if bool_decide (stored = "5")
  then Normal (ParsedOther (JsHost (DNumber 5)))
  else Throw (JsHost (DError "SyntaxError" "Unexpected token")).

#[export] Instance browser : Host := {|
  HostValue := DemoValue;
  IframeWindow := nat;
  host_typeof_object := demo_typeof_object;
  host_JSON_stringify := demo_stringify;
  host_String := demo_String;
  host_message := demo_message;
  host_TypeError := nullRead;
  host_toLocaleTimeString := fun n => "10:00:" +:+ decimal (10 + n);
  host_contentWindow := 0%nat;
  host_eval := demo_eval;
  host_getItem_error := fun _ _ => None;
  host_setItem_error := fun _ _ _ => None;
  host_JSON_parse := demo_parse;
  host_getItem_error_json := ltac:(intros; discriminate);
  host_setItem_error_json := ltac:(intros; discriminate)
|}.

Definition html : Template :=
  mkTemplate (Some "") (Some "") true true true
    (Some (mkDisplay "" "" "" "" "640" "200")) true.

Definition main : SourceFile := VirtualConsoleComponentRender.

(** One widget, constructed and attached to the page: widget 0. *)
Definition ready : World :=
  run main [ev_new; ev_connected 0 html] (initial ∅).

(** The same in the other file. *)
Definition ready0 : World :=
  run part_000 [ev_new; ev_connected 0 html] (initial ∅).

Definition field {A : Type} (f : Widget -> A) (this : nat) (W : World)
  : option A :=
  f <$> widgets W !! this.

(** Widget 0 in a world. *)
Definition instance (W : World) : Widget := widgets W !!! 0%nat.

(** Widget 0 constructed but not attached: the slot is empty. *)
Definition constructed : World := run main [ev_new] (initial ∅).


(** The user has submitted [let x = 1;]. *)
Definition submitted : World :=
  run main [ev_input 0 "let x = 1;"; ev_keydown 0 Enter] ready.

End Demo.

(** ** What the statements below are written with *)

Section Statements.

Context `{H : Host}.

(** The arguments of a console call can be written: no [String(arg)]
    throws. *)
Definition formats (args : list (JsValue HostValue)) : bool :=
  match formatConsoleMessage args with
  | Normal _ => true
  | Throw _ => false
  end.

(** The entries that a list of console calls creates when the first of
    them makes the n-th reading of the clock.  A call whose arguments
    cannot be written reads the clock and makes no entry. *)
Fixpoint entries_from (n : nat)
  (calls : list (ConsoleMethod * list (JsValue HostValue)))
  : list MessageEntry :=
  match calls with
  | [] => []
  | (method, args) :: calls' =>
      match formatConsoleMessage args with
      | Normal text =>
          mkEntry (host_toLocaleTimeString n) (type_of method) text
          :: entries_from (S n) calls'
      | Throw _ => entries_from (S n) calls'
      end
  end.

(** The calls of a list that reach the original console. *)
Definition forwarded
  (calls : list (ConsoleMethod * list (JsValue HostValue)))
  : list (ConsoleMethod * list (JsValue HostValue)) :=
  List.filter (fun call => formats (snd call)) calls.

(** A list of console calls as events of the page. *)
Definition console_calls
  (calls : list (ConsoleMethod * list (JsValue HostValue))) : list Event :=
  map (fun call => ev_console (fst call) (snd call)) calls.

(** The text of a list of entries in the output area. *)
Fixpoint render (entries : list MessageEntry) : string :=
  match entries with
  | [] => ""
  | entry :: rest =>
      line (timestamp entry) (type entry) (message entry) +:+ render rest
  end.

(** The same text spelled out: one line for each entry, the time and the
    type in brackets before the message. *)
Fixpoint transcript (entries : list MessageEntry) : string :=
  match entries with
  | [] => ""
  | entry :: rest =>
      "[" +:+ timestamp entry +:+ "] [" +:+ type entry +:+ "] "
      +:+ message entry +:+ JsStr.newline +:+ transcript rest
  end.

(** How a call of the intercepted console completes. *)
Definition answered (args : list (JsValue HostValue)) : Completion HostValue unit :=
  match formatConsoleMessage args with
  | Normal _ => Normal tt
  | Throw e => Throw e
  end.

(** The world after a call of the intercepted console in
    VirtualConsoleComponentRender.js, written out.  When an argument
    cannot be written only the clock has been read. *)
Definition routed (method : ConsoleMethod)
  (args : list (JsValue HostValue)) (W : World) : World :=
  let W1 := set_clockReads (S (clockReads W)) W in
  match formatConsoleMessage args with
  | Throw _ => W1
  | Normal text =>
      let entry :=
        mkEntry (host_toLocaleTimeString (clockReads W)) (type_of method)
          text in
      set_originalConsole (originalConsole W ++ [(method, args)])
        (match activeConsoleAppender W with
         | Some appender =>
             set_widgets
               (alter
                  (append_line
                     (line (timestamp entry) (type entry) (message entry)))
                  (bound_this appender) (widgets W)) W1
         | None =>
             set_consoleMessageBuffer (consoleMessageBuffer W ++ [entry]) W1
         end)
  end.

(** The same for part_000: the entry always goes to the buffer. *)
Definition buffered (method : ConsoleMethod)
  (args : list (JsValue HostValue)) (W : World) : World :=
  let W1 := set_clockReads (S (clockReads W)) W in
  match formatConsoleMessage args with
  | Throw _ => W1
  | Normal text =>
      let entry :=
        mkEntry (host_toLocaleTimeString (clockReads W)) (type_of method)
          text in
      set_originalConsole (originalConsole W ++ [(method, args)])
        (set_consoleMessageBuffer (consoleMessageBuffer W ++ [entry]) W1)
  end.

(** Between two worlds, no instance changed but for text added to its
    output area. *)
Definition quiet (W W' : World) : Prop :=
  forall j, exists add,
    widgets W' !! j = append_line add <$> widgets W !! j.

(** What [setLocalStorageItem(key, value)] leaves in the store. *)
Definition stored (key value : string) (store : gmap string string)
  : gmap string string :=
  match host_setItem_error store key value with
  | Some _ => store
  | None => <[key := value]> store
  end.

(** The instance after the history block of [navigateHistory] and
    [processInput], before any text is added to the output area. *)
Definition remembered (text : string) (w : Widget) : Widget :=
  if differs_from_last (inputHistory w) text
  then set_inputHistory (inputHistory w ++ [text]) w
  else w.

(** The instance once the code has run in the iframe: the window as the
    code left it, and what the console of the iframe reported. *)
Definition evaluated (window' : IframeWindow) (reported : list MessageEntry)
  (w : Widget) : Widget :=
  append_line (render reported) (set_iframeWindow (Some window') w).

(** Every world that a computation can leave is related to the world it
    started in, whether it returns or throws. *)
Definition sat {A : Type} (R : World -> World -> Prop) (m : M A) : Prop :=
  forall W, R W (snd (m W)).

(** A relation between worlds that no assignment to an instance, to the
    clock, to the original console, to the store or to the counter of
    instances breaks, nor an entry added to the buffer. *)
Class Harmless (R : World -> World -> Prop) : Prop := {
  harmless_refl : forall W, R W W;
  harmless_trans : forall W1 W2 W3, R W1 W2 -> R W2 W3 -> R W1 W3;
  harmless_widgets : forall W v, R W (set_widgets v W);
  harmless_clock : forall W v, R W (set_clockReads v W);
  harmless_original : forall W v, R W (set_originalConsole v W);
  harmless_storage : forall W v, R W (set_localStorage v W);
  harmless_nextWidget : forall W v, R W (set_nextWidget v W);
  harmless_push :
    forall W entry,
      R W (set_consoleMessageBuffer (consoleMessageBuffer W ++ [entry]) W)
}.

(** The buffer only grows at its end. *)
Definition buffer_grows (W W' : World) : Prop :=
  exists more, consoleMessageBuffer W' = consoleMessageBuffer W ++ more.

(** The slot and the counter of function objects are as they were. *)
Definition slot_kept (W W' : World) : Prop :=
  activeConsoleAppender W' = activeConsoleAppender W
  /\ nextFunction W' = nextFunction W.

(** Two worlds that differ at most in the buffer and in what the
    original console received. *)
Definition alike (W1 W2 : World) : Prop :=
  activeConsoleAppender W1 = activeConsoleAppender W2
  /\ localStorage W1 = localStorage W2
  /\ widgets W1 = widgets W2
  /\ nextWidget W1 = nextWidget W2
  /\ nextFunction W1 = nextFunction W2
  /\ clockReads W1 = clockReads W2
  /\ strangers W1 = strangers W2.


(** Every function object in use was made before the next one. *)
Definition functions_allocated (W : World) : Prop :=
  match activeConsoleAppender W with
  | Some f => (fn_identity f < nextFunction W)%nat
  | None => True
  end.

(** The cursor of the history is an index of the list or its length. *)
Definition cursor_in_range (w : Widget) : Prop :=
  0 <= historyIndex w <= Z.of_nat (length (inputHistory w)).

(** An index brought into [0, n]. *)
Definition clamped (n i : Z) : Z := Z.max 0 (Z.min n i).

(** The arrow keys pressed one after the other: [-1] is up, [1] down. *)
Definition navigate (file : SourceFile) (this : nat) (directions : list Z)
  (W : World) : World :=
  fold_left (fun W direction => exec (navigateHistory file this direction) W)
    directions W.

(** The instance as [navigateHistory] finds it after its first block. *)
Definition drafted (direction : Z) (value : string) (w : Widget) : Widget :=
  if (direction =? -1)
     && (historyIndex w =? Z.of_nat (length (inputHistory w)))
     && negb (JsStr.is_empty (JsStr.trim value))
  then remembered (JsStr.trim value) w
  else w.

(** A step that keeps [functions_allocated]. *)
Definition allocated_kept (W W' : World) : Prop :=
  functions_allocated W -> functions_allocated W'.


End Statements.

(** ** More of what the statements are written with *)

Section Sessions.

Context `{H : Host}.

(** The world after a call of the intercepted console, in either file. *)
Definition logged (file : SourceFile) (method : ConsoleMethod)
  (args : list (JsValue HostValue)) (W : World) : World :=
  match file with
  | VirtualConsoleComponentRender => routed method args W
  | part_000 => buffered method args W
  end.

(** The store never refuses a read or a write. *)
Definition storage_works : Prop :=
  (forall store key, host_getItem_error store key = None)
  /\ (forall store key value, host_setItem_error store key value = None).

(** The instance when [connectedCallback] has run with a template, the
    buffer holding the given entries. *)
Definition attached (html : Template) (buffer : list MessageEntry)
  (w : Widget) : Widget :=
  let w0 := observe_size (apply_saved_size (query_elements html w)) in
  show_or_hide
    (append_line (render buffer)
       (if consoleIframe w0
        then set_iframeWindow (Some host_contentWindow) w0
        else w0)).

(** The history that the constructor reads from the store. *)
Definition loaded_history (store : gmap string string) : list string :=
  match host_JSON_parse (default "[]" (store !! HISTORY_KEY)) with
  | Normal (ParsedStrings history) => history
  | _ => []
  end.

(** The store holds no history, a list of strings, or a text that is not
    JSON: the constructor makes an instance with a list as its history. *)
Definition history_loads (store : gmap string string) : Prop :=
  match host_JSON_parse (default "[]" (store !! HISTORY_KEY)) with
  | Normal (ParsedOther _) => False
  | _ => True
  end.

(** The instance that the constructor makes when the store can be read
    and its history loads. *)
Definition fresh (store : gmap string string) : Widget :=
  mkWidget None None None None false false None
    (bool_decide (default "true" (store !! VISIBLE_KEY) = "true"))
    (default "80vw" (store !! WIDTH_KEY))
    (default "25vh" (store !! HEIGHT_KEY))
    (loaded_history store) (Z.of_nat (length (loaded_history store))) ""
    None.

(** The store after [saveConsoleSize] on an instance, when the store
    works: the size is that of the box of the panel, which is 0 once
    [updateVisibility] has hidden it. *)
Definition saved_size (store : gmap string string) (w : Widget)
  : gmap string string :=
  match consoleDisplay w with
  | Some d =>
      <[HEIGHT_KEY := offsetHeight d +:+ "px"]>
        (<[WIDTH_KEY := offsetWidth d +:+ "px"]> store)
  | None => store
  end.

(** What [getLocalStorageItem(key, defaultValue)] returns. *)
Definition read_item (key defaultValue : string)
  (store : gmap string string) : string :=
  match host_getItem_error store key with
  | Some _ => defaultValue
  | None => default defaultValue (store !! key)
  end.

(** The texts that the constructors run by a list of events hand to
    [JSON.parse], in the order of the events. *)
Fixpoint history_reads (file : SourceFile) (events : list Event) (W : World)
  : list string :=
  match events with
  | [] => []
  | ev :: rest =>
      match ev with
      | ev_new => [read_item HISTORY_KEY "[]" (localStorage W)]
      | _ => []
      end
      ++ history_reads file rest (exec (handle file ev) W)
  end.

(** [JSON.parse] of a text throws, or returns a list of strings that is
    [Good]. *)
Definition parses_to (Good : list string -> Prop) (text : string) : Prop :=
  match host_JSON_parse text with
  | Normal (ParsedStrings history) => Good history
  | Normal (ParsedOther _) => False
  | Throw _ => True
  end.

(** Between two worlds, no instance was made whose history is not a
    list. *)
Definition same_strangers (W W' : World) : Prop :=
  strangers W' = strangers W.

(** The page loaded again: the script starts over, the store is kept. *)
Definition reload (W : World) : World := initial (localStorage W).

(** Every instance of the heap satisfies [P]. *)
Definition every_widget (P : Widget -> Prop) (W : World) : Prop :=
  forall this w, widgets W !! this = Some w -> P w.

(** A step from a heap whose instances satisfy [P] to another one. *)
Definition kept (P : Widget -> Prop) (W W' : World) : Prop :=
  every_widget P W -> every_widget P W'.

(** A property of the history and its cursor that the methods keep: it
    does not depend on the other fields; the history block, the arrow
    keys and the reset of the cursor keep it; an instance made with a
    history that is [Good] and the cursor at its end has it. *)
Class Stable (P : Widget -> Prop) (Good : list string -> Prop) : Prop := {
  stable_fields :
    forall w w',
      inputHistory w' = inputHistory w -> historyIndex w' = historyIndex w ->
      P w -> P w';
  stable_remembered :
    forall text w,
      JsStr.is_empty text = false -> P w -> P (remembered text w);
  stable_navigate :
    forall direction w, P w -> P (clamp_cursor (move_cursor direction w));
  stable_reset : forall w, P w -> P (reset_cursor w);
  stable_fresh :
    forall w,
      Good (inputHistory w) ->
      historyIndex w = Z.of_nat (length (inputHistory w)) -> P w;
  stable_nil : Good []
}.

(** No entry of the list is followed by an equal one. *)
Fixpoint no_repeat (history : list string) : Prop :=
  match history with
  | x :: (y :: _) as rest => x <> y /\ no_repeat rest
  | _ => True
  end.

(** A history without empty entries and without repeats. *)
Definition tidy (history : list string) : Prop :=
  Forall (fun text => text <> "") history /\ no_repeat history.

(** Between two worlds, no instance but [this] changed. *)
Definition others_kept (this : nat) (W W' : World) : Prop :=
  forall other, other <> this -> widgets W' !! other = widgets W !! other.

(** The instance that an event of the page belongs to. *)
Definition event_of (ev : Event) : option nat :=
  match ev with
  | ev_console _ _ | ev_new => None
  | ev_connected this _ | ev_disconnected this | ev_keydown this _
  | ev_input this _ | ev_click_clear this | ev_click_hide this
  | ev_click_show this => Some this
  end.

(** The texts submitted one after the other. *)
Definition submissions (file : SourceFile) (this : nat)
  (inputs : list string) (W : World) : World :=
  fold_left (fun W input => exec (processInput file this input) W) inputs W.

(** What a list of accepted inputs adds to the accumulated program. *)
Fixpoint appended (inputs : list string) : string :=
  match inputs with
  | [] => ""
  | input :: rest => JsStr.newline +:+ input +:+ appended rest
  end.

End Sessions.

(** ** debounce

    [debounce(func, delay)] returns a function that keeps one variable,
    [timeout], and talks to the timers of the page.  The timers are
    modelled by a clock that advances by ticks of one millisecond and a
    list of pending timers in the order in which they were set; a timer
    runs at the first tick at which its delay has passed.  A run of a
    timer set by the debounced function is a call of [func] with the
    context and the arguments of the call that set it, which are kept
    together as a value of [A]. *)

Module Debounce.

Section Timers.

Variable A : Type.

Record Timer : Type := mkTimer {
  timer_id : nat;
  due : nat;
  call : A
}.

Record State : Type := mkState {
  (** milliseconds since the page started *)
  time : nat;
  (** the id that [setTimeout] returns next *)
  nextTimer : nat;
  pending : list Timer;
  (** the variable of the closure; [None] is [undefined] *)
  timeout : option nat;
  (** the calls of [func] so far, each with the time at which it ran *)
  calls : list (nat * A)
}.

Definition start : State := mkState 0 0 [] None [].

(** [clearTimeout(id)]: an id that is [undefined], or that belongs to no
    pending timer, clears nothing. *)
Definition clearTimeout (id : option nat) (st : State) : State :=
  match id with
  | Some i =>
      mkState (time st) (nextTimer st)
        (filter (fun t => timer_id t <> i) (pending st))
        (timeout st) (calls st)
  | None => st
  end.

(** [setTimeout(() => func.apply(context, args), delay)] *)
Definition setTimeout (c : A) (delay : nat) (st : State) : nat * State :=
  (nextTimer st,
   mkState (time st) (S (nextTimer st))
     (pending st ++ [mkTimer (nextTimer st) (time st + delay) c])
     (timeout st) (calls st)).

(** The function that [debounce(func, delay)] returns, called with [c]. *)
Definition debounced (delay : nat) (c : A) (st : State) : State :=
  let st1 := clearTimeout (timeout st) st in
  let '(id, st2) := setTimeout c delay st1 in
  mkState (time st2) (nextTimer st2) (pending st2) (Some id) (calls st2).

(** One millisecond passes; the timers that are due run in the order in
    which they were set. *)
Definition tick (st : State) : State :=
  let now := S (time st) in
  let ready := filter (fun t => due t <= now)%nat (pending st) in
  mkState now (nextTimer st)
    (filter (fun t => ~ (due t <= now)%nat) (pending st))
    (timeout st)
    (calls st ++ map (fun t => (now, call t)) ready).

Fixpoint ticks (n : nat) (st : State) : State :=
  match n with
  | O => st
  | S n' => ticks n' (tick st)
  end.

Inductive Step : Type :=
| Call (c : A)
| Tick.

Definition step (delay : nat) (st : State) (s : Step) : State :=
  match s with
  | Call c => debounced delay c st
  | Tick => tick st
  end.

Definition run (delay : nat) (steps : list Step) (st : State) : State :=
  fold_left (step delay) steps st.

(** Calls in quick succession: each call is followed by its number of
    ticks. *)
Definition burst (delay : nat) (calls : list (A * nat)) (st : State)
  : State :=
  fold_left (fun st c => ticks (snd c) (debounced delay (fst c) st)) calls st.

(** At most one timer is pending, and it is the one that [timeout]
    names. *)
Definition one_pending (st : State) : Prop :=
  match pending st with
  | [] => True
  | [t] => timeout st = Some (timer_id t)
  | _ => False
  end.

End Timers.

Arguments mkTimer {A}.
Arguments timer_id {A}.
Arguments due {A}.
Arguments call {A}.
Arguments mkState {A}.
Arguments time {A}.
Arguments nextTimer {A}.
Arguments pending {A}.
Arguments timeout {A}.
Arguments calls {A}.
Arguments start {A}.
Arguments clearTimeout {A}.
Arguments setTimeout {A}.
Arguments debounced {A}.
Arguments tick {A}.
Arguments ticks {A}.
Arguments Call {A}.
Arguments Tick {A}.
Arguments step {A}.
Arguments run {A}.
Arguments burst {A}.
Arguments one_pending {A}.

End Debounce.

(** ** More of the small browser *)

Module Scenes.

Import Demo.

Definition quotaExceeded : DemoValue :=
  DError "QuotaExceededError" "The quota has been exceeded.".

Definition securityError : DemoValue :=
  DError "SecurityError" "The operation is insecure.".

(** The small browser with a store that refuses every read and write. *)
Definition locked : Host := {|
  HostValue := DemoValue;
  IframeWindow := nat;
  host_typeof_object := demo_typeof_object;
  host_JSON_stringify := demo_stringify;
  host_String := demo_String;
  host_message := demo_message;
  host_TypeError := nullRead;
  host_toLocaleTimeString := fun n => "10:00:" +:+ decimal (10 + n);
  host_contentWindow := 0%nat;
  host_eval := demo_eval;
  host_getItem_error := fun _ _ => Some (JsHost securityError);
  host_setItem_error := fun _ _ _ => Some (JsHost quotaExceeded);
  host_JSON_parse := demo_parse;
  host_getItem_error_json :=
    ltac:(intros store key e [= <-];
          by exists securityError, (Some "{}"));
  host_setItem_error_json :=
    ltac:(intros store key value e [= <-];
          by exists quotaExceeded, (Some "{}"))
|}.

(** A template without the iframe, and one without the output area. *)
Definition without_iframe : Template :=
  mkTemplate (Some "") (Some "") true true true
    (Some (mkDisplay "" "" "" "" "640" "200")) false.

Definition without_output : Template :=
  mkTemplate None (Some "") true true true
    (Some (mkDisplay "" "" "" "" "640" "200")) true.

(** Widget 0 attached with the template that has no iframe. *)
Definition no_context : World :=
  run main [ev_new; ev_connected 0 without_iframe] (initial ∅).

(** Widget 0 after [let x = 1;] was submitted and [y] typed. *)
Definition drafting : World :=
  run main [ev_input 0 "let x = 1;"; ev_keydown 0 Enter; ev_input 0 "y"] ready.

(** A second widget made on the page of widget 0. *)
Definition two : World := run main [ev_new] ready.

Definition second (W : World) : Widget := widgets W !!! 1%nat.

(** Two widgets attached, and [let x = 1;] typed in the second. *)
Definition pair : World :=
  run main [ev_connected 1 html; ev_input 1 "let x = 1;"] two.

(** Widget 0 after two submissions. *)
Definition browsed : World :=
  run main
    [ev_input 0 "let x = 1;"; ev_keydown 0 Enter; ev_input 0 "x + 1";
     ev_keydown 0 Enter]
    ready.

(** Widget 0 of part_000, constructed but not attached. *)
Definition constructed0 : World := run part_000 [ev_new] (initial ∅).

(** A store whose history is not JSON. *)
Definition broken_store : gmap string string := {[ HISTORY_KEY := "{" ]}.

End Scenes.

(** ** Facts *)

Ltac monad_simp :=
  cbv [mbind M_bind bind mret M_ret ret get modify throw try_catch lift
       now original push_entry exec completion].

Ltac world_simp :=
  cbn [set_widgets set_consoleMessageBuffer set_activeConsoleAppender
       set_originalConsole set_localStorage set_nextWidget set_nextFunction
       set_clockReads set_strangers
       widgets consoleMessageBuffer activeConsoleAppender originalConsole
       localStorage nextWidget nextFunction clockReads strangers fst snd].

Tactic Notation "world_simp" "in" hyp(H) :=
  cbn [set_widgets set_consoleMessageBuffer set_activeConsoleAppender
       set_originalConsole set_localStorage set_nextWidget set_nextFunction
       set_clockReads set_strangers
       widgets consoleMessageBuffer activeConsoleAppender originalConsole
       localStorage nextWidget nextFunction clockReads strangers fst snd] in H.

(** Normal form of a world that is written with the record constructor. *)
Ltac world_norm :=
  cbv [set_widgets set_consoleMessageBuffer set_activeConsoleAppender
       set_originalConsole set_localStorage set_nextWidget set_nextFunction
       set_clockReads set_strangers
       widgets consoleMessageBuffer activeConsoleAppender originalConsole
       localStorage nextWidget nextFunction clockReads strangers fst snd].

Ltac widget_simp :=
  cbn [set_textarea set_inputElement set_consoleDisplay set_showButton
       set_hideButton set_consoleIframe set_iframeWindow
       set_isConsoleVisible set_inputHistory set_historyIndex
       set_cumulativeExecutedCode set_resizeObserver
       textarea inputElement consoleDisplay showButton hideButton
       consoleIframe iframeWindow isConsoleVisible lastKnownWidth
       lastKnownHeight inputHistory historyIndex cumulativeExecutedCode
       resizeObserver
       tpl_consoleOutput tpl_consoleInput tpl_clearButton tpl_hideButton
       tpl_showButton tpl_consoleDisplay tpl_consoleIframe
       fmap option_fmap option_map] in *.

(** Facts about the fields of an instance after assignments: with the
    instance written out, every test in the way is on a variable or is
    split with its equation. *)
Ltac widget_crunch :=
  unfold show_or_hide, observe_size, apply_saved_size, query_elements,
    stop_observing, clear_output, append_line, move_cursor, clamp_cursor,
    show_entry, reset_cursor, edited in *;
  widget_simp;
  repeat
    (first
       [ match goal with
         | |- context [match ?x with _ => _ end] => is_var x; destruct x
         end
       | match goal with
         | |- context [match ?x with _ => _ end] => destruct x eqn:?
         end ];
     widget_simp);
  simplify_eq;
  try reflexivity.

(** Reads of a field through an assignment that leaves it alone. *)
Ltac frame x :=
  clear; generalize x; intros [];
  unfold evaluated, remembered; widget_crunch.

Ltac fields_simp :=
  repeat
    (widget_simp;
     match goal with
     | |- context [?p (append_line ?a ?x)] =>
         replace (p (append_line a x)) with (p x) by frame x
     | |- context [?p (remembered ?a ?x)] =>
         replace (p (remembered a x)) with (p x) by frame x
     | |- context [?p (evaluated ?a ?b ?x)] =>
         replace (p (evaluated a b x)) with (p x) by frame x
     | |- context [?p (show_or_hide ?x)] =>
         replace (p (show_or_hide x)) with (p x) by frame x
     | |- context [?p (clear_output ?x)] =>
         replace (p (clear_output x)) with (p x) by frame x
     | |- context [?p (stop_observing ?x)] =>
         replace (p (stop_observing x)) with (p x) by frame x
     | |- context [?p (move_cursor ?d ?x)] =>
         replace (p (move_cursor d x)) with (p x) by frame x
     | |- context [?p (clamp_cursor ?x)] =>
         replace (p (clamp_cursor x)) with (p x) by frame x
     | |- context [?p (show_entry ?x)] =>
         replace (p (show_entry x)) with (p x) by frame x
     | |- context [?p (reset_cursor ?x)] =>
         replace (p (reset_cursor x)) with (p x) by frame x
     end);
  widget_simp.

Section Basics.

Context `{H : Host}.

Local Abbreviation Value := (JsValue HostValue).
Local Abbreviation main := VirtualConsoleComponentRender.

(** *** Strings *)

Lemma app_cons (x : ascii) (a b : string) :
  String x a +:+ b = String x (a +:+ b).
Proof. reflexivity. Qed.

Lemma app_assoc (a b c : string) : (a +:+ b) +:+ c = a +:+ (b +:+ c).
Proof.
  induction a as [|x a IH]; [reflexivity|].
  by rewrite !app_cons, IH.
Qed.

Lemma app_nil_r (a : string) : a +:+ "" = a.
Proof.
  induction a as [|x a IH]; [reflexivity|].
  by rewrite app_cons, IH.
Qed.

Lemma render_app (l1 l2 : list MessageEntry) :
  render (l1 ++ l2) = render l1 +:+ render l2.
Proof.
  induction l1 as [|e l1 IH]; cbn [render app]; [reflexivity|].
  by rewrite IH, app_assoc.
Qed.

Lemma render_transcript (entries : list MessageEntry) :
  render entries = transcript entries.
Proof.
  induction entries as [|e entries IH]; cbn [render transcript]; [done|].
  unfold line. by rewrite IH, !app_assoc.
Qed.

(** *** Formatting *)

(** An object that [JSON.stringify] writes is written after a text. *)
Lemma object_formats (msg : string) (v : HostValue) r :
  host_typeof_object v = true ->
  host_JSON_stringify v = Normal r ->
  formatConsoleMessage [JsString msg; JsHost v]
  = Normal (JsStr.join " " [msg; default "" r]).
Proof.
  intros Hobject Hjson. unfold formatConsoleMessage.
  cbn [format_arguments format_argument]. by rewrite Hobject, Hjson.
Qed.

(** What the store throws can be written. *)
Lemma read_error_formats (msg : string) store key e :
  host_getItem_error store key = Some e ->
  exists text, formatConsoleMessage [JsString msg; e] = Normal text.
Proof.
  intros Hfail.
  destruct (host_getItem_error_json _ _ _ Hfail) as (v & r & -> & Ho & Hj).
  eexists. by apply object_formats.
Qed.

Lemma write_error_formats (msg : string) store key value e :
  host_setItem_error store key value = Some e ->
  exists text, formatConsoleMessage [JsString msg; e] = Normal text.
Proof.
  intros Hfail.
  destruct (host_setItem_error_json _ _ _ _ Hfail) as (v & r & -> & Ho & Hj).
  eexists. by apply object_formats.
Qed.

(** *** Widgets *)

Lemma widget_eta (w : Widget) : set_textarea (textarea w) w = w.
Proof. by destruct w. Qed.

Lemma append_line_nil (w : Widget) : append_line "" w = w.
Proof.
  unfold append_line. destruct (textarea w) eqn:E; [|done].
  rewrite app_nil_r, <- E. apply widget_eta.
Qed.

Lemma append_line_app (a b : string) (w : Widget) :
  append_line b (append_line a w) = append_line (a +:+ b) w.
Proof.
  unfold append_line. destruct (textarea w) eqn:E; cbn; [|by rewrite E].
  by rewrite app_assoc.
Qed.

Lemma textarea_append_line (a : string) (w : Widget) :
  textarea (append_line a w) = (fun v => v +:+ a) <$> textarea w.
Proof. unfold append_line. by destruct (textarea w) eqn:E. Qed.

(** [append_line] touches the output area only. *)
Lemma append_line_fields (a : string) (w : Widget) :
  inputElement (append_line a w) = inputElement w
  /\ iframeWindow (append_line a w) = iframeWindow w
  /\ inputHistory (append_line a w) = inputHistory w
  /\ historyIndex (append_line a w) = historyIndex w
  /\ cumulativeExecutedCode (append_line a w) = cumulativeExecutedCode w
  /\ consoleIframe (append_line a w) = consoleIframe w
  /\ isConsoleVisible (append_line a w) = isConsoleVisible w
  /\ lastKnownWidth (append_line a w) = lastKnownWidth w
  /\ lastKnownHeight (append_line a w) = lastKnownHeight w.
Proof. unfold append_line. by destruct (textarea w). Qed.

(** *** The heap *)

Lemma world_eta (W : World) :
  mkWorld (consoleMessageBuffer W) (activeConsoleAppender W)
    (originalConsole W) (localStorage W) (widgets W) (nextWidget W)
    (nextFunction W) (clockReads W) (strangers W) = W.
Proof. by destruct W. Qed.

Lemma alter_alter {A : Type} (f g : A -> A) (k : nat) (m : gmap nat A) :
  alter f k (alter g k m) = alter (fun x => f (g x)) k m.
Proof.
  apply map_eq. intros j. destruct (decide (k = j)) as [->|Hne].
  - rewrite !lookup_alter_eq. by destruct (m !! j).
  - by rewrite !lookup_alter_ne.
Qed.

Lemma alter_known {A : Type} (f : A -> A) (k : nat) (m : gmap nat A) x :
  m !! k = Some x -> alter f k m = <[k := f x]> m.
Proof.
  intros E. apply map_eq. intros j. destruct (decide (k = j)) as [->|Hne].
  - by rewrite lookup_alter_eq, lookup_insert_eq, E.
  - by rewrite lookup_alter_ne, lookup_insert_ne.
Qed.

(** *** The monad *)

Lemma bind_eq {A B : Type} (m : M A) (k : A -> M B) (W : World) :
  (m ≫= k) W =
  match m W with
  | (Normal a, W') => k a W'
  | (Throw e, W') => (Throw e, W')
  end.
Proof. reflexivity. Qed.

(** *** Steps of a method on an instance that the heap holds *)

Lemma the_eq (this : nat) (W : World) (w : Widget) :
  widgets W !! this = Some w -> the this W = (Normal w, W).
Proof. intros E. unfold the. by rewrite (lookup_total_correct _ _ _ E). Qed.

Lemma update_eq (this : nat) (f : Widget -> Widget) (W : World) w :
  widgets W !! this = Some w ->
  update this f W = (Normal tt, set_widgets (<[this := f w]> (widgets W)) W).
Proof.
  intros E. unfold update. monad_simp. by rewrite (alter_known _ _ _ _ E).
Qed.

Lemma appendMessage_now (this : nat) (text type : string) (W : World) w :
  widgets W !! this = Some w ->
  appendMessage this text type None W =
  (Normal tt,
   set_widgets
     (<[this := append_line
                  (line (host_toLocaleTimeString (clockReads W)) type text)
                  w]> (widgets W))
     (set_clockReads (S (clockReads W)) W)).
Proof.
  intros E. unfold appendMessage, update. monad_simp. world_simp.
  by rewrite (alter_known _ _ _ _ E).
Qed.

Lemma appendMessage_at (this : nat) (text type t : string) (W : World) w :
  widgets W !! this = Some w ->
  appendMessage this text type (Some t) W =
  (Normal tt,
   set_widgets (<[this := append_line (line t type text) w]> (widgets W)) W).
Proof.
  intros E. unfold appendMessage, update. monad_simp.
  by rewrite (alter_known _ _ _ _ E).
Qed.

Lemma appendMessage_alter (this : nat) (text type : string) stamp (W : World) :
  appendMessage this text type stamp W =
  (Normal tt,
   match stamp with
   | Some t =>
       set_widgets (alter (append_line (line t type text)) this (widgets W)) W
   | None =>
       set_widgets
         (alter
            (append_line
               (line (host_toLocaleTimeString (clockReads W)) type text))
            this (widgets W))
         (set_clockReads (S (clockReads W)) W)
   end).
Proof. by destruct stamp. Qed.

End Basics.

Ltac lookup_now Hw :=
  world_simp; first [ apply lookup_insert_eq | exact Hw ].

(** One statement of a method body, run on an instance that [Hw] or the
    last assignment puts in the heap. *)
Ltac step Hw :=
  first
    [ erewrite the_eq by lookup_now Hw
    | erewrite update_eq by lookup_now Hw
    | erewrite appendMessage_now by lookup_now Hw
    | erewrite appendMessage_at by lookup_now Hw ];
  world_simp; rewrite ?insert_insert_eq; cbv beta iota.

Section Facts.

Context `{H : Host}.

Local Abbreviation Value := (JsValue HostValue).
Local Abbreviation main := VirtualConsoleComponentRender.

(** *** The intercepted console *)

Lemma intercepted_main method (args : list Value) (W : World) :
  intercepted main method args W = (answered args, routed method args W).
Proof.
  unfold intercepted, routed, answered. monad_simp. world_simp.
  destruct (formatConsoleMessage args); [|reflexivity].
  destruct (activeConsoleAppender W); [|reflexivity].
  by rewrite appendMessage_alter.
Qed.

Lemma intercepted_part_000 method (args : list Value) (W : World) :
  intercepted part_000 method args W = (answered args, buffered method args W).
Proof.
  unfold intercepted, buffered, answered. monad_simp.
  by destruct (formatConsoleMessage args).
Qed.

Lemma forwarded_cons method (args : list Value) calls :
  forwarded ((method, args) :: calls)
  = (if formats args then [(method, args)] else []) ++ forwarded calls.
Proof. unfold forwarded. cbn. by destruct (formats args). Qed.

(** Calls made while the slot is empty fill the buffer in call order and
    leave every instance alone. *)
Lemma calls_unattached (calls : list (ConsoleMethod * list Value)) (W : World) :
  activeConsoleAppender W = None ->
  run main (console_calls calls) W =
  mkWorld (consoleMessageBuffer W ++ entries_from (clockReads W) calls)
    None (originalConsole W ++ forwarded calls) (localStorage W) (widgets W)
    (nextWidget W) (nextFunction W) (clockReads W + length calls)%nat
    (strangers W).
Proof.
  revert W. induction calls as [|[method args] calls IH]; intros W Hnone.
  - cbn. rewrite !List.app_nil_r, Nat.add_0_r, <- Hnone. symmetry.
    apply world_eta.
  - cbn [console_calls map run fold_left fst snd handle].
    unfold exec. rewrite intercepted_main. cbn [snd].
    change (fold_left _ ?l ?W0) with (run main l W0).
    fold (console_calls calls).
    rewrite forwarded_cons. unfold routed, formats. cbn [entries_from].
    destruct (formatConsoleMessage args) as [text|e].
    + rewrite Hnone. rewrite IH by exact Hnone.
      world_simp. rewrite <- !List.app_assoc. cbn [app length].
      by rewrite Nat.add_succ_r.
    + rewrite IH by exact Hnone.
      world_simp. cbn [app length]. by rewrite Nat.add_succ_r.
Qed.

(** Calls made while the slot holds an appender go to the output area of
    its instance in call order; the buffer is not used. *)
Lemma calls_routed (calls : list (ConsoleMethod * list Value)) (W : World) f :
  activeConsoleAppender W = Some f ->
  run main (console_calls calls) W =
  mkWorld (consoleMessageBuffer W) (Some f)
    (originalConsole W ++ forwarded calls) (localStorage W)
    (alter (append_line (render (entries_from (clockReads W) calls)))
       (bound_this f) (widgets W))
    (nextWidget W) (nextFunction W) (clockReads W + length calls)%nat
    (strangers W).
Proof.
  revert W. induction calls as [|[method args] calls IH]; intros W Hf.
  - cbn. rewrite !List.app_nil_r, Nat.add_0_r, <- Hf.
    rewrite alter_id by (intros; apply append_line_nil).
    symmetry. apply world_eta.
  - cbn [console_calls map run fold_left fst snd handle].
    unfold exec. rewrite intercepted_main. cbn [snd].
    change (fold_left _ ?l ?W0) with (run main l W0).
    fold (console_calls calls).
    rewrite forwarded_cons. unfold routed, formats. cbn [entries_from].
    destruct (formatConsoleMessage args) as [text|e].
    + rewrite Hf. cbn [timestamp type message].
      rewrite IH by exact Hf.
      world_simp. cbn [render timestamp type message].
      rewrite alter_alter.
      rewrite <- !List.app_assoc. cbn [app length].
      rewrite Nat.add_succ_r. f_equal.
      apply alter_ext. intros x _. apply append_line_app.
    + rewrite IH by exact Hf.
      world_simp. cbn [app length]. by rewrite Nat.add_succ_r.
Qed.

Lemma calls_attached (calls : list (ConsoleMethod * list Value)) (W : World)
  f w :
  activeConsoleAppender W = Some f ->
  widgets W !! bound_this f = Some w ->
  run main (console_calls calls) W =
  mkWorld (consoleMessageBuffer W) (Some f)
    (originalConsole W ++ forwarded calls)
    (localStorage W)
    (<[bound_this f :=
         append_line (render (entries_from (clockReads W) calls)) w]>
       (widgets W))
    (nextWidget W) (nextFunction W) (clockReads W + length calls)%nat
    (strangers W).
Proof.
  intros Hf Hw. rewrite (calls_routed calls W f Hf).
  by rewrite (alter_known _ _ _ _ Hw).
Qed.

(** *** flushMessageBuffer *)

Lemma flush_loop_eq (fuel this : nat) (W : World) :
  (length (consoleMessageBuffer W) <= fuel)%nat ->
  flush_loop fuel this W =
  (Normal tt,
   set_widgets
     (alter (append_line (render (consoleMessageBuffer W))) this (widgets W))
     (set_consoleMessageBuffer [] W)).
Proof.
  revert W. induction fuel as [|fuel IH]; intros W Hlen.
  - destruct (consoleMessageBuffer W) eqn:E; [|cbn in Hlen; lia].
    cbn. rewrite alter_id by (intros; apply append_line_nil).
    unfold set_widgets, set_consoleMessageBuffer. cbn.
    by rewrite <- E, world_eta.
  - cbn [flush_loop]. monad_simp.
    destruct (consoleMessageBuffer W) as [|entry rest] eqn:E.
    + cbn. rewrite alter_id by (intros; apply append_line_nil).
      unfold set_widgets, set_consoleMessageBuffer. cbn.
      by rewrite <- E, world_eta.
    + rewrite appendMessage_alter. cbv beta iota.
      rewrite IH by (cbn in *; lia).
      unfold set_widgets, set_consoleMessageBuffer. cbn. do 2 f_equal.
      rewrite alter_alter.
      apply alter_ext. intros x _. apply append_line_app.
Qed.

Lemma flushMessageBuffer_eq (this : nat) (W : World) :
  flushMessageBuffer this W =
  (Normal tt,
   set_widgets
     (alter (append_line (render (consoleMessageBuffer W))) this (widgets W))
     (set_consoleMessageBuffer [] W)).
Proof.
  unfold flushMessageBuffer. monad_simp. by apply flush_loop_eq.
Qed.

(** *** connectedCallback *)

Lemma query_elements_fields (html : Template) (w : Widget) :
  let w' := show_or_hide (observe_size (apply_saved_size (query_elements html w))) in
  textarea w' = tpl_consoleOutput html
  /\ inputElement w' = tpl_consoleInput html
  /\ consoleIframe w' = tpl_consoleIframe html.
Proof. destruct w, html. widget_crunch; auto. Qed.

Lemma connectedCallback_main (this : nat) (html : Template) (W : World) w :
  widgets W !! this = Some w ->
  exists w' extra,
    connectedCallback main this html W =
    (Normal tt,
     mkWorld [] (Some (mkBound (nextFunction W) this))
       (originalConsole W ++ extra) (localStorage W)
       (<[this := w']> (widgets W)) (nextWidget W) (S (nextFunction W))
       (clockReads W) (strangers W))
    /\ textarea w' =
       (fun out => out +:+ render (consoleMessageBuffer W))
         <$> tpl_consoleOutput html.
Proof.
  intros Hw. destruct W as [buf act orig store ws nw nf clk str]. cbn in Hw.
  unfold connectedCallback, setupIframeContext, register,
    bind_appendMessage, updateVisibility.
  monad_simp. do 4 step Hw.
  replace (consoleIframe _) with (tpl_consoleIframe html)
    by (destruct w, html; widget_crunch).
  destruct (tpl_consoleIframe html).
  - step Hw. rewrite flushMessageBuffer_eq. world_simp.
    rewrite alter_known with (x := set_iframeWindow (Some host_contentWindow)
      (observe_size (apply_saved_size (query_elements html w))))
      by apply lookup_insert_eq.
    rewrite insert_insert_eq. step Hw. world_norm.
    eexists _, []. rewrite List.app_nil_r. split; [reflexivity|].
    destruct w, html. widget_crunch.
  - world_simp. rewrite flushMessageBuffer_eq. world_simp.
    rewrite alter_known with
      (x := observe_size (apply_saved_size (query_elements html w)))
      by apply lookup_insert_eq.
    rewrite insert_insert_eq. step Hw. world_norm.
    eexists _, _. split; [reflexivity|].
    destruct w, html. widget_crunch.
Qed.

(** C2. In VirtualConsoleComponentRender.js a call of [console.log],
    [console.warn] or [console.error] reads the clock and writes its
    arguments.  When every argument can be written, the call returns and
    makes one entry, with the type of its severity: with an empty slot
    the entry is added once at the end of the buffer and no instance
    changes; with an appender in the slot the buffer is as it was, the
    line of the entry is added once to the output area of the instance
    of the appender, and to nothing when that instance has no output
    area; in both cases the arguments are forwarded once to the original
    function.  When [String] throws for an argument, the exception
    leaves the call: only the clock has been read, so no entry is made
    and the original function is not called. *)
Theorem console_call_routes_one_entry (method : ConsoleMethod)
  (args : list Value) (W : World) :
  let call :=
    match method with
    | log => console_log main
    | warn => console_warn main
    | error => console_error main
    end in
  let tag :=
    match method with
    | log => "LOG"
    | warn => "WARN"
    | error => "ERROR"
    end in
  let time := host_toLocaleTimeString (clockReads W) in
  let W' := exec (call args) W in
  match formatConsoleMessage args with
  | Normal text =>
      completion (call args) W = Normal tt
      /\ originalConsole W' = originalConsole W ++ [(method, args)]
      /\ activeConsoleAppender W' = activeConsoleAppender W
      /\ match activeConsoleAppender W with
         | None =>
             consoleMessageBuffer W'
             = consoleMessageBuffer W ++ [mkEntry time tag text]
             /\ widgets W' = widgets W
         | Some appender =>
             consoleMessageBuffer W' = consoleMessageBuffer W
             /\ (forall other,
                   other <> bound_this appender ->
                   widgets W' !! other = widgets W !! other)
             /\ forall w,
                  widgets W !! bound_this appender = Some w ->
                  match textarea w with
                  | Some value =>
                      widgets W' !! bound_this appender
                      = Some
                          (set_textarea
                             (Some
                                (value +:+ "[" +:+ time +:+ "] [" +:+ tag
                                 +:+ "] " +:+ text +:+ JsStr.newline)) w)
                  | None => widgets W' = widgets W
                  end
         end
  | Throw e =>
      call args W = (Throw e, set_clockReads (S (clockReads W)) W)
  end.
Proof.
  intros call tag time W'.
  assert (Hcall : call args W = (answered args, routed method args W))
    by (destruct method; apply intercepted_main).
  assert (Htag : tag = type_of method) by (by destruct method).
  unfold W', exec, completion. rewrite Hcall. cbn [fst snd].
  unfold answered, routed.
  destruct (formatConsoleMessage args) as [text|e]; [|reflexivity].
  split; [reflexivity|].
  destruct (activeConsoleAppender W) as [appender|] eqn:Hslot; world_simp;
    (split; [reflexivity|]); (split; [exact Hslot|]).
  - split; [reflexivity|]. split.
    + intros other Hother. by rewrite lookup_alter_ne.
    + intros w Hw. cbn [timestamp type message]. unfold append_line, line.
      destruct (textarea w) as [value|] eqn:Htext.
      * rewrite lookup_alter_eq, Hw. cbn. by rewrite Htext, Htag.
      * apply map_eq. intros j.
        destruct (decide (bound_this appender = j)) as [<-|Hne].
        -- rewrite lookup_alter_eq, Hw. cbn. by rewrite Htext.
        -- by rewrite lookup_alter_ne.
  - by rewrite Htag.
Qed.

(** C3. Console calls and then [connectedCallback] of an instance whose
    template has the output area, from any world.  With an empty slot
    the calls fill the buffer in call order and change no instance;
    attaching empties the buffer and the output area holds, after the
    text of the template, one line for each buffered entry in that
    order; the calls that follow are written after them and the buffer
    stays empty.  With an appender left in the slot, as after an
    instance was attached and then detached, the calls are not buffered:
    their lines go to the output area of the instance of that appender,
    and the instance that attaches next is shown only what the buffer
    held before them. *)
Theorem attach_replays_buffer_in_order (W : World) (this : nat) (w : Widget)
  (html : Template) (out : string)
  (calls live : list (ConsoleMethod * list Value)) :
  widgets W !! this = Some w ->
  tpl_consoleOutput html = Some out ->
  let before := run main (console_calls calls) W in
  let attached := exec (connectedCallback main this html) before in
  let after := run main (console_calls live) attached in
  let made := entries_from (clockReads W) calls in
  let replayed :=
    match activeConsoleAppender W with
    | None => consoleMessageBuffer W ++ made
    | Some _ => consoleMessageBuffer W
    end in
  consoleMessageBuffer before = replayed
  /\ match activeConsoleAppender W with
     | None => widgets before = widgets W
     | Some appender =>
         (forall other,
             other <> bound_this appender ->
             widgets before !! other = widgets W !! other)
         /\ textarea <$> widgets before !! bound_this appender
            = (fun w0 => (fun text => text +:+ transcript made) <$> textarea w0)
                <$> widgets W !! bound_this appender
     end
  /\ consoleMessageBuffer attached = []
  /\ textarea <$> widgets attached !! this
     = Some (Some (out +:+ transcript replayed))
  /\ consoleMessageBuffer after = []
  /\ textarea <$> widgets after !! this
     = Some (Some (out +:+ transcript replayed
                   +:+ transcript
                         (entries_from (clockReads W + length calls) live))).
Proof.
  intros Hw Hout before attached after made replayed.
  assert (Hbefore :
            consoleMessageBuffer before = replayed
            /\ clockReads before = (clockReads W + length calls)%nat
            /\ (exists w0, widgets before !! this = Some w0)
            /\ match activeConsoleAppender W with
               | None => widgets before = widgets W
               | Some appender =>
                   widgets before
                   = alter (append_line (render made)) (bound_this appender)
                       (widgets W)
               end).
  { unfold before, replayed.
    destruct (activeConsoleAppender W) as [appender|] eqn:Hslot.
    - rewrite (calls_routed calls W appender Hslot). world_simp.
      repeat split.
      destruct (decide (bound_this appender = this)) as [<-|Hne].
      + rewrite lookup_alter_eq, Hw. by eexists.
      + rewrite lookup_alter_ne by done. by eexists.
    - rewrite (calls_unattached calls W Hslot). world_simp.
      repeat split. by eexists. }
  destruct Hbefore as (Hbuffer & Hclock & [w0 Hwb] & Hwidgets).
  destruct (connectedCallback_main this html before w0 Hwb)
    as (w' & extra & Hrun & Htext).
  assert (Hattached : attached = _) by (unfold attached, exec; by rewrite Hrun).
  cbn [snd] in Hattached.
  assert (Hwa : widgets attached !! bound_this (mkBound (nextFunction before) this)
                = Some w')
    by (rewrite Hattached; apply lookup_insert_eq).
  assert (Hafter := calls_attached live attached _ w'
                      ltac:(by rewrite Hattached) Hwa).
  fold after in Hafter. cbn [bound_this] in Hafter.
  split; [exact Hbuffer|]. split.
  { destruct (activeConsoleAppender W) as [appender|]; [|exact Hwidgets].
    rewrite Hwidgets. split.
    - intros other Hother. by rewrite lookup_alter_ne.
    - rewrite lookup_alter_eq, render_transcript.
      destruct (widgets W !! bound_this appender) as [w1|]; [|done].
      cbn. by rewrite textarea_append_line. }
  split; [by rewrite Hattached|]. split.
  { rewrite Hattached. cbn [widgets]. rewrite lookup_insert_eq. cbn.
    by rewrite Htext, Hout, Hbuffer, render_transcript. }
  split; [rewrite Hafter; cbn; by rewrite Hattached|].
  rewrite Hafter. cbn [widgets]. rewrite lookup_insert_eq. cbn.
  rewrite textarea_append_line, Htext, Hout. cbn.
  rewrite Hbuffer, !render_transcript, app_assoc.
  replace (clockReads attached) with (clockReads W + length calls)%nat
    by (rewrite Hattached; cbn; by rewrite Hclock).
  reflexivity.
Qed.

(** *** localStorage *)

Lemma quiet_refl (W : World) : quiet W W.
Proof.
  intros j. exists "". destruct (widgets W !! j); [|done].
  cbn. by rewrite append_line_nil.
Qed.

Lemma quiet_trans (W1 W2 W3 : World) : quiet W1 W2 -> quiet W2 W3 -> quiet W1 W3.
Proof.
  intros H12 H23 j. destruct (H12 j) as [a Ha], (H23 j) as [b Hb].
  exists (a +:+ b). rewrite Hb, Ha.
  destruct (widgets W1 !! j); [|done]. cbn. by rewrite append_line_app.
Qed.

Lemma quiet_alter (W W' : World) (k : nat) (text : string) :
  widgets W' = alter (append_line text) k (widgets W) -> quiet W W'.
Proof.
  intros E j. rewrite E. destruct (decide (k = j)) as [->|Hne].
  - exists text. by rewrite lookup_alter_eq.
  - exists "". rewrite lookup_alter_ne by done.
    destruct (widgets W !! j); [|done]. cbn. by rewrite append_line_nil.
Qed.

Lemma quiet_same (W W' : World) : widgets W' = widgets W -> quiet W W'.
Proof. intros E j. rewrite E. apply quiet_refl. Qed.

Lemma intercepted_quiet file method (args : list Value) (W : World) :
  exists W',
    intercepted file method args W = (answered args, W')
    /\ quiet W W' /\ localStorage W' = localStorage W.
Proof.
  destruct file.
  - rewrite intercepted_main. eexists. split; [reflexivity|].
    unfold routed. destruct (formatConsoleMessage args);
      [|split; [|reflexivity]; by apply quiet_same].
    destruct (activeConsoleAppender W); world_simp.
    + split; [|reflexivity]. by eapply quiet_alter.
    + split; [|reflexivity]. by apply quiet_same.
  - rewrite intercepted_part_000. eexists. split; [reflexivity|].
    unfold buffered. destruct (formatConsoleMessage args);
      (split; [|reflexivity]); by apply quiet_same.
Qed.

Lemma answered_write_error (msg : string) store key value e :
  host_setItem_error store key value = Some e ->
  answered [JsString msg; e] = Normal tt.
Proof.
  intros Hfail. unfold answered.
  destruct (write_error_formats msg _ _ _ _ Hfail) as [text ->]. done.
Qed.

Lemma answered_read_error (msg : string) store key e :
  host_getItem_error store key = Some e ->
  answered [JsString msg; e] = Normal tt.
Proof.
  intros Hfail. unfold answered.
  destruct (read_error_formats msg _ _ _ Hfail) as [text ->]. done.
Qed.

Lemma setLocalStorageItem_spec file (key value : string) (W : World) :
  exists W',
    setLocalStorageItem file key value W = (Normal tt, W')
    /\ quiet W W'
    /\ localStorage W' = stored key value (localStorage W)
    /\ (host_setItem_error (localStorage W) key value = None ->
        widgets W' = widgets W).
Proof.
  unfold setLocalStorageItem, stored. monad_simp.
  destruct (host_setItem_error (localStorage W) key value) as [e|] eqn:Hfail.
  - unfold console_error.
    destruct (intercepted_quiet file error
                [JsString "Error al escribir en localStorage:"; e] W)
      as (W' & E & Hq & Hs).
    rewrite E, (answered_write_error _ _ _ _ _ Hfail). by exists W'.
  - eexists. split; [reflexivity|]. world_simp.
    split; [|done]. by apply quiet_same.
Qed.

(** *** The history block *)

Lemma differs_from_last_spec (history : list string) (text : string) :
  differs_from_last history text = negb (bool_decide (last history = Some text)).
Proof.
  unfold differs_from_last. destruct history as [|x history]; [done|].
  reflexivity.
Qed.

(** The history block returns; it adds the text to the history when it
    differs from the last entry and writes the list to the store, and
    adds text to the output area only when that write fails. *)
Lemma remember_spec file (this : nat) (text : string) (W : World) w :
  widgets W !! this = Some w ->
  exists W' add,
    remember file this text W = (Normal tt, W')
    /\ widgets W' !! this = Some (append_line add (remembered text w))
    /\ localStorage W' =
       (if differs_from_last (inputHistory w) text
        then stored HISTORY_KEY
               (JsStr.json_string_array (inputHistory w ++ [text]))
               (localStorage W)
        else localStorage W)
    /\ (host_setItem_error (localStorage W) HISTORY_KEY
          (JsStr.json_string_array (inputHistory w ++ [text])) = None ->
        add = "").
Proof.
  intros Hw. unfold remember, remembered. monad_simp. step Hw.
  destruct (differs_from_last (inputHistory w) text).
  - do 2 step Hw.
    match goal with
    | |- context [setLocalStorageItem file ?k ?v ?W0] =>
        destruct (setLocalStorageItem_spec file k v W0)
          as (W' & E & Hq & Hs & Hsame)
    end.
    rewrite E. exists W'. world_simp in Hs. world_simp in Hsame.
    widget_simp.
    destruct (host_setItem_error (localStorage W) HISTORY_KEY
                (JsStr.json_string_array (inputHistory w ++ [text])))
      as [e|] eqn:Hstore.
    + destruct (Hq this) as [add Hadd].
      exists add. split; [reflexivity|]. split; [|done].
      rewrite Hadd. world_simp. by rewrite lookup_insert_eq.
    + exists "". split; [reflexivity|]. split; [|done].
      rewrite (Hsame eq_refl), append_line_nil. apply lookup_insert_eq.
  - exists W, "". split; [reflexivity|]. by rewrite append_line_nil.
Qed.

(** *** Evaluation in the iframe *)

Lemma report_eq (this : nat) (reported : list MessageEntry) (W : World) w :
  widgets W !! this = Some w ->
  report this reported W =
  (Normal tt,
   set_widgets (<[this := append_line (render reported) w]> (widgets W)) W).
Proof.
  revert W w. induction reported as [|entry rest IH]; intros W w Hw.
  - cbn [report render]. monad_simp. rewrite append_line_nil.
    destruct W as [buf act orig store ws nw nf clk str]. cbn [widgets] in Hw.
    world_norm. by rewrite insert_id.
  - cbn [report render]. monad_simp. step Hw.
    erewrite IH by lookup_now Hw.
    destruct W as [buf act orig store ws nw nf clk str]. world_norm.
    by rewrite insert_insert_eq, append_line_app.
Qed.

Lemma evaluate_eq (this : nat) (window : IframeWindow) (code : string)
  (W : World) w :
  widgets W !! this = Some w ->
  evaluate this window code W =
  match host_eval window code with
  | (window', reported, Normal v) =>
      (Normal v,
       set_widgets
         (<[this := set_cumulativeExecutedCode code
                      (evaluated window' reported w)]> (widgets W)) W)
  | (window', reported, Throw e) =>
      match message_of e with
      | Normal text =>
          (Normal JsUndefined,
           set_widgets
             (<[this := append_line
                          (line (host_toLocaleTimeString (clockReads W))
                             "ERROR" ("  Error: " +:+ text))
                          (evaluated window' reported w)]> (widgets W))
             (set_clockReads (S (clockReads W)) W))
      | Throw e' =>
          (Throw e',
           set_widgets
             (<[this := evaluated window' reported w]> (widgets W)) W)
      end
  end.
Proof.
  intros Hw. unfold evaluate, iframe_eval, evaluated.
  destruct (host_eval window code) as [[window' reported] [v|e]].
  - monad_simp. step Hw. erewrite report_eq by lookup_now Hw.
    world_simp. rewrite insert_insert_eq. by step Hw.
  - monad_simp. step Hw. erewrite report_eq by lookup_now Hw.
    world_simp. rewrite insert_insert_eq.
    destruct (message_of e); [|reflexivity]. by step Hw.
Qed.

Lemma display_result_eq (this : nat) (input : string) (v : Value)
  (W : World) w :
  widgets W !! this = Some w ->
  display_result this input v W =
  let shown text :=
    (Normal tt,
     set_widgets
       (<[this := append_line
                    (line (host_toLocaleTimeString (clockReads W)) "OUTPUT"
                       text) w]> (widgets W))
       (set_clockReads (S (clockReads W)) W)) in
  if is_undefined v then shown (result_marker input)
  else
    match JSON_stringify v with
    | Normal text => shown ("  < " +:+ text)
    | Throw e => (Throw e, W)
    end.
Proof.
  intros Hw. unfold display_result.
  destruct (is_undefined v); cbn [negb].
  - by step Hw.
  - monad_simp. destruct (JSON_stringify v); [|reflexivity]. by step Hw.
Qed.

(** *** processInput *)

Lemma remembered_fields (text : string) (w : Widget) :
  textarea (remembered text w) = textarea w
  /\ inputElement (remembered text w) = inputElement w
  /\ iframeWindow (remembered text w) = iframeWindow w
  /\ historyIndex (remembered text w) = historyIndex w
  /\ cumulativeExecutedCode (remembered text w) = cumulativeExecutedCode w
  /\ consoleIframe (remembered text w) = consoleIframe w.
Proof. unfold remembered. by destruct (differs_from_last _ _). Qed.

(** The instance when the input has been recorded and echoed: before
    the echo there is at most what a failed write to the store logged. *)
Lemma processInput_begins file (this : nat) (input : string) (W : World) w :
  widgets W !! this = Some w ->
  JsStr.is_empty (JsStr.trim input) = false ->
  exists W1 add t,
    let w1 :=
      append_line (add +:+ line t "INPUT" ("> " +:+ input))
        (remembered (JsStr.trim input) w) in
    widgets W1 !! this = Some w1
    /\ localStorage W1 =
       (if differs_from_last (inputHistory w) (JsStr.trim input)
        then stored HISTORY_KEY
               (JsStr.json_string_array
                  (inputHistory w ++ [JsStr.trim input]))
               (localStorage W)
        else localStorage W)
    /\ (host_setItem_error (localStorage W) HISTORY_KEY
          (JsStr.json_string_array (inputHistory w ++ [JsStr.trim input]))
        = None -> add = "")
    /\ processInput file this input W =
       match iframeWindow w with
       | None =>
           appendMessage this
             "  Error: El contexto de la consola no está listo." "ERROR"
             None W1
       | Some window =>
           (evaluate this window
              (cumulativeExecutedCode w +:+ JsStr.newline +:+ input)
            ≫= display_result this input) W1
       end.
Proof.
  intros Hw Hne. unfold processInput. rewrite Hne.
  destruct (remember_spec file this (JsStr.trim input) W w Hw)
    as (W0 & add & E & Hw0 & Hs & Hadd).
  rewrite bind_eq, E. cbv beta iota.
  rewrite bind_eq. erewrite appendMessage_now by exact Hw0.
  cbv beta iota. rewrite bind_eq. step Hw0.
  rewrite append_line_app.
  eexists _, add, (host_toLocaleTimeString (clockReads W0)).
  cbv zeta. split; [|split; [|split]]; cycle 3.
  - fields_simp. by destruct (iframeWindow w).
  - world_simp. apply lookup_insert_eq.
  - world_simp. exact Hs.
  - exact Hadd.
Qed.

(** Every way [processInput] can go from the echo on, one goal each. *)
Ltac processInput_cases Hw1 :=
  lazymatch goal with
  | |- context [match iframeWindow ?w with _ => _ end] =>
      destruct (iframeWindow w) as [?|] eqn:?
  end;
  [ rewrite bind_eq; erewrite evaluate_eq by exact Hw1;
    lazymatch goal with
    | |- context [host_eval ?a ?b] =>
        destruct (host_eval a b) as [[? ?] [?|?]] eqn:?
    end;
    [ cbv beta iota; erewrite display_result_eq by lookup_now Hw1;
      cbv zeta;
      lazymatch goal with
      | |- context [is_undefined ?v] =>
          destruct (is_undefined v) eqn:?;
          [ | destruct (JSON_stringify v) as [?|?] eqn:? ]
      end
    | lazymatch goal with
      | |- context [message_of ?e] =>
          destruct (message_of e) as [?|?] eqn:?
      end;
      [ cbv beta iota; erewrite display_result_eq by lookup_now Hw1;
        cbv zeta; cbn [is_undefined] | ] ]
  | erewrite appendMessage_now by exact Hw1 ];
  world_simp; rewrite ?insert_insert_eq, ?lookup_insert_eq.

Ltac fields_crunch w :=
  unfold evaluated, remembered; destruct w; widget_crunch.

(** What a submission does to the instance, whatever the evaluation
    does: the history, and the fields it leaves alone. *)
Lemma processInput_history file (this : nat) (input : string) (W : World) w :
  widgets W !! this = Some w ->
  exists w',
    widgets (exec (processInput file this input) W) !! this = Some w'
    /\ inputHistory w' =
       (if JsStr.is_empty (JsStr.trim input) then inputHistory w
        else inputHistory (remembered (JsStr.trim input) w))
    /\ historyIndex w' = historyIndex w
    /\ inputElement w' = inputElement w.
Proof.
  intros Hw. destruct (JsStr.is_empty (JsStr.trim input)) eqn:Hne.
  - unfold processInput, exec. rewrite Hne. by exists w.
  - destruct (processInput_begins file this input W w Hw Hne)
      as (W1 & add & t & Hw1 & _ & _ & Hrun).
    unfold exec. rewrite Hrun. clear Hrun.
    processInput_cases Hw1; cbn [snd]; world_simp;
      rewrite ?lookup_insert_eq;
      (eexists; split; [reflexivity|]; by fields_crunch w).
Qed.

Lemma textarea_evaluated window' reported (w : Widget) :
  textarea (evaluated window' reported w)
  = (fun out => out +:+ render reported) <$> textarea w.
Proof. unfold evaluated. by rewrite textarea_append_line. Qed.

Lemma evaluated_fields window' reported (w : Widget) :
  cumulativeExecutedCode (evaluated window' reported w)
  = cumulativeExecutedCode w.
Proof. unfold evaluated. by destruct (append_line_fields (render reported)
         (set_iframeWindow (Some window') w)) as (_ & _ & _ & _ & -> & _). Qed.

(** The output area after a run of appended texts. *)
Ltac text_crunch w :=
  rewrite ?textarea_append_line, ?textarea_evaluated; widget_simp;
  rewrite ?textarea_append_line, ?textarea_evaluated; widget_simp;
  rewrite ?textarea_append_line;
  replace (textarea (remembered _ w)) with (textarea w)
    by (unfold remembered; by destruct (differs_from_last _ _));
  destruct (textarea w); cbn [fmap option_fmap option_map];
  rewrite ?app_assoc; try reflexivity.

(** A submission with an established context leaves the
    accumulated program equal to the candidate when the evaluation
    returns, and as it was when the evaluation throws. *)
Lemma program_committed_on_success_only file (this : nat) (input : string)
  (W : World) (w : Widget) (window : IframeWindow) :
  widgets W !! this = Some w ->
  iframeWindow w = Some window ->
  JsStr.is_empty (JsStr.trim input) = false ->
  let candidate := cumulativeExecutedCode w +:+ JsStr.newline +:+ input in
  let W' := exec (processInput file this input) W in
  cumulativeExecutedCode <$> widgets W' !! this =
  Some (match host_eval window candidate with
        | (_, _, Normal _) => candidate
        | (_, _, Throw _) => cumulativeExecutedCode w
        end).
Proof.
  intros Hw Hctx Hne candidate W'. subst W' candidate.
  destruct (processInput_begins file this input W w Hw Hne)
    as (W1 & add & t & Hw1 & _ & _ & Hrun).
  unfold exec. rewrite Hrun. clear Hrun.
  processInput_cases Hw1; try congruence;
    simplify_eq; cbn [snd]; world_simp; rewrite ?lookup_insert_eq;
    cbn [fmap option_fmap option_map]; f_equal; fields_simp;
    by match goal with E : host_eval _ _ = _ |- _ => rewrite E end.
Qed.

(** C1. With an established context and an input that is not blank:
    when the evaluation of the candidate returns, the accumulated
    program is the candidate afterwards; when it throws, the
    accumulated program is unchanged, and the message of the thrown
    value is shown tagged ERROR if that message can be read.  When the
    thrown value is [null] or [undefined] the handler itself throws:
    the exception leaves [processInput] and the output area gains the
    echo of the input and what the iframe reported, and no line for the
    failure. *)
Theorem failed_submission_keeps_program file (this : nat) (input : string)
  (W : World) (w : Widget) (window : IframeWindow) :
  widgets W !! this = Some w ->
  iframeWindow w = Some window ->
  JsStr.is_empty (JsStr.trim input) = false ->
  let candidate := cumulativeExecutedCode w +:+ JsStr.newline +:+ input in
  let W' := exec (processInput file this input) W in
  match host_eval window candidate with
  | (_, _, Normal _) =>
      cumulativeExecutedCode <$> widgets W' !! this = Some candidate
  | (_, reported, Throw e) =>
      cumulativeExecutedCode <$> widgets W' !! this
      = Some (cumulativeExecutedCode w)
      /\ match message_of e with
         | Normal text =>
             exists before t after,
               textarea <$> widgets W' !! this =
               Some ((fun out =>
                        out +:+ before
                        +:+ line t "ERROR" ("  Error: " +:+ text)
                        +:+ after) <$> textarea w)
         | Throw failure =>
             completion (processInput file this input) W = Throw failure
             /\ exists add t,
                  textarea <$> widgets W' !! this =
                  Some ((fun out =>
                           out +:+ add
                           +:+ line t "INPUT" ("> " +:+ input)
                           +:+ render reported) <$> textarea w)
                  /\ (host_setItem_error (localStorage W) HISTORY_KEY
                        (JsStr.json_string_array
                           (inputHistory w ++ [JsStr.trim input])) = None ->
                      add = "")
         end
  end.
Proof.
  intros Hw Hctx Hne candidate W'.
  pose proof (program_committed_on_success_only file this input W w window
                Hw Hctx Hne) as Hprogram.
  cbv zeta in Hprogram. fold candidate in Hprogram. fold W' in Hprogram.
  destruct (host_eval window candidate) as [[window' reported] [v|e]] eqn:Heval;
    [exact Hprogram|].
  split; [exact Hprogram|]. clear Hprogram. subst W'.
  destruct (processInput_begins file this input W w Hw Hne)
    as (W1 & add & t & Hw1 & _ & Hadd & Hrun).
  unfold exec, completion. rewrite Hrun, Hctx. clear Hrun.
  rewrite bind_eq. erewrite evaluate_eq by exact Hw1.
  fold candidate. rewrite Heval.
  destruct (message_of e) as [text|failure].
  - cbv beta iota. erewrite display_result_eq by lookup_now Hw1.
    cbv zeta. cbn [is_undefined snd]. world_simp.
    rewrite lookup_insert_eq.
    exists (add +:+ line t "INPUT" ("> " +:+ input) +:+ render reported).
    eexists _, _. cbn [fmap option_fmap option_map]. f_equal.
    text_crunch w.
  - cbn [fst snd]. split; [reflexivity|]. exists add, t.
    split; [|exact Hadd]. world_simp. rewrite lookup_insert_eq.
    cbn [fmap option_fmap option_map]. f_equal. text_crunch w.
Qed.

(** C9. When the evaluation throws a value whose message can be read,
    [processInput] returns and the output area ends with the ERROR line
    followed by a result marker: the declaration marker when the trimmed
    input begins with a declaration keyword and white space, the
    undefined marker otherwise.  When the thrown value is [null] or
    [undefined], neither line is added and the exception of the handler
    leaves [processInput]. *)
Theorem marker_follows_error_line file (this : nat) (input : string)
  (W : World) (w : Widget) (window window' : IframeWindow)
  (reported : list MessageEntry) (e : Value) :
  widgets W !! this = Some w ->
  iframeWindow w = Some window ->
  JsStr.is_empty (JsStr.trim input) = false ->
  host_eval window (cumulativeExecutedCode w +:+ JsStr.newline +:+ input)
  = (window', reported, Throw e) ->
  let W' := exec (processInput file this input) W in
  exists add t,
    let shown :=
      add +:+ line t "INPUT" ("> " +:+ input) +:+ render reported in
    (host_setItem_error (localStorage W) HISTORY_KEY
       (JsStr.json_string_array (inputHistory w ++ [JsStr.trim input]))
     = None -> add = "")
    /\ match message_of e with
       | Normal text =>
           completion (processInput file this input) W = Normal tt
           /\ exists t1 t2,
                textarea <$> widgets W' !! this =
                Some ((fun out =>
                         out +:+ shown
                         +:+ line t1 "ERROR" ("  Error: " +:+ text)
                         +:+ line t2 "OUTPUT"
                               (if JsStr.matches_declaration
                                     (JsStr.trim input)
                                then "  < (Declaración ejecutada)"
                                else "  < (undefined)")) <$> textarea w)
       | Throw failure =>
           completion (processInput file this input) W = Throw failure
           /\ textarea <$> widgets W' !! this =
              Some ((fun out => out +:+ shown) <$> textarea w)
       end.
Proof.
  intros Hw Hctx Hne Heval W'. subst W'.
  destruct (processInput_begins file this input W w Hw Hne)
    as (W1 & add & t & Hw1 & _ & Hadd & Hrun).
  exists add, t. cbv zeta. split; [exact Hadd|].
  unfold exec, completion. rewrite Hrun, Hctx. clear Hrun.
  rewrite bind_eq. erewrite evaluate_eq by exact Hw1.
  rewrite Heval.
  destruct (message_of e) as [text|failure].
  - cbv beta iota. erewrite display_result_eq by lookup_now Hw1.
    cbv zeta. cbn [is_undefined fst snd]. split; [reflexivity|].
    world_simp. rewrite lookup_insert_eq.
    eexists _, _. cbn [fmap option_fmap option_map]. f_equal.
    unfold result_marker. text_crunch w.
  - cbn [fst snd]. split; [reflexivity|].
    world_simp. rewrite lookup_insert_eq.
    cbn [fmap option_fmap option_map]. f_equal. text_crunch w.
Qed.

(** C5. When the evaluation returns a value that [JSON.stringify]
    refuses, the exception of [JSON.stringify] leaves [processInput]:
    nothing in the method catches it. *)
Theorem unserializable_result_escapes file (this : nat) (input : string)
  (W : World) (w : Widget) (window window' : IframeWindow)
  (reported : list MessageEntry) (v : Value) (failure : Value) :
  widgets W !! this = Some w ->
  iframeWindow w = Some window ->
  JsStr.is_empty (JsStr.trim input) = false ->
  host_eval window (cumulativeExecutedCode w +:+ JsStr.newline +:+ input)
  = (window', reported, Normal v) ->
  JSON_stringify v = Throw failure ->
  completion (processInput file this input) W = Throw failure.
Proof.
  intros Hw Hctx Hne Heval Hjson.
  destruct (processInput_begins file this input W w Hw Hne)
    as (W1 & add & t & Hw1 & _ & _ & Hrun).
  unfold completion. rewrite Hrun, Hctx. clear Hrun.
  rewrite bind_eq. erewrite evaluate_eq by exact Hw1.
  rewrite Heval. cbv beta iota.
  erewrite display_result_eq by lookup_now Hw1. cbv zeta.
  destruct v; try discriminate. cbn [is_undefined].
  by rewrite Hjson.
Qed.

(** *** The history of commands *)

Lemma processInput_storage file (this : nat) (input : string) (W : World) w :
  widgets W !! this = Some w ->
  localStorage (exec (processInput file this input) W) =
  if negb (JsStr.is_empty (JsStr.trim input))
     && differs_from_last (inputHistory w) (JsStr.trim input)
  then stored HISTORY_KEY
         (JsStr.json_string_array (inputHistory w ++ [JsStr.trim input]))
         (localStorage W)
  else localStorage W.
Proof.
  intros Hw. destruct (JsStr.is_empty (JsStr.trim input)) eqn:Hne.
  - unfold processInput, exec. by rewrite Hne.
  - destruct (processInput_begins file this input W w Hw Hne)
      as (W1 & add & t & Hw1 & Hs & _ & Hrun).
    unfold exec. rewrite Hrun. clear Hrun. cbn [negb andb]. rewrite <- Hs.
    by processInput_cases Hw1.
Qed.

(** C7. A submission adds the trimmed input to the history exactly when
    it is not empty and differs from the last entry, and then writes the
    list to the store under the history key; submitting the same text
    again adds nothing. *)
Theorem submission_recorded_once file (this : nat) (input : string)
  (W : World) (w : Widget) :
  widgets W !! this = Some w ->
  let text := JsStr.trim input in
  let appended :=
    negb (JsStr.is_empty text)
    && negb (bool_decide (last (inputHistory w) = Some text)) in
  let history' :=
    if appended then inputHistory w ++ [text] else inputHistory w in
  let W' := exec (processInput file this input) W in
  inputHistory <$> widgets W' !! this = Some history'
  /\ localStorage W' =
     (if appended
      then stored HISTORY_KEY (JsStr.json_string_array history')
             (localStorage W)
      else localStorage W)
  /\ inputHistory <$> widgets (exec (processInput file this input) W') !! this
     = Some history'.
Proof.
  intros Hw. cbv zeta.
  destruct (processInput_history file this input W w Hw)
    as (w' & Hw' & Hhist & _).
  destruct (processInput_history file this input _ w' Hw')
    as (w'' & Hw'' & Hhist' & _).
  pose proof (processInput_storage file this input W w Hw) as Hstore.
  unfold remembered in *. rewrite !differs_from_last_spec in *.
  set (text := JsStr.trim input) in *.
  set (W' := exec (processInput file this input) W) in *.
  set (appended :=
         negb (JsStr.is_empty text)
         && negb (bool_decide (last (inputHistory w) = Some text))) in *.
  set (history' :=
         if appended then inputHistory w ++ [text] else inputHistory w).
  assert (Hh : inputHistory w' = history').
  { rewrite Hhist. subst history' appended.
    destruct (JsStr.is_empty text); [done|]. cbn [negb andb].
    by destruct (negb (bool_decide (last (inputHistory w) = Some text))). }
  split; [by rewrite Hw'; cbn; rewrite Hh|]. split.
  - rewrite Hstore. subst history'. by destruct appended.
  - rewrite Hw''. cbn. f_equal. rewrite Hhist'.
    destruct (JsStr.is_empty text) eqn:Hempty; [done|].
    assert (Hlast : last history' = Some text).
    { subst history' appended. cbn [negb andb].
      destruct (bool_decide (last (inputHistory w) = Some text)) eqn:Hb.
      - cbn [negb]. by apply bool_decide_eq_true in Hb.
      - cbn [negb]. apply last_snoc. }
    rewrite Hh, bool_decide_eq_true_2 by exact Hlast. cbn [negb].
    exact Hh.
Qed.

(** *** clearConsole *)

(** C6. Clear empties the output area and then shows the system notice
    alone, one line with the time of the clock and the type SYSTEM
    before its text, sets the accumulated program to the empty string and replaces
    the window of the iframe by a fresh one; it returns normally and
    leaves the history, its cursor, the visibility flag, the saved width
    and height, the panel and the store as they were. *)
Theorem clear_resets_program_keeps_history (this : nat) (W : World)
  (w : Widget) :
  widgets W !! this = Some w ->
  consoleIframe w = true ->
  let W' := exec (clearConsole this) W in
  completion (clearConsole this) W = Normal tt
  /\ localStorage W' = localStorage W
  /\ exists w',
       widgets W' !! this = Some w'
       /\ textarea w' =
          (fun _ =>
             "[" +:+ host_toLocaleTimeString (clockReads W)
             +:+ "] [SYSTEM] Consola y contexto de ejecución limpiados."
             +:+ JsStr.newline)
            <$> textarea w
       /\ cumulativeExecutedCode w' = ""
       /\ iframeWindow w' = Some host_contentWindow
       /\ inputHistory w' = inputHistory w
       /\ historyIndex w' = historyIndex w
       /\ isConsoleVisible w' = isConsoleVisible w
       /\ lastKnownWidth w' = lastKnownWidth w
       /\ lastKnownHeight w' = lastKnownHeight w
       /\ consoleDisplay w' = consoleDisplay w.
Proof.
  intros Hw Hiframe. cbv zeta.
  unfold clearConsole, setupIframeContext, exec, completion.
  monad_simp. do 3 step Hw.
  replace (consoleIframe _) with true by (by fields_simp).
  do 2 step Hw. cbn [fst snd]. world_simp.
  split; [reflexivity|]. split; [reflexivity|].
  rewrite lookup_insert_eq. eexists. split; [reflexivity|].
  destruct w. widget_crunch; repeat split; try reflexivity.
Qed.

(** *** navigateHistory *)

Lemma navigateHistory_eq file (this : nat) (direction : Z) (W : World) w
  value :
  widgets W !! this = Some w ->
  inputElement w = Some value ->
  exists W' add,
    navigateHistory file this direction W = (Normal tt, W')
    /\ widgets W' !! this =
       Some (show_entry
               (clamp_cursor
                  (move_cursor direction
                     (append_line add (drafted direction value w))))).
Proof.
  intros Hw Hinput. unfold navigateHistory, drafted. monad_simp.
  step Hw. rewrite Hinput.
  destruct ((direction =? -1)
            && (historyIndex w =? Z.of_nat (length (inputHistory w)))
            && negb (JsStr.is_empty (JsStr.trim value))).
  - destruct (remember_spec file this (JsStr.trim value) W w Hw)
      as (W0 & add & E & Hw0 & _).
    rewrite E. cbv beta iota. do 3 step Hw0.
    eexists _, add. split; [reflexivity|]. world_simp.
    apply lookup_insert_eq.
  - do 3 step Hw. eexists _, "". split; [reflexivity|]. world_simp.
    rewrite append_line_nil. apply lookup_insert_eq.
Qed.

Lemma navigateHistory_absent file (this : nat) (direction : Z) (W : World) w :
  widgets W !! this = Some w ->
  inputElement w = None ->
  navigateHistory file this direction W = (Normal tt, W).
Proof.
  intros Hw Hinput. unfold navigateHistory. monad_simp. step Hw.
  by rewrite Hinput.
Qed.

(** The cursor after the three assignments that end [navigateHistory]. *)
Lemma clamp_cursor_spec (w : Widget) :
  historyIndex (clamp_cursor w)
  = clamped (Z.of_nat (length (inputHistory w))) (historyIndex w)
  /\ inputHistory (clamp_cursor w) = inputHistory w
  /\ inputElement (clamp_cursor w) = inputElement w.
Proof.
  unfold clamp_cursor, clamped.
  destruct (historyIndex w <? 0) eqn:Hlow;
    [apply Z.ltb_lt in Hlow | apply Z.ltb_ge in Hlow].
  - widget_simp. repeat split. lia.
  - destruct (Z.of_nat (length (inputHistory w)) <? historyIndex w) eqn:Hhigh;
      [apply Z.ltb_lt in Hhigh | apply Z.ltb_ge in Hhigh].
    + widget_simp. repeat split. lia.
    + repeat split. lia.
Qed.

Lemma show_entry_spec (w : Widget) :
  historyIndex (show_entry w) = historyIndex w
  /\ inputHistory (show_entry w) = inputHistory w
  /\ inputElement (show_entry w) =
     (fun _ =>
        if historyIndex w =? Z.of_nat (length (inputHistory w)) then ""
        else default "undefined"
               (history_entry (inputHistory w) (historyIndex w)))
       <$> inputElement w.
Proof.
  unfold show_entry. destruct (inputElement w) eqn:Hinput.
  - destruct (historyIndex w =? Z.of_nat (length (inputHistory w)));
      widget_simp; by rewrite ?Hinput.
  - by rewrite Hinput.
Qed.

Lemma cursor_clamped (direction : Z) (w : Widget) :
  let w' := show_entry (clamp_cursor (move_cursor direction w)) in
  let n := Z.of_nat (length (inputHistory w)) in
  let i := clamped n (historyIndex w + direction) in
  inputHistory w' = inputHistory w
  /\ historyIndex w' = i
  /\ inputElement w' =
     (fun _ =>
        if i =? n then ""
        else default "undefined" (history_entry (inputHistory w) i))
       <$> inputElement w.
Proof.
  cbv zeta.
  destruct (show_entry_spec (clamp_cursor (move_cursor direction w)))
    as (-> & -> & ->).
  destruct (clamp_cursor_spec (move_cursor direction w))
    as (-> & -> & ->).
  unfold move_cursor. widget_simp. done.
Qed.


Lemma drafted_fields (direction : Z) (value : string) (w : Widget) :
  historyIndex (drafted direction value w) = historyIndex w
  /\ inputElement (drafted direction value w) = inputElement w.
Proof.
  unfold drafted, remembered.
  by repeat match goal with
     | |- context [if ?b then _ else _] => destruct b
     end.
Qed.

(** One press of an arrow key, on an instance that has its input field. *)
Lemma navigateHistory_fields file (this : nat) (direction : Z) (W : World) w
  value :
  widgets W !! this = Some w ->
  inputElement w = Some value ->
  exists w',
    widgets (exec (navigateHistory file this direction) W) !! this = Some w'
    /\ completion (navigateHistory file this direction) W = Normal tt
    /\ let w0 := drafted direction value w in
       let n := Z.of_nat (length (inputHistory w0)) in
       let i := clamped n (historyIndex w + direction) in
       inputHistory w' = inputHistory w0
       /\ historyIndex w' = i
       /\ inputElement w' =
          Some (if i =? n then ""
                else default "undefined" (history_entry (inputHistory w0) i)).
Proof.
  intros Hw Hinput.
  destruct (navigateHistory_eq file this direction W w value Hw Hinput)
    as (W' & add & Hrun & Hw').
  unfold exec, completion. rewrite Hrun. cbn [fst snd].
  eexists. split; [exact Hw'|]. split; [reflexivity|]. cbv zeta.
  destruct (cursor_clamped direction
              (append_line add (drafted direction value w)))
    as (Hh & Hi & He).
  cbv zeta in Hi, He. rewrite Hh, Hi, He. clear Hh Hi He.
  fields_simp.
  destruct (drafted_fields direction value w) as (-> & ->).
  by rewrite Hinput.
Qed.

Lemma clamped_range (n i : Z) : 0 <= n -> 0 <= clamped n i <= n.
Proof. unfold clamped. lia. Qed.







(** *** What every method leaves alone *)

Section Harmless.

Context (R : World -> World -> Prop) `{!Harmless R}.

Lemma sat_ret {A : Type} (a : A) : sat R (mret a).
Proof. intros W. apply harmless_refl. Qed.

Lemma sat_lift {A : Type} (c : Completion HostValue A) : sat R (lift c).
Proof. intros W. apply harmless_refl. Qed.

Lemma sat_get : sat R get.
Proof. intros W. apply harmless_refl. Qed.

Lemma sat_throw {A : Type} (e : Value) : sat R (@throw _ A e).
Proof. intros W. apply harmless_refl. Qed.

Lemma sat_the (this : nat) : sat R (the this).
Proof. intros W. apply harmless_refl. Qed.

Lemma sat_bind {A B : Type} (m : M A) (k : A -> M B) :
  sat R m -> (forall a, sat R (k a)) -> sat R (m ≫= k).
Proof.
  intros Hm Hk W. rewrite bind_eq. specialize (Hm W).
  destruct (m W) as [[a|e] W1]; cbn [snd] in *; [|exact Hm].
  eapply harmless_trans; [exact Hm|apply Hk].
Qed.

Lemma sat_try_catch {A : Type} (body : M A) (handler : Value -> M A) :
  sat R body -> (forall e, sat R (handler e)) -> sat R (try_catch body handler).
Proof.
  intros Hb Hh W. unfold try_catch. specialize (Hb W).
  destruct (body W) as [[a|e] W1]; cbn [snd] in *; [exact Hb|].
  eapply harmless_trans; [exact Hb|apply Hh].
Qed.

Lemma sat_update (this : nat) (f : Widget -> Widget) : sat R (update this f).
Proof. intros W. apply harmless_widgets. Qed.

Lemma sat_now : sat R now.
Proof. intros W. apply harmless_clock. Qed.

Lemma sat_original method (args : list Value) : sat R (original method args).
Proof. intros W. apply harmless_original. Qed.

Lemma sat_push_entry (entry : MessageEntry) : sat R (push_entry entry).
Proof. intros W. apply harmless_push. Qed.

Lemma sat_appendMessage (this : nat) (text type : string) stamp :
  sat R (appendMessage this text type stamp).
Proof.
  unfold appendMessage. apply sat_bind; [|intros; apply sat_update].
  destruct stamp; [apply sat_ret|apply sat_now].
Qed.

End Harmless.

(** Follows the structure of a method body down to the statements
    above. *)
Ltac sat_auto :=
  repeat
    (lazymatch goal with
     | |- Harmless _ => exact _
     | |- sat _ (_ ≫= _) => apply sat_bind; [exact _| |intros ?]
     | |- sat _ (mret _) => apply sat_ret
     | |- sat _ (lift _) => apply sat_lift
     | |- sat _ get => apply sat_get
     | |- sat _ (throw _) => apply sat_throw
     | |- sat _ (the _) => apply sat_the
     | |- sat _ (try_catch _ _) => apply sat_try_catch; [exact _| |intros ?]
     | |- sat _ (update _ _) => apply sat_update
     | |- sat _ now => apply sat_now
     | |- sat _ (original _ _) => apply sat_original
     | |- sat _ (push_entry _) => apply sat_push_entry
     | |- sat _ (appendMessage _ _ _ _) => apply sat_appendMessage
     | |- sat _ (modify (fun W => set_localStorage _ W)) =>
         intros ?; apply harmless_storage
     | |- sat _ (modify (fun W => set_nextWidget _ _)) =>
         intros ?; cbn [modify snd];
         eapply harmless_trans; [|apply harmless_nextWidget];
         first
           [ apply harmless_widgets
           | match goal with
             | Hs : forall W v, _ W (set_strangers v W) |- _ => apply Hs
             end ]
     | |- sat _ (match ?x with _ => _ end) => destruct x
     end).

Section Methods.

Context (R : World -> World -> Prop) `{!Harmless R}.

Lemma sat_intercepted file method (args : list Value) :
  sat R (intercepted file method args).
Proof. unfold intercepted. sat_auto. Qed.

Lemma sat_setLocalStorageItem file (key value : string) :
  sat R (setLocalStorageItem file key value).
Proof.
  unfold setLocalStorageItem, console_error.
  sat_auto; apply sat_intercepted.
Qed.

Lemma sat_getLocalStorageItem file (key value : string) :
  sat R (getLocalStorageItem file key value).
Proof.
  unfold getLocalStorageItem, console_error.
  sat_auto; apply sat_intercepted.
Qed.

Lemma sat_remember file (this : nat) (text : string) :
  sat R (remember file this text).
Proof. unfold remember. sat_auto. apply sat_setLocalStorageItem. Qed.

Lemma sat_report (this : nat) (reported : list MessageEntry) :
  sat R (report this reported).
Proof.
  induction reported as [|entry rest IH]; cbn [report]; sat_auto.
  exact IH.
Qed.

Lemma sat_processInput file (this : nat) (input : string) :
  sat R (processInput file this input).
Proof.
  unfold processInput, evaluate, iframe_eval, display_result.
  sat_auto; first [apply sat_remember | apply sat_report].
Qed.

Lemma sat_navigateHistory file (this : nat) (direction : Z) :
  sat R (navigateHistory file this direction).
Proof. unfold navigateHistory. sat_auto. apply sat_remember. Qed.

Lemma sat_setupIframeContext (this : nat) : sat R (setupIframeContext this).
Proof. unfold setupIframeContext. sat_auto. Qed.

Lemma sat_clearConsole (this : nat) : sat R (clearConsole this).
Proof. unfold clearConsole. sat_auto. apply sat_setupIframeContext. Qed.

Lemma sat_saveConsoleSize file (this : nat) : sat R (saveConsoleSize file this).
Proof. unfold saveConsoleSize. sat_auto; apply sat_setLocalStorageItem. Qed.

Lemma sat_hideConsole file (this : nat) : sat R (hideConsole file this).
Proof.
  unfold hideConsole, updateVisibility. sat_auto;
    first [apply sat_setLocalStorageItem | apply sat_saveConsoleSize].
Qed.

Lemma sat_showConsole file (this : nat) : sat R (showConsole file this).
Proof.
  unfold showConsole, updateVisibility. sat_auto.
  apply sat_setLocalStorageItem.
Qed.

(** The constructor, for a relation that the record of an instance
    whose history is not a list does not break either. *)
Lemma sat_constructor file :
  (forall W v, R W (set_strangers v W)) -> sat R (constructor file).
Proof.
  intros Hstrangers. unfold constructor.
  sat_auto; apply sat_getLocalStorageItem.
Qed.

Lemma sat_on_keydown file (this : nat) (key : Key) :
  sat R (on_keydown file this key).
Proof.
  unfold on_keydown. sat_auto;
    first [apply sat_processInput | apply sat_navigateHistory].
Qed.

Lemma sat_on_input (this : nat) (value : string) : sat R (on_input this value).
Proof. unfold on_input. sat_auto. Qed.

End Methods.

(** *** The buffer in part_000 *)

#[local] Instance buffer_grows_harmless : Harmless buffer_grows.
Proof.
  split; unfold buffer_grows.
  - intros W. exists []. by rewrite List.app_nil_r.
  - intros W1 W2 W3 [a Ha] [b Hb]. exists (a ++ b).
    by rewrite Hb, Ha, List.app_assoc.
  - intros W v. exists []. by rewrite List.app_nil_r.
  - intros W v. exists []. by rewrite List.app_nil_r.
  - intros W v. exists []. by rewrite List.app_nil_r.
  - intros W v. exists []. by rewrite List.app_nil_r.
  - intros W v. exists []. by rewrite List.app_nil_r.
  - intros W entry. by exists [entry].
Qed.




(** *** What does not depend on the buffer *)

Lemma alike_refl (W : World) : alike W W.
Proof. by repeat split. Qed.






























(** *** The slot of the active display *)

#[local] Instance slot_kept_harmless : Harmless slot_kept.
Proof.
  split; unfold slot_kept; try done.
  intros W1 W2 W3 [Ha Hn] [Ha' Hn']. split; congruence.
Qed.

#[local] Instance allocated_kept_harmless : Harmless allocated_kept.
Proof.
  split; unfold allocated_kept; try done.
  intros W1 W2 W3 H12 H23 H1. auto.
Qed.

Lemma bind_appendMessage_eq (this : nat) (W : World) :
  bind_appendMessage this W =
  (Normal (mkBound (nextFunction W) this),
   set_nextFunction (S (nextFunction W)) W).
Proof. reflexivity. Qed.

Lemma register_allocated (this : nat) : sat allocated_kept (register this).
Proof.
  intros W _. unfold register. rewrite bind_eq, bind_appendMessage_eq.
  unfold functions_allocated. cbn. lia.
Qed.

Lemma unregister_allocated (this : nat) : sat allocated_kept (unregister this).
Proof.
  intros W. unfold unregister. rewrite bind_eq, bind_appendMessage_eq.
  cbv beta iota. monad_simp.
  destruct (strictly_equal _ _); cbn; intros Halloc; [done|].
  unfold functions_allocated in *. cbn.
  destruct (activeConsoleAppender W); [lia|done].
Qed.

Lemma flushMessageBuffer_allocated (this : nat) :
  sat allocated_kept (flushMessageBuffer this).
Proof.
  intros W. rewrite flushMessageBuffer_eq. cbn [snd].
  unfold allocated_kept, functions_allocated. by world_simp.
Qed.

Lemma handle_main_allocated (ev : Event) :
  sat allocated_kept (handle main ev).
Proof.
  destruct ev; cbn [handle].
  - apply sat_intercepted. exact _.
  - apply sat_bind; [exact _| |intros; apply sat_ret; exact _].
    apply sat_constructor; [exact _|]. intros W v Halloc. exact Halloc.
  - unfold connectedCallback, updateVisibility. cbv beta iota. sat_auto.
    + apply sat_setupIframeContext. exact _.
    + apply register_allocated.
    + apply flushMessageBuffer_allocated.
  - unfold disconnectedCallback. cbv beta iota. sat_auto.
    apply unregister_allocated.
  - apply sat_on_keydown. exact _.
  - apply sat_on_input. exact _.
  - apply sat_clearConsole. exact _.
  - apply sat_hideConsole. exact _.
  - apply sat_showConsole. exact _.
Qed.

(** *** The instances whose history is not a list *)

#[local] Instance same_strangers_harmless : Harmless same_strangers.
Proof.
  split; unfold same_strangers; try done.
  intros W1 W2 W3 H12 H23. congruence.
Qed.

Lemma register_strangers (this : nat) : sat same_strangers (register this).
Proof. by intros W. Qed.

Lemma unregister_strangers (this : nat) :
  sat same_strangers (unregister this).
Proof.
  intros W. unfold unregister. rewrite bind_eq, bind_appendMessage_eq.
  cbv beta iota. monad_simp. by destruct (strictly_equal _ _).
Qed.

Lemma flushMessageBuffer_strangers (this : nat) :
  sat same_strangers (flushMessageBuffer this).
Proof. intros W. by rewrite flushMessageBuffer_eq. Qed.

(** Every handler but the constructor leaves the record of the
    instances whose history is not a list as it was. *)
Lemma handle_strangers file (ev : Event) :
  ev <> ev_new -> sat same_strangers (handle file ev).
Proof.
  intros Hev. destruct ev; try congruence; cbn [handle].
  - apply sat_intercepted. exact _.
  - unfold connectedCallback, updateVisibility. sat_auto;
      first [ apply sat_setupIframeContext; exact _
            | apply register_strangers
            | apply flushMessageBuffer_strangers ].
  - unfold disconnectedCallback. sat_auto.
    apply unregister_strangers.
  - apply sat_on_keydown. exact _.
  - apply sat_on_input. exact _.
  - apply sat_clearConsole. exact _.
  - apply sat_hideConsole. exact _.
  - apply sat_showConsole. exact _.
Qed.

(** In every world that the page can reach, the function in the slot
    was made before the next one. *)
Lemma reachable_functions_allocated (events : list Event)
  (W : World) :
  functions_allocated W -> functions_allocated (run main events W).
Proof.
  revert W. induction events as [|ev events IH]; intros W Halloc; [done|].
  cbn [run fold_left]. apply IH. by apply (handle_main_allocated ev).
Qed.

Lemma detach_keeps_slot (this : nat) (W : World) :
  functions_allocated W ->
  activeConsoleAppender (exec (disconnectedCallback main this) W)
  = activeConsoleAppender W.
Proof.
  intros Halloc. unfold disconnectedCallback, unregister, exec.
  rewrite bind_eq. unfold update at 1. monad_simp.
  rewrite bind_appendMessage_eq. cbv beta iota. world_simp.
  unfold functions_allocated in Halloc.
  destruct (activeConsoleAppender W) as [f|] eqn:Hactive.
  - cbn [strictly_equal fn_identity].
    replace (fn_identity f =? nextFunction W)%nat with false
      by (symmetry; apply Nat.eqb_neq; lia).
    exact Hactive.
  - cbn [strictly_equal snd]. exact Hactive.
Qed.

(** C4. In VirtualConsoleComponentRender.js, in every world that the
    page can reach from its start, [disconnectedCallback] leaves the
    slot of the active display as it was: the function it compares the
    slot with is a new one, so the comparison fails also for the
    instance that registered itself, whose registration stays. *)
Theorem detach_never_clears_slot (storage : gmap string string)
  (events : list Event) (this : nat) :
  let W := run main events (initial storage) in
  activeConsoleAppender (exec (disconnectedCallback main this) W)
  = activeConsoleAppender W.
Proof.
  cbv zeta. apply detach_keeps_slot.
  by apply reachable_functions_allocated.
Qed.

End Facts.

(** ** More facts *)

Section Formatting.

Context `{H : Host}.

Local Abbreviation Value := (JsValue HostValue).

Lemma join_app (sep : string) (l1 l2 : list string) :
  l1 <> [] -> l2 <> [] ->
  JsStr.join sep (l1 ++ l2) = JsStr.join sep l1 +:+ sep +:+ JsStr.join sep l2.
Proof.
  intros H1 H2. induction l1 as [|x [|y l1] IH]; [done| |].
  - destruct l2; [done|reflexivity].
  - change ((x :: y :: l1) ++ l2) with (x :: (y :: l1) ++ l2).
    cbn [JsStr.join app] in *. rewrite IH by done.
    by rewrite !app_assoc.
Qed.

Lemma format_arguments_app (args1 args2 : list Value) :
  format_arguments (args1 ++ args2) =
  match format_arguments args1 with
  | Normal results1 =>
      match format_arguments args2 with
      | Normal results2 => Normal (results1 ++ results2)
      | Throw e => Throw e
      end
  | Throw e => Throw e
  end.
Proof.
  induction args1 as [|arg args1 IH]; cbn [app format_arguments].
  - by destruct (format_arguments args2).
  - destruct (format_argument arg); [|done]. rewrite IH.
    destruct (format_arguments args1); [|done].
    by destruct (format_arguments args2).
Qed.

Lemma format_arguments_length (args : list Value) results :
  format_arguments args = Normal results -> length results = length args.
Proof.
  revert results. induction args as [|arg args IH]; intros results.
  - by intros [= <-].
  - cbn [format_arguments]. destruct (format_argument arg); [|done].
    destruct (format_arguments args) as [rest|]; [|done].
    intros [= <-]. cbn. by rewrite (IH rest).
Qed.

(** X7. [formatConsoleMessage] writes the arguments one after the other
    with one space between them: when two lists of arguments can be
    written, the message of the two put together is the two messages
    with a space between them, and string arguments are written as they
    are.  An object that [JSON.stringify] refuses is written with
    [String], and what [String] throws leaves [formatConsoleMessage];
    a list with an argument that cannot be written cannot be written. *)
Theorem formatConsoleMessage_joins (args1 args2 : list Value)
  (texts : list string) (v : HostValue) (e : Value) :
  (forall text1 text2,
     args1 <> [] -> args2 <> [] ->
     formatConsoleMessage args1 = Normal text1 ->
     formatConsoleMessage args2 = Normal text2 ->
     formatConsoleMessage (args1 ++ args2)
     = Normal (text1 +:+ " " +:+ text2))
  /\ formatConsoleMessage (JsString <$> texts)
     = Normal (JsStr.join " " texts)
  /\ (host_typeof_object v = true ->
      host_JSON_stringify v = Throw e ->
      formatConsoleMessage [JsHost v] = host_String v)
  /\ (forall failure,
        formatConsoleMessage args1 = Throw failure ->
        formatConsoleMessage (args1 ++ args2) = Throw failure)
  /\ (forall text1 failure,
        formatConsoleMessage args1 = Normal text1 ->
        formatConsoleMessage args2 = Throw failure ->
        formatConsoleMessage (args1 ++ args2) = Throw failure).
Proof.
  unfold formatConsoleMessage. rewrite format_arguments_app.
  split; [|split; [|split; [|split]]].
  - intros text1 text2 H1 H2.
    destruct (format_arguments args1) as [results1|] eqn:E1; [|done].
    destruct (format_arguments args2) as [results2|] eqn:E2; [|done].
    intros [= <-] [= <-]. f_equal. rewrite map_app.
    apply format_arguments_length in E1, E2.
    apply join_app; [destruct results1|destruct results2];
      by destruct args1, args2.
  - assert (Hall : format_arguments (JsString <$> texts)
                   = Normal (Some <$> texts)).
    { induction texts as [|t texts IH]; [done|].
      cbn [fmap list_fmap format_arguments format_argument] in *.
      by rewrite IH. }
    rewrite Hall. do 2 f_equal. clear Hall.
    induction texts as [|t texts IH]; [done|]. cbn. f_equal. exact IH.
  - intros Hobject Hthrow. cbn [format_arguments format_argument].
    rewrite Hobject, Hthrow. unfold String_of.
    by destruct (host_String v).
  - intros failure. by destruct (format_arguments args1).
  - intros text1 failure.
    destruct (format_arguments args1); [|done].
    by destruct (format_arguments args2).
Qed.

End Formatting.

(** ** The store, the constructor and the panel *)

Section Storage.

Context `{H : Host}.

Local Abbreviation Value := (JsValue HostValue).
Local Abbreviation main := VirtualConsoleComponentRender.

Lemma intercepted_eq file method (args : list Value) (W : World) :
  intercepted file method args W = (answered args, logged file method args W).
Proof.
  destruct file; [apply intercepted_main|apply intercepted_part_000].
Qed.

Lemma logged_fields file method (args : list Value) (W : World) :
  localStorage (logged file method args W) = localStorage W
  /\ originalConsole (logged file method args W)
     = originalConsole W ++ forwarded [(method, args)]
  /\ nextWidget (logged file method args W) = nextWidget W
  /\ strangers (logged file method args W) = strangers W.
Proof.
  unfold forwarded, formats. cbn [List.filter snd].
  destruct file; unfold logged, routed, buffered;
    destruct (formatConsoleMessage args);
    rewrite ?List.app_nil_r; try done;
    by destruct (activeConsoleAppender W).
Qed.

Lemma getLocalStorageItem_eq file (key defaultValue : string) (W : World) :
  getLocalStorageItem file key defaultValue W =
  match host_getItem_error (localStorage W) key with
  | None => (Normal (default defaultValue (localStorage W !! key)), W)
  | Some e =>
      (Normal defaultValue,
       logged file error [JsString "Error al leer de localStorage:"; e] W)
  end.
Proof.
  unfold getLocalStorageItem. monad_simp.
  destruct (host_getItem_error (localStorage W) key) as [e|] eqn:Hfail;
    [|reflexivity].
  unfold console_error.
  by rewrite intercepted_eq, (answered_read_error _ _ _ _ Hfail).
Qed.

Lemma setLocalStorageItem_eq file (key value : string) (W : World) :
  setLocalStorageItem file key value W =
  match host_setItem_error (localStorage W) key value with
  | None => (Normal tt, set_localStorage (<[key := value]> (localStorage W)) W)
  | Some e =>
      (Normal tt,
       logged file error [JsString "Error al escribir en localStorage:"; e] W)
  end.
Proof.
  unfold setLocalStorageItem. monad_simp.
  destruct (host_setItem_error (localStorage W) key value) as [e|] eqn:Hfail;
    [|reflexivity].
  unfold console_error.
  by rewrite intercepted_eq, (answered_write_error _ _ _ _ _ Hfail).
Qed.

(** X1. What [setLocalStorageItem] wrote under a key is what
    [getLocalStorageItem] returns for that key, whatever the default, and
    a read of another key is not affected; a key that holds nothing reads
    as the default, and the read changes nothing. *)
Theorem stored_item_is_read_back file (key value other defaultValue : string)
  (W : World) :
  host_setItem_error (localStorage W) key value = None ->
  (forall k, host_getItem_error (<[key := value]> (localStorage W)) k = None) ->
  let written := exec (setLocalStorageItem file key value) W in
  getLocalStorageItem file key defaultValue written = (Normal value, written)
  /\ (other <> key ->
      getLocalStorageItem file other defaultValue written
      = (Normal (default defaultValue (localStorage W !! other)), written))
  /\ (localStorage written !! other = None ->
      getLocalStorageItem file other defaultValue written
      = (Normal defaultValue, written)).
Proof.
  intros Hset Hget written. subst written. unfold exec.
  rewrite setLocalStorageItem_eq, Hset. cbn [snd].
  repeat split.
  - rewrite getLocalStorageItem_eq. world_simp. rewrite Hget.
    by rewrite lookup_insert_eq.
  - intros Hother. rewrite getLocalStorageItem_eq. world_simp. rewrite Hget.
    by rewrite lookup_insert_ne.
  - world_simp. intros Hnone. rewrite getLocalStorageItem_eq. world_simp.
    by rewrite Hget, Hnone.
Qed.

(** X2. A read or a write that the store refuses does not throw: the
    read returns the default, the write leaves the store as it was, and
    either one makes one call of the intercepted [console.error] with the
    exception and nothing else. *)
Theorem storage_failure_is_contained file (key value defaultValue : string)
  (W : World) (e : Value) :
  (host_getItem_error (localStorage W) key = Some e ->
   getLocalStorageItem file key defaultValue W
   = (Normal defaultValue,
      logged file error [JsString "Error al leer de localStorage:"; e] W))
  /\ (host_setItem_error (localStorage W) key value = Some e ->
      setLocalStorageItem file key value W
      = (Normal tt,
         logged file error [JsString "Error al escribir en localStorage:"; e]
           W))
  /\ forall args, localStorage (logged file error args W) = localStorage W.
Proof.
  split; [|split].
  - intros Hfail. by rewrite getLocalStorageItem_eq, Hfail.
  - intros Hfail. by rewrite setLocalStorageItem_eq, Hfail.
  - intros args. apply logged_fields.
Qed.

End Storage.

Section Attach.

Context `{H : Host}.

Local Abbreviation Value := (JsValue HostValue).
Local Abbreviation main := VirtualConsoleComponentRender.

(** [connectedCallback] in either file, on an instance of the heap. *)
Lemma connectedCallback_eq file (this : nat) (html : Template) (W : World) w :
  widgets W !! this = Some w ->
  connectedCallback file this html W =
  (Normal tt,
   mkWorld []
     (match file with
      | VirtualConsoleComponentRender =>
          Some (mkBound (nextFunction W) this)
      | part_000 => activeConsoleAppender W
      end)
     (originalConsole W
      ++ (if tpl_consoleIframe html then []
          else [(error, [JsString "Iframe de consola no encontrado."])]))
     (localStorage W)
     (<[this := attached html (consoleMessageBuffer W) w]> (widgets W))
     (nextWidget W)
     (match file with
      | VirtualConsoleComponentRender => S (nextFunction W)
      | part_000 => nextFunction W
      end)
     (clockReads W) (strangers W)).
Proof.
  intros Hw. destruct W as [buf act orig store ws nw nf clk str]. cbn in Hw.
  unfold connectedCallback, setupIframeContext, register,
    bind_appendMessage, updateVisibility, attached.
  monad_simp. do 4 step Hw.
  replace (consoleIframe (observe_size (apply_saved_size (query_elements html w))))
    with (tpl_consoleIframe html) by (destruct w, html; widget_crunch).
  destruct (tpl_consoleIframe html), file.
  - step Hw. rewrite flushMessageBuffer_eq. world_simp.
    rewrite alter_known with (x := set_iframeWindow (Some host_contentWindow)
      (observe_size (apply_saved_size (query_elements html w))))
      by apply lookup_insert_eq.
    rewrite insert_insert_eq. step Hw. world_norm.
    by rewrite List.app_nil_r.
  - step Hw. rewrite flushMessageBuffer_eq. world_simp.
    rewrite alter_known with (x := set_iframeWindow (Some host_contentWindow)
      (observe_size (apply_saved_size (query_elements html w))))
      by apply lookup_insert_eq.
    rewrite insert_insert_eq. step Hw. world_norm.
    by rewrite List.app_nil_r.
  - world_simp. rewrite flushMessageBuffer_eq. world_simp.
    rewrite alter_known with
      (x := observe_size (apply_saved_size (query_elements html w)))
      by apply lookup_insert_eq.
    rewrite insert_insert_eq. step Hw. by world_norm.
  - world_simp. rewrite flushMessageBuffer_eq. world_simp.
    rewrite alter_known with
      (x := observe_size (apply_saved_size (query_elements html w)))
      by apply lookup_insert_eq.
    rewrite insert_insert_eq. step Hw. by world_norm.
Qed.

End Attach.

Section Panel.

Context `{H : Host}.

Local Abbreviation Value := (JsValue HostValue).
Local Abbreviation main := VirtualConsoleComponentRender.

(** *** The constructor *)

(** The constructor when the store can be read: a new instance at the
    next index; a history that cannot be parsed is reported to the
    original [console.error]. *)
Lemma constructor_eq file (W : World) :
  (forall key, host_getItem_error (localStorage W) key = None) ->
  history_loads (localStorage W) ->
  constructor file W =
  (Normal (nextWidget W),
   set_nextWidget (S (nextWidget W))
     (set_widgets (<[nextWidget W := fresh (localStorage W)]> (widgets W))
        (match host_JSON_parse
                 (default "[]" (localStorage W !! HISTORY_KEY)) with
         | Normal _ => W
         | Throw e =>
             set_originalConsole
               (originalConsole W
                ++ [(error,
                     [JsString "Error al cargar el historial de la consola:";
                      e])]) W
         end))).
Proof.
  intros Hread Hloads.
  unfold constructor, fresh, loaded_history, history_loads in *.
  rewrite bind_eq, getLocalStorageItem_eq, Hread. cbv beta iota.
  rewrite bind_eq, getLocalStorageItem_eq, Hread. cbv beta iota.
  rewrite bind_eq, getLocalStorageItem_eq, Hread. cbv beta iota.
  rewrite bind_eq, getLocalStorageItem_eq, Hread. cbv beta iota.
  destruct (host_JSON_parse (default "[]" (localStorage W !! HISTORY_KEY)))
    as [[history|v]|e]; [reflexivity|done|reflexivity].
Qed.

(** The first instance of a page, made and attached. *)
Lemma first_widget file (html : Template) (store : gmap string string) :
  (forall key, host_getItem_error store key = None) ->
  history_loads store ->
  widgets (run file [ev_new; ev_connected 0 html] (initial store)) !! 0%nat
  = Some (attached html [] (fresh store)).
Proof.
  intros Hread Hloads. cbn [run fold_left handle]. unfold exec at 2.
  rewrite bind_eq, constructor_eq by done.
  cbn [initial localStorage nextWidget widgets]. unfold exec.
  destruct (host_JSON_parse (default "[]" (store !! HISTORY_KEY)));
    cbv beta iota; cbn [ret mret M_ret snd];
    (erewrite connectedCallback_eq by (world_simp; apply lookup_insert_eq));
    cbn [snd widgets]; by rewrite lookup_insert_eq.
Qed.

(** *** hideConsole and showConsole *)

Lemma show_or_hide_fields (w : Widget) :
  textarea (show_or_hide w) = textarea w
  /\ inputElement (show_or_hide w) = inputElement w
  /\ isConsoleVisible (show_or_hide w) = isConsoleVisible w
  /\ inputHistory (show_or_hide w) = inputHistory w
  /\ historyIndex (show_or_hide w) = historyIndex w
  /\ cumulativeExecutedCode (show_or_hide w) = cumulativeExecutedCode w
  /\ iframeWindow (show_or_hide w) = iframeWindow w
  /\ lastKnownWidth (show_or_hide w) = lastKnownWidth w
  /\ lastKnownHeight (show_or_hide w) = lastKnownHeight w.
Proof.
  unfold show_or_hide. by destruct (consoleDisplay w), (showButton w).
Qed.

(** The panel and the button after [updateVisibility]. *)
Lemma show_or_hide_panel (w : Widget) d button :
  consoleDisplay w = Some d ->
  showButton w = Some button ->
  let shown := isConsoleVisible w in
  consoleDisplay (show_or_hide w)
  = Some (mkDisplay (style_width d) (style_height d)
            (if shown then "flex" else "none")
            (if shown then "both" else "none")
            (layoutWidth d) (layoutHeight d))
  /\ showButton (show_or_hide w) = Some (if shown then "none" else "block").
Proof. intros Hd Hb. unfold show_or_hide. by rewrite Hd, Hb. Qed.

(** Without the panel or without the button, [updateVisibility] does
    nothing. *)
Lemma show_or_hide_absent (w : Widget) :
  consoleDisplay w = None \/ showButton w = None -> show_or_hide w = w.
Proof.
  intros [E|E]; unfold show_or_hide; rewrite E; [done|].
  by destruct (consoleDisplay w).
Qed.

Lemma hideConsole_eq file (this : nat) (W : World) w :
  storage_works ->
  widgets W !! this = Some w ->
  hideConsole file this W =
  (Normal tt,
   set_localStorage
     (saved_size (<[VISIBLE_KEY := "false"]> (localStorage W))
        (show_or_hide (set_isConsoleVisible false w)))
     (set_widgets
        (<[this := show_or_hide (set_isConsoleVisible false w)]> (widgets W))
        W)).
Proof.
  intros [_ Hset] Hw.
  unfold hideConsole, updateVisibility, saveConsoleSize, saved_size.
  rewrite bind_eq. step Hw. rewrite bind_eq. step Hw.
  rewrite bind_eq, setLocalStorageItem_eq, Hset. cbv beta iota.
  rewrite bind_eq. step Hw.
  destruct (consoleDisplay (show_or_hide (set_isConsoleVisible false w)))
    as [d'|]; [|reflexivity].
  rewrite bind_eq, setLocalStorageItem_eq, Hset. cbv beta iota.
  by rewrite setLocalStorageItem_eq, Hset.
Qed.

(** A panel that [updateVisibility] has hidden has no box. *)
Lemma hidden_panel_size (store : gmap string string) (w : Widget) d button :
  consoleDisplay w = Some d ->
  showButton w = Some button ->
  saved_size store (show_or_hide (set_isConsoleVisible false w))
  = <[HEIGHT_KEY := "0px"]> (<[WIDTH_KEY := "0px"]> store).
Proof.
  intros Hd Hb. unfold saved_size, show_or_hide. widget_simp.
  by rewrite Hd, Hb.
Qed.

Lemma showConsole_eq file (this : nat) (W : World) w :
  storage_works ->
  widgets W !! this = Some w ->
  showConsole file this W =
  (Normal tt,
   set_localStorage (<[VISIBLE_KEY := "true"]> (localStorage W))
     (set_widgets
        (<[this := show_or_hide (set_isConsoleVisible true w)]> (widgets W))
        W)).
Proof.
  intros [_ Hset] Hw. unfold showConsole, updateVisibility.
  rewrite bind_eq. step Hw. rewrite bind_eq. step Hw.
  by rewrite setLocalStorageItem_eq, Hset.
Qed.

End Panel.

Section Visual.

Context `{H : Host}.

Local Abbreviation Value := (JsValue HostValue).
Local Abbreviation main := VirtualConsoleComponentRender.

(** The panel of an instance that [connectedCallback] has attached with
    a template that has the panel and the button. *)
Lemma attached_panel (html : Template) buffer (w : Widget) d0 :
  tpl_consoleDisplay html = Some d0 ->
  tpl_showButton html = true ->
  let shown := isConsoleVisible w in
  consoleDisplay (attached html buffer w)
  = Some (mkDisplay (lastKnownWidth w) (lastKnownHeight w)
            (if shown then "flex" else "none")
            (if shown then "both" else "none")
            (layoutWidth d0) (layoutHeight d0))
  /\ showButton (attached html buffer w)
     = Some (if shown then "none" else "block")
  /\ isConsoleVisible (attached html buffer w) = shown
  /\ resizeObserver (attached html buffer w) = Some true.
Proof.
  intros Hd Hb. destruct w, html. cbn in Hd, Hb. subst.
  unfold attached. cbv zeta. widget_crunch; by repeat split.
Qed.

(** What [connectedCallback] leaves of an instance, and the fields it
    takes from the template. *)
Lemma attached_fields (html : Template) buffer (w : Widget) :
  textarea (attached html buffer w)
  = (fun out => out +:+ render buffer) <$> tpl_consoleOutput html
  /\ inputElement (attached html buffer w) = tpl_consoleInput html
  /\ inputHistory (attached html buffer w) = inputHistory w
  /\ historyIndex (attached html buffer w) = historyIndex w
  /\ cumulativeExecutedCode (attached html buffer w)
     = cumulativeExecutedCode w
  /\ iframeWindow (attached html buffer w)
     = (if tpl_consoleIframe html then Some host_contentWindow
        else iframeWindow w).
Proof.
  destruct w, html. unfold attached. cbv zeta. widget_crunch; by repeat split.
Qed.

(** X3. With a store that works, on an instance that has the panel and
    the button: [hideConsole] hides the panel, shows the button and
    writes the flag to the store; the size it saves is read after the
    panel was hidden, when the panel has no box, so what it writes is
    0px for the width and for the height, whatever the size of the panel
    was.  [showConsole] after it shows the panel again, hides the button
    and writes the flag, leaving the saved size; neither changes the
    style width and height of the panel, the output area, the input
    field, the history or the accumulated program. *)
Theorem hide_then_show_restores_panel file (this : nat) (W : World)
  (w : Widget) (d : DisplayElement) (button : string) :
  storage_works ->
  widgets W !! this = Some w ->
  consoleDisplay w = Some d ->
  showButton w = Some button ->
  let hidden := exec (hideConsole file this) W in
  let shown := exec (showConsole file this) hidden in
  let panel display resize :=
    Some (mkDisplay (style_width d) (style_height d) display resize
            (layoutWidth d) (layoutHeight d)) in
  let rest (w' : Widget) :=
    (textarea w', inputElement w', inputHistory w', historyIndex w',
     cumulativeExecutedCode w') in
  (exists w1,
     widgets hidden !! this = Some w1
     /\ isConsoleVisible w1 = false
     /\ consoleDisplay w1 = panel "none" "none"
     /\ showButton w1 = Some "block"
     /\ rest w1 = rest w)
  /\ localStorage hidden
     = <[HEIGHT_KEY := "0px"]>
         (<[WIDTH_KEY := "0px"]>
            (<[VISIBLE_KEY := "false"]> (localStorage W)))
  /\ (exists w2,
        widgets shown !! this = Some w2
        /\ isConsoleVisible w2 = true
        /\ consoleDisplay w2 = panel "flex" "both"
        /\ showButton w2 = Some "none"
        /\ rest w2 = rest w)
  /\ localStorage shown = <[VISIBLE_KEY := "true"]> (localStorage hidden).
Proof.
  intros Hstore Hw Hd Hb hidden shown panel rest.
  subst hidden shown panel rest. cbv beta. unfold exec.
  rewrite (hideConsole_eq file this W w Hstore Hw). cbn [snd].
  erewrite showConsole_eq; [|exact Hstore|world_simp; apply lookup_insert_eq].
  cbn [snd]. world_simp. rewrite insert_insert_eq, !lookup_insert_eq.
  rewrite (hidden_panel_size _ w d button Hd Hb).
  split; [|split; [reflexivity|split; [|reflexivity]]].
  - eexists. split; [reflexivity|].
    destruct w. cbn in Hd, Hb. subst. by widget_crunch.
  - eexists. split; [reflexivity|].
    destruct w. cbn in Hd, Hb. subst. by widget_crunch.
Qed.

(** X4. What [hideConsole] and [showConsole] write to the store is what
    the next page load starts from, when the history in the store
    loads: after [hideConsole] on an instance that has the panel and the
    button, a new instance made and attached on the reloaded page is
    hidden, with the button shown, and its panel is given the width and
    the height 0px that were saved while the panel was hidden; after
    [showConsole], it is visible. *)
Theorem visual_state_survives_reload file (this : nat) (W : World)
  (w : Widget) (d d0 : DisplayElement) (button : string) (html : Template) :
  storage_works ->
  history_loads (localStorage W) ->
  widgets W !! this = Some w ->
  consoleDisplay w = Some d ->
  showButton w = Some button ->
  tpl_consoleDisplay html = Some d0 ->
  tpl_showButton html = true ->
  let next_page W' := run file [ev_new; ev_connected 0 html] (reload W') in
  (exists w',
     widgets (next_page (exec (hideConsole file this) W)) !! 0%nat = Some w'
     /\ isConsoleVisible w' = false
     /\ consoleDisplay w'
        = Some (mkDisplay "0px" "0px" "none" "none"
                  (layoutWidth d0) (layoutHeight d0))
     /\ showButton w' = Some "block")
  /\ (exists w',
        widgets (next_page (exec (showConsole file this) W)) !! 0%nat
        = Some w'
        /\ isConsoleVisible w' = true
        /\ consoleDisplay w'
           = Some (mkDisplay (default "80vw" (localStorage W !! WIDTH_KEY))
                     (default "25vh" (localStorage W !! HEIGHT_KEY))
                     "flex" "both" (layoutWidth d0) (layoutHeight d0))
        /\ showButton w' = Some "none").
Proof.
  intros Hstore Hloads Hw Hd Hb Hd0 Hb0 next_page. subst next_page. cbv beta.
  pose proof Hstore as [Hread _].
  unfold exec.
  rewrite (hideConsole_eq file this W w Hstore Hw).
  rewrite (hidden_panel_size _ w d button Hd Hb).
  rewrite (showConsole_eq file this W w Hstore Hw). cbn [snd].
  unfold reload. world_simp.
  rewrite !first_widget;
    try (intros; apply Hread);
    try (unfold history_loads in *;
         by rewrite ?lookup_insert_ne by done).
  split; eexists; (split; [reflexivity|]);
    match goal with
    | |- context [attached html ?b ?x] =>
        destruct (attached_panel html b x d0 Hd0 Hb0) as (-> & -> & -> & _)
    end; unfold fresh; widget_simp.
  - rewrite lookup_insert_ne, lookup_insert_ne, lookup_insert_eq by done.
    rewrite lookup_insert_ne, lookup_insert_eq by done.
    rewrite lookup_insert_eq. cbn [default].
    by rewrite bool_decide_eq_false_2.
  - rewrite lookup_insert_eq, !lookup_insert_ne by done. cbn [default].
    by rewrite bool_decide_eq_true_2.
Qed.

End Visual.

Section Reload.

Context `{H : Host}.

Local Abbreviation Value := (JsValue HostValue).
Local Abbreviation main := VirtualConsoleComponentRender.

(** X5. With a store that works, a submission that adds its text to the
    history leaves the list in the store so that the instance made on the
    next page load has that history, with the cursor at its end, given
    that [JSON.parse] returns the list that [JSON.stringify] wrote. *)
Theorem history_survives_reload file (this : nat) (input : string)
  (W : World) (w : Widget) :
  storage_works ->
  widgets W !! this = Some w ->
  JsStr.is_empty (JsStr.trim input) = false ->
  last (inputHistory w) <> Some (JsStr.trim input) ->
  let history := inputHistory w ++ [JsStr.trim input] in
  host_JSON_parse (JsStr.json_string_array history)
  = Normal (ParsedStrings history) ->
  let submitted := exec (processInput file this input) W in
  exists w',
    widgets (exec (constructor file) (reload submitted)) !! 0%nat = Some w'
    /\ inputHistory w' = history
    /\ historyIndex w' = Z.of_nat (length history)
    /\ cumulativeExecutedCode w' = "".
Proof.
  intros [Hread Hset] Hw Hne Hlast history Hparse submitted.
  subst submitted.
  pose proof (processInput_storage file this input W w Hw) as Hstore.
  rewrite Hne, differs_from_last_spec in Hstore.
  rewrite bool_decide_eq_false_2 in Hstore by exact Hlast.
  cbn [negb andb] in Hstore. unfold stored in Hstore. rewrite Hset in Hstore.
  unfold reload, exec at 1.
  rewrite constructor_eq;
    [|intros; apply Hread
     |unfold history_loads; cbn [initial localStorage];
      rewrite Hstore, lookup_insert_eq; cbn [default]; fold history;
      unfold id; by rewrite Hparse].
  cbn [initial localStorage nextWidget widgets snd]. world_simp.
  rewrite lookup_insert_eq. eexists. split; [reflexivity|].
  unfold fresh, loaded_history. widget_simp.
  rewrite Hstore, lookup_insert_eq. cbn [default].
  fold history. unfold id. by rewrite Hparse.
Qed.

(** X6. When the stored history cannot be parsed, the constructor still
    returns a new instance: its history is empty and its cursor is 0; the
    exception is passed to the original [console.error] directly, so that
    nothing is buffered or displayed, and no other instance and nothing in
    the store changes. *)
Theorem unreadable_history_starts_empty file (W : World) (e : Value) :
  (forall key, host_getItem_error (localStorage W) key = None) ->
  host_JSON_parse (default "[]" (localStorage W !! HISTORY_KEY)) = Throw e ->
  let W' := exec (constructor file) W in
  completion (constructor file) W = Normal (nextWidget W)
  /\ (exists w',
        widgets W' !! nextWidget W = Some w'
        /\ inputHistory w' = [] /\ historyIndex w' = 0)
  /\ originalConsole W'
     = originalConsole W
       ++ [(error,
            [JsString "Error al cargar el historial de la consola:"; e])]
  /\ consoleMessageBuffer W' = consoleMessageBuffer W
  /\ localStorage W' = localStorage W
  /\ forall j, j <> nextWidget W -> widgets W' !! j = widgets W !! j.
Proof.
  intros Hread Hparse W'. subst W'. unfold exec, completion.
  rewrite constructor_eq;
    [|exact Hread|unfold history_loads; by rewrite Hparse].
  rewrite Hparse. cbn [fst snd].
  world_simp. repeat split.
  - rewrite lookup_insert_eq. eexists. split; [reflexivity|].
    unfold fresh, loaded_history. widget_simp. by rewrite Hparse.
  - intros j Hj. by rewrite lookup_insert_ne.
Qed.

End Reload.

(** ** What the methods keep of the history and its cursor *)

Section Kept.

Context `{H : Host}.
Context (P : Widget -> Prop) (Good : list string -> Prop) `{!Stable P Good}.

Local Abbreviation Value := (JsValue HostValue).

Lemma kept_refl (W : World) : kept P W W.
Proof. by intros HW. Qed.

Lemma kept_trans (W1 W2 W3 : World) :
  kept P W1 W2 -> kept P W2 W3 -> kept P W1 W3.
Proof. unfold kept. auto. Qed.

Lemma kept_same (W W' : World) : widgets W' = widgets W -> kept P W W'.
Proof. intros E HW j w. rewrite E. apply HW. Qed.

Lemma kept_alter (f : Widget -> Widget) (this : nat) (W W' : World) :
  (forall w, widgets W !! this = Some w -> P w -> P (f w)) ->
  widgets W' = alter f this (widgets W) ->
  kept P W W'.
Proof.
  intros Hf E HW j w'. rewrite E.
  destruct (decide (this = j)) as [->|Hne].
  - rewrite lookup_alter_eq. destruct (widgets W !! j) as [w|] eqn:Hw; [|done].
    cbn. intros [= <-]. apply Hf; [done|]. by apply (HW j).
  - rewrite lookup_alter_ne by done. apply HW.
Qed.

Lemma kept_ret {A : Type} (a : A) : sat (kept P) (mret a).
Proof. intros W. apply kept_refl. Qed.

Lemma kept_bind {A B : Type} (m : M A) (k : A -> M B) :
  sat (kept P) m -> (forall a, sat (kept P) (k a)) -> sat (kept P) (m ≫= k).
Proof.
  intros Hm Hk W. rewrite bind_eq. specialize (Hm W).
  destruct (m W) as [[a|e] W1]; cbn [snd] in *; [|exact Hm].
  eapply kept_trans; [exact Hm|apply Hk].
Qed.

Lemma kept_try_catch {A : Type} (body : M A) (handler : Value -> M A) :
  sat (kept P) body -> (forall e, sat (kept P) (handler e)) ->
  sat (kept P) (try_catch body handler).
Proof.
  intros Hb Hh W. unfold try_catch. specialize (Hb W).
  destruct (body W) as [[a|e] W1]; cbn [snd] in *; [exact Hb|].
  eapply kept_trans; [exact Hb|apply Hh].
Qed.

(** A computation that leaves the heap of instances alone. *)
Lemma kept_heap {A : Type} (m : M A) :
  (forall W, widgets (snd (m W)) = widgets W) -> sat (kept P) m.
Proof. intros E W. apply kept_same, E. Qed.

Lemma kept_update (this : nat) (f : Widget -> Widget) :
  (forall w, P w -> P (f w)) -> sat (kept P) (update this f).
Proof.
  intros Hf W. eapply kept_alter; [|reflexivity]. intros w _. apply Hf.
Qed.

Lemma kept_update_at (this : nat) (f : Widget -> Widget) (W : World) :
  (forall w, widgets W !! this = Some w -> P w -> P (f w)) ->
  kept P W (snd (update this f W)).
Proof. intros Hf. by eapply kept_alter. Qed.

(** An assignment to fields other than the history and its cursor. *)
Lemma kept_update_fields (this : nat) (f : Widget -> Widget) :
  (forall w, inputHistory (f w) = inputHistory w
             /\ historyIndex (f w) = historyIndex w) ->
  sat (kept P) (update this f).
Proof.
  intros Hf. apply kept_update. intros w Hw.
  destruct (Hf w) as [Hh Hi]. by apply (stable_fields w).
Qed.

Lemma kept_appendMessage (this : nat) (text type : string) stamp :
  sat (kept P) (appendMessage this text type stamp).
Proof.
  unfold appendMessage. apply kept_bind.
  - destruct stamp; apply kept_heap; reflexivity.
  - intros t. apply kept_update_fields. intros w.
    by destruct (append_line_fields (line t type text) w)
      as (_ & _ & -> & -> & _).
Qed.

Lemma kept_intercepted file method (args : list Value) :
  sat (kept P) (intercepted file method args).
Proof.
  unfold intercepted.
  apply kept_bind; [apply kept_heap; reflexivity|]. intros t.
  apply kept_bind; [apply kept_heap; reflexivity|]. intros text. cbv zeta.
  apply kept_bind; [apply kept_heap; reflexivity|]. intros W.
  apply kept_bind; [|intros; apply kept_heap; reflexivity].
  destruct file, (activeConsoleAppender W);
    first [apply kept_appendMessage | apply kept_heap; reflexivity].
Qed.

Lemma kept_setLocalStorageItem file (key value : string) :
  sat (kept P) (setLocalStorageItem file key value).
Proof.
  intros W. rewrite setLocalStorageItem_eq.
  destruct (host_setItem_error (localStorage W) key value) as [e|];
    [|by apply kept_same].
  pose proof (kept_intercepted file error
                [JsString "Error al escribir en localStorage:"; e] W) as Hk.
  by rewrite intercepted_eq in Hk.
Qed.

Lemma kept_getLocalStorageItem file (key value : string) :
  sat (kept P) (getLocalStorageItem file key value).
Proof.
  intros W. rewrite getLocalStorageItem_eq.
  destruct (host_getItem_error (localStorage W) key) as [e|];
    [|by apply kept_refl].
  pose proof (kept_intercepted file error
                [JsString "Error al leer de localStorage:"; e] W) as Hk.
  by rewrite intercepted_eq in Hk.
Qed.

(** The history block, called with a text that is not empty. *)
Lemma kept_remember file (this : nat) (text : string) :
  JsStr.is_empty text = false -> sat (kept P) (remember file this text).
Proof.
  intros Hne W. unfold remember. rewrite bind_eq.
  set (push := fun w : Widget => set_inputHistory (inputHistory w ++ [text]) w).
  assert (Hrest : forall W1,
            kept P W1
              (snd ((w ← the this;
                     setLocalStorageItem file HISTORY_KEY
                       (JsStr.json_string_array (inputHistory w))) W1))).
  { intros W1. apply kept_bind; [apply kept_heap; reflexivity|].
    intros. apply kept_setLocalStorageItem. }
  destruct (widgets W !! this) as [w|] eqn:Hw.
  - rewrite (the_eq this W w Hw). cbv beta iota.
    destruct (differs_from_last (inputHistory w) text) eqn:Hd;
      [|apply kept_refl].
    rewrite bind_eq.
    apply kept_trans with (snd (update this push W)); [|apply Hrest].
    apply kept_update_at. intros w0 Hw0 HP. simplify_eq.
    pose proof (stable_remembered text w Hne HP) as HP'.
    unfold remembered in HP'. by rewrite Hd in HP'.
  - unfold the at 1. cbv beta iota.
    destruct (differs_from_last _ text); [|apply kept_refl].
    rewrite bind_eq.
    apply kept_trans with (snd (update this push W)); [|apply Hrest].
    apply kept_update_at. intros w0 Hw0. simplify_eq.
Qed.

Lemma kept_report (this : nat) (reported : list MessageEntry) :
  sat (kept P) (report this reported).
Proof.
  induction reported as [|entry rest IH]; cbn [report].
  - apply kept_ret.
  - apply kept_bind; [apply kept_appendMessage|]. intros. exact IH.
Qed.

End Kept.

(** Follows the structure of a method body; what is left are the
    assignments to the history and to its cursor. *)
Ltac kept_auto :=
  repeat
    (lazymatch goal with
     | |- sat _ (_ ≫= _) => apply kept_bind; [|intros ?]
     | |- sat _ (mret _) => apply kept_ret
     | |- sat _ (try_catch _ _) => apply kept_try_catch; [|intros ?]
     | |- sat _ (lift _) => apply kept_heap; reflexivity
     | |- sat _ get => apply kept_heap; reflexivity
     | |- sat _ (throw _) => apply kept_heap; reflexivity
     | |- sat _ (the _) => apply kept_heap; reflexivity
     | |- sat _ now => apply kept_heap; reflexivity
     | |- sat _ (original _ _) => apply kept_heap; reflexivity
     | |- sat _ (push_entry _) => apply kept_heap; reflexivity
     | |- sat _ (modify (set_consoleMessageBuffer _)) =>
         apply kept_heap; reflexivity
     | |- sat _ (modify (set_activeConsoleAppender _)) =>
         apply kept_heap; reflexivity
     | |- sat _ (modify (set_nextFunction _)) => apply kept_heap; reflexivity
     | |- sat _ (appendMessage _ _ _ _) => by eapply kept_appendMessage
     | |- sat _ (report _ _) => by eapply kept_report
     | |- sat _ (setLocalStorageItem _ _ _) =>
         by eapply kept_setLocalStorageItem
     | |- sat _ (getLocalStorageItem _ _ _) =>
         by eapply kept_getLocalStorageItem
     | |- sat _ (intercepted _ _ _) => by eapply kept_intercepted
     | |- sat _ (match ?x with _ => _ end) => destruct x eqn:?
     | |- sat _ (if ?x then _ else _) => destruct x eqn:?
     | |- sat _ (let _ := _ in _) => cbv zeta
     end).

(** An assignment that leaves the history and its cursor alone. *)
Ltac kept_fields :=
  eapply kept_update_fields; [eassumption|];
  intros [];
  unfold show_or_hide, observe_size, apply_saved_size, query_elements,
    stop_observing, clear_output;
  cbn;
  repeat match goal with
         | |- context [match ?x with _ => _ end] => destruct x
         end;
  by split.

Section KeptMethods.

Context `{H : Host}.
Context (P : Widget -> Prop) (Good : list string -> Prop) `{!Stable P Good}.

Local Abbreviation Value := (JsValue HostValue).

Lemma kept_processInput file (this : nat) (input : string) :
  sat (kept P) (processInput file this input).
Proof.
  unfold processInput, evaluate, iframe_eval, display_result.
  destruct (JsStr.is_empty (JsStr.trim input)) eqn:Hne; [apply kept_ret|].
  apply kept_bind; [by eapply kept_remember|]. intros _.
  kept_auto. all: kept_fields.
Qed.

(** The three assignments that end [navigateHistory], as one. *)
Lemma kept_move (this : nat) (direction : Z) :
  sat (kept P)
    (update this (move_cursor direction);;
     update this clamp_cursor;;
     update this show_entry).
Proof.
  intros W. eapply (kept_alter P _ this); cycle 1.
  - unfold update. monad_simp. world_simp. by rewrite !alter_alter.
  - intros w _ HP. cbv beta.
    apply (stable_fields (clamp_cursor (move_cursor direction w))).
    + by destruct (show_entry_spec (clamp_cursor (move_cursor direction w)))
        as (_ & -> & _).
    + by destruct (show_entry_spec (clamp_cursor (move_cursor direction w)))
        as (-> & _).
    + by apply stable_navigate.
Qed.

Lemma kept_navigateHistory file (this : nat) (direction : Z) :
  sat (kept P) (navigateHistory file this direction).
Proof.
  unfold navigateHistory.
  apply kept_bind; [apply kept_heap; reflexivity|]. intros w.
  destruct (inputElement w) as [value|]; [|apply kept_ret].
  apply kept_bind; [|intros; apply kept_move].
  destruct (JsStr.is_empty (JsStr.trim value)) eqn:Hne.
  - rewrite andb_false_r. apply kept_ret.
  - destruct (_ && _); [by eapply kept_remember|apply kept_ret].
Qed.

Lemma kept_setupIframeContext (this : nat) :
  sat (kept P) (setupIframeContext this).
Proof. unfold setupIframeContext. kept_auto. kept_fields. Qed.

Lemma kept_clearConsole (this : nat) : sat (kept P) (clearConsole this).
Proof.
  unfold clearConsole. kept_auto;
    first [by eapply kept_setupIframeContext | kept_fields].
Qed.

Lemma kept_saveConsoleSize file (this : nat) :
  sat (kept P) (saveConsoleSize file this).
Proof. unfold saveConsoleSize. kept_auto. Qed.

Lemma kept_hideConsole file (this : nat) : sat (kept P) (hideConsole file this).
Proof.
  unfold hideConsole, updateVisibility. kept_auto;
    first [by eapply kept_saveConsoleSize | kept_fields].
Qed.

Lemma kept_showConsole file (this : nat) : sat (kept P) (showConsole file this).
Proof. unfold showConsole, updateVisibility. kept_auto; kept_fields. Qed.

Lemma kept_on_keydown file (this : nat) (key : Key) :
  sat (kept P) (on_keydown file this key).
Proof.
  unfold on_keydown.
  apply kept_bind; [apply kept_heap; reflexivity|]. intros w.
  destruct (inputElement w) as [value|]; [|apply kept_ret].
  destruct key.
  - apply kept_bind; [by eapply kept_processInput|]. intros _.
    apply kept_bind; [kept_fields|]. intros _.
    apply kept_update. apply stable_reset.
  - by eapply kept_navigateHistory.
  - by eapply kept_navigateHistory.
  - apply kept_ret.
Qed.

Lemma kept_on_input (this : nat) (value : string) :
  sat (kept P) (on_input this value).
Proof.
  unfold on_input. apply kept_update. intros w HP. unfold edited.
  destruct (inputElement w); [|exact HP].
  assert (HP' : P (set_inputElement (Some value) w))
    by (apply (stable_fields w); [by destruct w..|exact HP]).
  cbv zeta. destruct (_ && _); [|exact HP'].
  by apply (stable_reset _ HP').
Qed.

Lemma kept_flush_loop (fuel this : nat) : sat (kept P) (flush_loop fuel this).
Proof.
  induction fuel as [|fuel IH]; cbn [flush_loop]; [apply kept_ret|].
  kept_auto. exact IH.
Qed.

Lemma kept_connectedCallback file (this : nat) (html : Template) :
  sat (kept P) (connectedCallback file this html).
Proof.
  unfold connectedCallback, register, bind_appendMessage,
    flushMessageBuffer, updateVisibility.
  kept_auto;
    first [ by eapply kept_setupIframeContext
          | by eapply kept_flush_loop
          | kept_fields ].
Qed.

Lemma kept_disconnectedCallback file (this : nat) :
  sat (kept P) (disconnectedCallback file this).
Proof.
  unfold disconnectedCallback, unregister, bind_appendMessage.
  kept_auto; kept_fields.
Qed.

(** A read of the store returns, changes neither the store nor the
    instances, and makes no instance. *)
Lemma getLocalStorageItem_read file (key defaultValue : string) (W : World) :
  exists W',
    getLocalStorageItem file key defaultValue W
    = (Normal (read_item key defaultValue (localStorage W)), W')
    /\ localStorage W' = localStorage W
    /\ strangers W' = strangers W
    /\ nextWidget W' = nextWidget W
    /\ kept P W W'.
Proof.
  rewrite getLocalStorageItem_eq. unfold read_item.
  destruct (host_getItem_error (localStorage W) key) as [e|].
  - eexists. split; [reflexivity|].
    destruct (logged_fields file error
                [JsString "Error al leer de localStorage:"; e] W)
      as (-> & _ & -> & ->).
    repeat split.
    pose proof (kept_intercepted P Good file error
                  [JsString "Error al leer de localStorage:"; e] W) as Hk.
    by rewrite intercepted_eq in Hk.
  - exists W. repeat split. apply kept_refl.
Qed.

(** The constructor, when what it reads of the history is a list that
    is [Good] or is not JSON. *)
Lemma kept_constructor file (W : World) :
  parses_to Good (read_item HISTORY_KEY "[]" (localStorage W)) ->
  kept P W (exec (constructor file) W)
  /\ strangers (exec (constructor file) W) = strangers W.
Proof.
  intros Hparse. unfold constructor, exec.
  rewrite bind_eq.
  destruct (getLocalStorageItem_read file VISIBLE_KEY "true" W)
    as (W1 & -> & Hs1 & Hx1 & _ & Hk1). cbv beta iota.
  rewrite bind_eq.
  destruct (getLocalStorageItem_read file WIDTH_KEY "80vw" W1)
    as (W2 & -> & Hs2 & Hx2 & _ & Hk2). cbv beta iota.
  rewrite bind_eq.
  destruct (getLocalStorageItem_read file HEIGHT_KEY "25vh" W2)
    as (W3 & -> & Hs3 & Hx3 & _ & Hk3). cbv beta iota.
  rewrite bind_eq.
  destruct (getLocalStorageItem_read file HISTORY_KEY "[]" W3)
    as (W4 & -> & Hs4 & Hx4 & _ & Hk4). cbv beta iota.
  rewrite Hs3, Hs2, Hs1.
  assert (Hk : kept P W W4) by (unfold kept in *; auto).
  assert (Hx : strangers W4 = strangers W) by congruence.
  clear Hk1 Hk2 Hk3 Hk4 Hx1 Hx2 Hx3 Hx4 Hs1 Hs2 Hs3 Hs4.
  assert (Hnew : forall visible width height history (W0 : World),
            Good history ->
            kept P W0
              (set_nextWidget (S (nextWidget W0))
                 (set_widgets
                    (<[nextWidget W0 :=
                         mkWidget None None None None false false None
                           visible width height
                           history (Z.of_nat (length history)) "" None]>
                       (widgets W0)) W0))).
  { intros visible width height history W0 Hgood HW j w. world_simp.
    destruct (decide (nextWidget W0 = j)) as [->|Hne].
    - rewrite lookup_insert_eq. intros [= <-]. by apply stable_fresh.
    - rewrite lookup_insert_ne by done. apply HW. }
  unfold parses_to in Hparse.
  destruct (host_JSON_parse (read_item HISTORY_KEY "[]" (localStorage W)))
    as [[history|v]|e]; [| done |].
  - monad_simp. world_simp. split; [|exact Hx].
    eapply kept_trans; [exact Hk|]. by apply Hnew.
  - monad_simp. world_simp. split; [|exact Hx].
    eapply kept_trans; [exact Hk|].
    eapply (kept_trans _ _
              (set_originalConsole
                 (originalConsole W4
                  ++ [(error,
                       [JsString "Error al cargar el historial de la consola:";
                        e])]) W4));
      [by apply kept_same|].
    apply (Hnew _ _ _ [] (set_originalConsole _ W4)),
      (stable_nil (P := P)).
Qed.

End KeptMethods.

Section KeptAlways.

Context `{H : Host}.

Local Abbreviation Value := (JsValue HostValue).

Lemma kept_handle (P : Widget -> Prop) (Good : list string -> Prop)
  `{!Stable P Good} file (ev : Event) (W : World) :
  Forall (parses_to Good) (history_reads file [ev] W) ->
  kept P W (exec (handle file ev) W)
  /\ strangers (exec (handle file ev) W) = strangers W.
Proof.
  intros Hparse.
  assert (Hcases : ev = ev_new \/ ev <> ev_new)
    by (destruct ev; first [by left|by right]).
  destruct Hcases as [->|Hev].
  - cbn [history_reads app] in Hparse. apply Forall_cons in Hparse as [Hp _].
    destruct (kept_constructor P Good file W Hp) as [Hk Hx].
    cbn [handle]. unfold exec in *. rewrite bind_eq.
    by destruct (constructor file W) as [[this|e] W'].
  - split; [|by apply handle_strangers].
    destruct ev; try congruence; cbn [handle].
    + by eapply kept_intercepted.
    + by eapply kept_connectedCallback.
    + by eapply kept_disconnectedCallback.
    + by eapply kept_on_keydown.
    + by eapply kept_on_input.
    + by eapply kept_clearConsole.
    + by eapply kept_hideConsole.
    + by eapply kept_showConsole.
Qed.

Lemma kept_run (P : Widget -> Prop) (Good : list string -> Prop)
  `{!Stable P Good} file (events : list Event) (W : World) :
  Forall (parses_to Good) (history_reads file events W) ->
  kept P W (run file events W)
  /\ strangers (run file events W) = strangers W.
Proof.
  revert W.
  induction events as [|ev events IH]; intros W Hparse;
    [split; [apply kept_refl|done]|].
  cbn [history_reads] in Hparse. apply Forall_app in Hparse as [Hev Hrest].
  destruct (kept_handle P Good file ev W) as [Hk Hx].
  { cbn [history_reads]. by rewrite List.app_nil_r. }
  destruct (IH _ Hrest) as [Hk' Hx'].
  change (run file (ev :: events) W)
    with (run file events (exec (handle file ev) W)).
  split; [|congruence].
  eapply kept_trans; [exact Hk|exact Hk'].
Qed.

Lemma every_widget_initial (P : Widget -> Prop)
  (storage : gmap string string) :
  every_widget P (initial storage).
Proof. intros j w. cbn. by rewrite lookup_empty. Qed.

#[local] Instance cursor_in_range_stable :
  Stable cursor_in_range (fun _ => True).
Proof.
  split; unfold cursor_in_range.
  - intros w w' -> ->. done.
  - intros text w _ Hrange. unfold remembered.
    destruct (differs_from_last _ _); [|done].
    cbn. rewrite length_app. cbn. lia.
  - intros direction w _.
    destruct (clamp_cursor_spec (move_cursor direction w)) as (-> & -> & _).
    apply clamped_range. lia.
  - intros w _. unfold reset_cursor. cbn. lia.
  - intros w _ ->. lia.
  - done.
Qed.

Lemma no_repeat_snoc (history : list string) (text : string) :
  no_repeat history -> last history <> Some text ->
  no_repeat (history ++ [text]).
Proof.
  induction history as [|x [|y history] IH]; [done| |].
  - cbn. intros _ Hlast. split; [|done]. congruence.
  - intros [Hxy Hrest] Hlast. split; [exact Hxy|]. by apply IH.
Qed.

#[local] Instance tidy_stable :
  Stable (fun w => tidy (inputHistory w)) tidy.
Proof.
  split.
  - by intros w w' -> _.
  - intros text w Hne [Hall Hrep]. unfold remembered.
    destruct (differs_from_last (inputHistory w) text) eqn:Hd;
      [|by split].
    rewrite differs_from_last_spec in Hd.
    apply negb_true_iff, bool_decide_eq_false in Hd. cbn. split.
    + apply Forall_app. split; [exact Hall|].
      apply Forall_singleton. by destruct text.
    + by apply no_repeat_snoc.
  - intros direction w.
    by destruct (clamp_cursor_spec (move_cursor direction w))
      as (_ & -> & _).
  - by intros w.
  - by intros w.
  - by split.
Qed.

(** X8. The cursor of the history stays within the history.  When every
    text that the constructors run by the events read as the stored
    history is a list of strings or is not JSON, and every instance has
    its cursor between 0 and the length of its history, so it is after
    the events, in either file, and every instance that the events make
    has a list as its history. *)
Theorem cursor_always_in_range file (events : list Event) (W : World) :
  Forall (parses_to (fun _ => True)) (history_reads file events W) ->
  every_widget cursor_in_range W ->
  every_widget cursor_in_range (run file events W)
  /\ strangers (run file events W) = strangers W.
Proof.
  intros Hparse HW.
  destruct (kept_run cursor_in_range (fun _ => True) file events W Hparse)
    as [Hk Hx].
  split; [by apply Hk|exact Hx].
Qed.

(** X9. No method puts an empty text into a history or an entry equal
    to the one before it.  When every text that the constructors run by
    the events read as the stored history is not JSON or is a list of
    strings without empty entries and without repeats, and the instances
    have such histories, they have such histories after the events, in
    either file, and every instance that the events make has a list as
    its history. *)
Theorem history_stays_tidy file (events : list Event) (W : World) :
  Forall (parses_to tidy) (history_reads file events W) ->
  every_widget (fun w => tidy (inputHistory w)) W ->
  every_widget (fun w => tidy (inputHistory w)) (run file events W)
  /\ strangers (run file events W) = strangers W.
Proof.
  intros Hparse HW.
  destruct (kept_run _ tidy file events W Hparse) as [Hk Hx].
  split; [by apply Hk|exact Hx].
Qed.

End KeptAlways.

(** ** Submissions and the keys *)

(** The output area after a run of appended texts. *)
Ltac output_crunch w :=
  rewrite ?textarea_append_line, ?textarea_evaluated; widget_simp;
  rewrite ?textarea_append_line, ?textarea_evaluated; widget_simp;
  rewrite ?textarea_append_line;
  replace (textarea (remembered _ w)) with (textarea w)
    by (unfold remembered; by destruct (differs_from_last _ _));
  destruct (textarea w); cbn [fmap option_fmap option_map];
  rewrite ?app_assoc; try reflexivity.

Section Submissions.

Context `{H : Host}.

Local Abbreviation Value := (JsValue HostValue).

(** X10. Enter on an input field that is empty or holds only white
    space submits nothing: the listener clears the field and puts the
    cursor at the end of the history, and nothing else changes, neither
    the output area nor the history, the store or the clock. *)
Theorem Enter_on_blank_input file (this : nat) (W : World) (w : Widget)
  (value : string) :
  widgets W !! this = Some w ->
  inputElement w = Some value ->
  JsStr.is_empty (JsStr.trim value) = true ->
  on_keydown file this Enter W =
  (Normal tt,
   set_widgets
     (<[this := set_historyIndex (Z.of_nat (length (inputHistory w)))
                  (set_inputElement (Some "") w)]> (widgets W)) W).
Proof.
  intros Hw Hinput Hblank. unfold on_keydown. rewrite bind_eq. step Hw.
  rewrite Hinput. unfold processInput. rewrite Hblank.
  rewrite bind_eq. cbn [mret M_ret ret]. cbv beta iota.
  rewrite bind_eq. step Hw. step Hw. reflexivity.
Qed.

(** X11. A submission made while the instance has no window of the
    iframe returns normally: the text is recorded in the history and
    echoed, then one ERROR line says that the context is not ready;
    nothing is evaluated, no result marker follows, and the accumulated
    program is as it was. *)
Theorem submission_without_context file (this : nat) (input : string)
  (W : World) (w : Widget) :
  widgets W !! this = Some w ->
  iframeWindow w = None ->
  JsStr.is_empty (JsStr.trim input) = false ->
  let W' := exec (processInput file this input) W in
  completion (processInput file this input) W = Normal tt
  /\ exists w' add t1 t2,
       widgets W' !! this = Some w'
       /\ textarea w' =
          (fun out =>
             out +:+ add +:+ line t1 "INPUT" ("> " +:+ input)
             +:+ line t2 "ERROR"
                   "  Error: El contexto de la consola no está listo.")
            <$> textarea w
       /\ (host_setItem_error (localStorage W) HISTORY_KEY
             (JsStr.json_string_array (inputHistory w ++ [JsStr.trim input]))
           = None -> add = "")
       /\ inputHistory w' = inputHistory (remembered (JsStr.trim input) w)
       /\ cumulativeExecutedCode w' = cumulativeExecutedCode w
       /\ iframeWindow w' = None.
Proof.
  intros Hw Hctx Hne W'. subst W'.
  destruct (processInput_begins file this input W w Hw Hne)
    as (W1 & add & t & Hw1 & _ & Hadd & Hrun).
  unfold exec, completion. rewrite Hrun, Hctx.
  erewrite appendMessage_now by exact Hw1. cbn [fst snd].
  split; [reflexivity|]. world_simp. rewrite lookup_insert_eq.
  eexists _, add, t, _. split; [reflexivity|].
  split; [output_crunch w|]. split; [exact Hadd|].
  fields_simp. by rewrite Hctx.
Qed.

Lemma iframeWindow_append_line (a : string) (w : Widget) :
  iframeWindow (append_line a w) = iframeWindow w.
Proof. by destruct (append_line_fields a w) as (_ & -> & _). Qed.

(** X12. When the evaluation returns, the submission returns normally
    and the output area gains the echo, what the console of the iframe
    reported, and one OUTPUT line: for [undefined] the declaration marker
    or the undefined marker, for another value its JSON text after
    [  < ], a string in quotes; the window of the iframe is the one that
    the evaluation left. *)
Theorem result_is_shown file (this : nat) (input : string) (W : World)
  (w : Widget) (window window' : IframeWindow)
  (reported : list MessageEntry) (v : Value) (text : string) :
  widgets W !! this = Some w ->
  iframeWindow w = Some window ->
  JsStr.is_empty (JsStr.trim input) = false ->
  host_eval window (cumulativeExecutedCode w +:+ JsStr.newline +:+ input)
  = (window', reported, Normal v) ->
  (if is_undefined v then text = result_marker input
   else exists json,
       JSON_stringify v = Normal json /\ text = "  < " +:+ json) ->
  let W' := exec (processInput file this input) W in
  completion (processInput file this input) W = Normal tt
  /\ (exists w' add t1 t2,
        widgets W' !! this = Some w'
        /\ textarea w' =
           (fun out =>
              out +:+ add +:+ line t1 "INPUT" ("> " +:+ input)
              +:+ render reported +:+ line t2 "OUTPUT" text)
             <$> textarea w
        /\ (host_setItem_error (localStorage W) HISTORY_KEY
              (JsStr.json_string_array
                 (inputHistory w ++ [JsStr.trim input]))
            = None -> add = "")
        /\ iframeWindow w' = Some window')
  /\ forall s, JSON_stringify (JsString s) = Normal (JsStr.json_string s).
Proof.
  intros Hw Hctx Hne Heval Htext W'. subst W'.
  destruct (processInput_begins file this input W w Hw Hne)
    as (W1 & add & t & Hw1 & _ & Hadd & Hrun).
  unfold exec, completion. rewrite Hrun, Hctx. clear Hrun.
  rewrite bind_eq. erewrite evaluate_eq by exact Hw1. rewrite Heval.
  cbv beta iota. erewrite display_result_eq by lookup_now Hw1.
  cbv zeta.
  destruct (is_undefined v).
  - subst text. cbn [fst snd]. split; [reflexivity|]. split; [|done].
    world_simp. rewrite insert_insert_eq, lookup_insert_eq.
    eexists _, add, t, _. split; [reflexivity|].
    split; [output_crunch w|]. split; [exact Hadd|].
    unfold evaluated. rewrite iframeWindow_append_line.
    cbn [set_cumulativeExecutedCode iframeWindow].
    by rewrite iframeWindow_append_line.
  - destruct Htext as (json & -> & ->). cbn [fst snd].
    split; [reflexivity|]. split; [|done].
    world_simp. rewrite insert_insert_eq, lookup_insert_eq.
    eexists _, add, t, _. split; [reflexivity|].
    split; [output_crunch w|]. split; [exact Hadd|].
    unfold evaluated. rewrite iframeWindow_append_line.
    cbn [set_cumulativeExecutedCode iframeWindow].
    by rewrite iframeWindow_append_line.
Qed.

(** What a submission leaves of the accumulated program, whatever
    happens: the program as it was, or the candidate. *)
Lemma processInput_program file (this : nat) (input : string) (W : World) w :
  widgets W !! this = Some w ->
  exists w',
    widgets (exec (processInput file this input) W) !! this = Some w'
    /\ (cumulativeExecutedCode w' = cumulativeExecutedCode w
        \/ cumulativeExecutedCode w'
           = cumulativeExecutedCode w +:+ JsStr.newline +:+ input).
Proof.
  intros Hw. destruct (JsStr.is_empty (JsStr.trim input)) eqn:Hne.
  - unfold processInput, exec. rewrite Hne. exists w. by split; [|left].
  - destruct (processInput_begins file this input W w Hw Hne)
      as (W1 & add & t & Hw1 & _ & _ & Hrun).
    unfold exec. rewrite Hrun. clear Hrun.
    destruct (iframeWindow w) as [window|].
    + rewrite bind_eq. erewrite evaluate_eq by exact Hw1.
      destruct (host_eval window _) as [[window' reported] [v|e]].
      * cbv beta iota. erewrite display_result_eq by lookup_now Hw1.
        cbv zeta.
        destruct (is_undefined v); [|destruct (JSON_stringify v)];
          cbn [snd]; world_simp;
          rewrite ?insert_insert_eq, lookup_insert_eq;
          (eexists; split; [reflexivity|]); right; by fields_simp.
      * destruct (message_of e).
        -- cbv beta iota. erewrite display_result_eq by lookup_now Hw1.
           cbv zeta. cbn [is_undefined snd]. world_simp.
           rewrite ?insert_insert_eq, lookup_insert_eq.
           (eexists; split; [reflexivity|]); left; by fields_simp.
        -- cbn [snd]. world_simp. rewrite lookup_insert_eq.
           (eexists; split; [reflexivity|]); left; by fields_simp.
    + erewrite appendMessage_now by exact Hw1. cbn [snd]. world_simp.
      rewrite lookup_insert_eq.
      (eexists; split; [reflexivity|]); left; by fields_simp.
Qed.

(** X13. After any submissions the accumulated program is the program
    from before followed by some of the submitted texts, in the order of
    submission, each after a line break: a submission adds its text at the
    end or leaves the program as it was. *)
Theorem program_is_the_accepted_inputs file (this : nat)
  (inputs : list string) (W : World) (w : Widget) :
  widgets W !! this = Some w ->
  exists accepted w',
    sublist accepted inputs
    /\ widgets (submissions file this inputs W) !! this = Some w'
    /\ cumulativeExecutedCode w'
       = cumulativeExecutedCode w +:+ appended accepted.
Proof.
  revert W w. induction inputs as [|input inputs IH]; intros W w Hw.
  - exists [], w. split; [done|]. split; [exact Hw|].
    cbn. by rewrite app_nil_r.
  - cbn [submissions fold_left].
    destruct (processInput_program file this input W w Hw)
      as (w1 & Hw1 & Hprogram).
    destruct (IH _ w1 Hw1) as (accepted & w' & Hsub & Hw' & Hrest).
    destruct Hprogram as [Hsame|Hgrown].
    + exists accepted, w'. split; [by apply sublist_cons|].
      split; [exact Hw'|]. by rewrite Hrest, Hsame.
    + exists (input :: accepted), w'. split; [by apply sublist_skip|].
      split; [exact Hw'|]. rewrite Hrest, Hgrown. cbn [appended].
      by rewrite !app_assoc.
Qed.

End Submissions.

Section Keys.

Context `{H : Host}.

Local Abbreviation Value := (JsValue HostValue).

Lemma last_remembered (text : string) (w : Widget) :
  last (inputHistory (remembered text w)) = Some text.
Proof.
  unfold remembered.
  destruct (differs_from_last (inputHistory w) text) eqn:Hd.
  - cbn. apply last_snoc.
  - rewrite differs_from_last_spec in Hd.
    by apply negb_false_iff, bool_decide_eq_true in Hd.
Qed.

Lemma history_entry_last (history : list string) (text : string) :
  last history = Some text ->
  history <> []
  /\ history_entry history (Z.of_nat (length history) - 1) = Some text.
Proof.
  intros Hlast. destruct history as [|x history]; [done|]. split; [done|].
  unfold history_entry.
  replace (Z.of_nat (length (x :: history)) - 1 <? 0) with false
    by (symmetry; apply Z.ltb_ge; cbn [length]; lia).
  rewrite last_lookup in Hlast.
  replace (Z.to_nat (Z.of_nat (length (x :: history)) - 1))
    with (pred (length (x :: history))) by (cbn [length]; lia).
  exact Hlast.
Qed.

(** The arrow up from the end of a history that is not empty, when no
    draft is captured: the last entry is shown. *)
Lemma up_from_the_end file (this : nat) (W : World) w value text :
  widgets W !! this = Some w ->
  inputElement w = Some value ->
  JsStr.is_empty (JsStr.trim value) = true ->
  historyIndex w = Z.of_nat (length (inputHistory w)) ->
  last (inputHistory w) = Some text ->
  exists w',
    widgets (exec (navigateHistory file this (-1)) W) !! this = Some w'
    /\ inputHistory w' = inputHistory w
    /\ historyIndex w' = Z.of_nat (length (inputHistory w)) - 1
    /\ inputElement w' = Some text.
Proof.
  intros Hw Hinput Hblank Hend Hlast.
  destruct (navigateHistory_fields file this (-1) W w value Hw Hinput)
    as (w' & Hw' & _ & Hh & Hi & He).
  assert (Hdraft : drafted (-1) value w = w).
  { unfold drafted. rewrite Hblank. by rewrite andb_false_r. }
  rewrite Hdraft in Hh, Hi, He.
  destruct (history_entry_last _ _ Hlast) as [Hne Hentry].
  assert (Hlen : 0 < Z.of_nat (length (inputHistory w)))
    by (destruct (inputHistory w); [done|cbn [length]; lia]).
  assert (Hc : clamped (Z.of_nat (length (inputHistory w)))
                 (historyIndex w + -1)
               = Z.of_nat (length (inputHistory w)) - 1)
    by (unfold clamped; lia).
  rewrite Hc in Hi, He. exists w'. split; [exact Hw'|].
  split; [exact Hh|]. split; [exact Hi|].
  rewrite He, Hentry.
  replace (_ =? _) with false by (symmetry; apply Z.eqb_neq; lia). done.
Qed.

(** X14. When a submission made with Enter returns, the field is
    empty, the submitted text without the white space around it is the
    last entry of the history and the cursor is at the end; the arrow up
    then shows that text in the field. *)
Theorem submitted_text_is_recalled file (this : nat) (W : World)
  (w : Widget) (value : string) :
  widgets W !! this = Some w ->
  inputElement w = Some value ->
  JsStr.is_empty (JsStr.trim value) = false ->
  completion (processInput file this value) W = Normal tt ->
  let entered := exec (on_keydown file this Enter) W in
  let recalled := exec (on_keydown file this ArrowUp) entered in
  (exists w1,
     widgets entered !! this = Some w1
     /\ inputElement w1 = Some ""
     /\ last (inputHistory w1) = Some (JsStr.trim value)
     /\ historyIndex w1 = Z.of_nat (length (inputHistory w1)))
  /\ (exists w2,
        widgets recalled !! this = Some w2
        /\ inputElement w2 = Some (JsStr.trim value)
        /\ historyIndex w2 = Z.of_nat (length (inputHistory w2)) - 1).
Proof.
  intros Hw Hinput Hne Hreturns entered recalled.
  destruct (processInput_history file this value W w Hw)
    as (w0 & Hw0 & Hh0 & _ & _).
  rewrite Hne in Hh0.
  set (w1 := set_historyIndex (Z.of_nat (length (inputHistory w0)))
               (set_inputElement (Some "") w0)).
  assert (Hentered : widgets entered !! this = Some w1).
  { subst entered. unfold exec, on_keydown. rewrite bind_eq. step Hw.
    rewrite Hinput, bind_eq.
    unfold exec in Hw0. unfold completion in Hreturns.
    destruct (processInput file this value W) as [[[]|e] W0];
      [|discriminate Hreturns].
    cbn [snd] in Hw0. cbv beta iota. rewrite bind_eq. step Hw0. step Hw0.
    cbn [snd]. world_simp. apply lookup_insert_eq. }
  assert (Hlast : last (inputHistory w1) = Some (JsStr.trim value)).
  { subst w1. widget_simp. rewrite Hh0. apply last_remembered. }
  split.
  - exists w1. split; [exact Hentered|]. by subst w1.
  - subst recalled. unfold exec at 1. unfold on_keydown.
    rewrite bind_eq. erewrite the_eq by exact Hentered.
    cbv beta iota. replace (inputElement w1) with (Some "") by done.
    destruct (up_from_the_end file this entered w1 "" (JsStr.trim value)
                Hentered eq_refl eq_refl eq_refl Hlast)
      as (w2 & Hw2 & Hh2 & Hi2 & He2).
    exists w2. split; [exact Hw2|]. split; [exact He2|]. by rewrite Hh2.
Qed.

(** X15. With the cursor at the end of a history that is not empty and
    a text in the field that differs from the last entry, the arrow up
    adds the text without the white space around it to the history and
    shows the entry before it; the arrow down then brings the text back
    into the field. *)
Theorem draft_comes_back file (this : nat) (W : World) (w : Widget)
  (value previous : string) :
  widgets W !! this = Some w ->
  inputElement w = Some value ->
  historyIndex w = Z.of_nat (length (inputHistory w)) ->
  JsStr.is_empty (JsStr.trim value) = false ->
  last (inputHistory w) = Some previous ->
  previous <> JsStr.trim value ->
  let up := exec (navigateHistory file this (-1)) W in
  let down := exec (navigateHistory file this 1) up in
  (exists w1,
     widgets up !! this = Some w1
     /\ inputHistory w1 = inputHistory w ++ [JsStr.trim value]
     /\ inputElement w1 = Some previous)
  /\ (exists w2,
        widgets down !! this = Some w2
        /\ inputHistory w2 = inputHistory w ++ [JsStr.trim value]
        /\ inputElement w2 = Some (JsStr.trim value)).
Proof.
  intros Hw Hinput Hend Hne Hlast Hdiffers up down.
  destruct (navigateHistory_fields file this (-1) W w value Hw Hinput)
    as (w1 & Hw1 & _ & Hh1 & Hi1 & He1).
  assert (Hdraft : inputHistory (drafted (-1) value w)
                   = inputHistory w ++ [JsStr.trim value]).
  { unfold drafted, remembered. rewrite Hend, !Z.eqb_refl, Hne.
    cbn [andb negb]. rewrite differs_from_last_spec, Hlast.
    rewrite bool_decide_eq_false_2 by congruence. done. }
  destruct (history_entry_last _ _ Hlast) as [Hnonempty Hentry].
  assert (Hlen : 0 < Z.of_nat (length (inputHistory w)))
    by (destruct (inputHistory w); [done|cbn [length]; lia]).
  rewrite Hdraft in Hh1, Hi1, He1. rewrite length_app in Hi1, He1.
  cbn [length] in Hi1, He1.
  assert (Hc : clamped (Z.of_nat (length (inputHistory w) + 1))
                 (historyIndex w + -1)
               = Z.of_nat (length (inputHistory w)) - 1)
    by (unfold clamped; lia).
  rewrite Hc in Hi1, He1.
  replace (_ =? _) with false in He1 by (symmetry; apply Z.eqb_neq; lia).
  assert (Hprev : history_entry (inputHistory w ++ [JsStr.trim value])
                    (Z.of_nat (length (inputHistory w)) - 1)
                  = Some previous).
  { unfold history_entry in *.
    destruct (Z.of_nat (length (inputHistory w)) - 1 <? 0); [done|].
    rewrite lookup_app_l; [exact Hentry|lia]. }
  rewrite Hprev in He1. cbn [default] in He1.
  split; [by exists w1|].
  destruct (navigateHistory_fields file this 1 up w1 previous Hw1 He1)
    as (w2 & Hw2 & _ & Hh2 & Hi2 & He2).
  assert (Hdown : drafted 1 previous w1 = w1) by reflexivity.
  rewrite Hdown in Hh2, Hi2, He2. rewrite Hh1 in Hh2, Hi2, He2.
  rewrite Hi1 in Hi2, He2.
  rewrite length_app in Hi2, He2. cbn [length] in Hi2, He2.
  assert (Hc2 : clamped (Z.of_nat (length (inputHistory w) + 1))
                  (Z.of_nat (length (inputHistory w)) - 1 + 1)
                = Z.of_nat (length (inputHistory w)))
    by (unfold clamped; lia).
  rewrite Hc2 in Hi2, He2.
  replace (_ =? _) with false in He2 by (symmetry; apply Z.eqb_neq; lia).
  assert (Hit : history_entry (inputHistory w ++ [JsStr.trim value])
                  (Z.of_nat (length (inputHistory w)))
                = Some (JsStr.trim value)).
  { unfold history_entry.
    replace (_ <? 0) with false by (symmetry; apply Z.ltb_ge; lia).
    rewrite Nat2Z.id. by rewrite lookup_app_r, Nat.sub_diag by lia. }
  rewrite Hit in He2. by exists w2.
Qed.

End Keys.

(** ** The display that receives the console *)

Section Displays.

Context `{H : Host}.

Local Abbreviation Value := (JsValue HostValue).
Local Abbreviation main := VirtualConsoleComponentRender.

(** X16. In VirtualConsoleComponentRender.js the instance attached last
    is the one that receives the console, whatever the slot held before:
    [connectedCallback] puts its appender in the slot and the buffered
    entries in its output area, one line each after the text of the
    template, and the calls that follow whose arguments can be written
    are added to that output area in call order and forwarded to the
    original console, while the buffer stays empty and no other instance
    changes. *)
Theorem last_attached_display_receives (this : nat) (html : Template)
  (W : World) (w : Widget) (out : string)
  (live : list (ConsoleMethod * list Value)) :
  widgets W !! this = Some w ->
  tpl_consoleOutput html = Some out ->
  let attached_world := exec (connectedCallback main this html) W in
  let after := run main (console_calls live) attached_world in
  activeConsoleAppender after = Some (mkBound (nextFunction W) this)
  /\ consoleMessageBuffer after = []
  /\ textarea <$> widgets after !! this
     = Some (Some (out +:+ transcript (consoleMessageBuffer W)
                   +:+ transcript (entries_from (clockReads W) live)))
  /\ originalConsole after
     = originalConsole attached_world ++ forwarded live
  /\ forall other, other <> this ->
       widgets after !! other = widgets W !! other.
Proof.
  intros Hw Hout attached_world after. subst after attached_world.
  unfold exec. rewrite (connectedCallback_eq main this html W w Hw).
  cbn [snd].
  erewrite calls_attached;
    [|reflexivity|cbn [widgets bound_this]; apply lookup_insert_eq].
  world_simp. cbn [bound_this]. rewrite insert_insert_eq, lookup_insert_eq.
  split; [reflexivity|]. split; [reflexivity|].
  split; [|split; [reflexivity|]].
  - cbn [fmap option_fmap option_map]. f_equal.
    rewrite textarea_append_line.
    destruct (attached_fields html (consoleMessageBuffer W) w) as (-> & _).
    rewrite Hout. cbn [fmap option_fmap option_map].
    by rewrite app_assoc, !render_transcript.
  - intros other Hother. by rewrite lookup_insert_ne.
Qed.

(** X17. When the template has no output area, [connectedCallback]
    still empties the buffer: the buffered entries are shown nowhere, and
    in VirtualConsoleComponentRender.js the calls that follow are neither
    buffered nor shown; those whose arguments can be written only reach
    the original console. *)
Theorem entries_are_lost_without_output_area file (this : nat)
  (html : Template) (W : World) (w : Widget)
  (live : list (ConsoleMethod * list Value)) :
  widgets W !! this = Some w ->
  tpl_consoleOutput html = None ->
  let attached_world := exec (connectedCallback file this html) W in
  let after := run main (console_calls live) attached_world in
  consoleMessageBuffer attached_world = []
  /\ textarea <$> widgets attached_world !! this = Some None
  /\ (file = main ->
      consoleMessageBuffer after = []
      /\ widgets after = widgets attached_world
      /\ originalConsole after
         = originalConsole attached_world ++ forwarded live).
Proof.
  intros Hw Hout attached_world after. subst after attached_world.
  unfold exec. rewrite (connectedCallback_eq file this html W w Hw).
  cbn [snd]. world_simp. rewrite lookup_insert_eq.
  assert (Hnone : textarea (attached html (consoleMessageBuffer W) w) = None).
  { destruct (attached_fields html (consoleMessageBuffer W) w) as (-> & _).
    by rewrite Hout. }
  split; [reflexivity|]. split; [by rewrite <- Hnone|].
  intros ->.
  erewrite calls_attached;
    [|reflexivity|cbn [widgets bound_this]; apply lookup_insert_eq].
  world_simp. cbn [bound_this]. split; [reflexivity|].
  split; [|reflexivity].
  rewrite insert_insert_eq. f_equal.
  unfold append_line. by rewrite Hnone.
Qed.

End Displays.

(** ** debounce *)

Section Debouncing.

Import Debounce.

Context {A : Type}.

Lemma state_eta (st : State A) :
  mkState (time st) (nextTimer st) (pending st) (timeout st) (calls st) = st.
Proof. by destruct st. Qed.

Lemma debounced_eq (delay : nat) (c : A) (st : State A) :
  one_pending st ->
  debounced delay c st
  = mkState (time st) (S (nextTimer st))
      [mkTimer (nextTimer st) (time st + delay) c]
      (Some (nextTimer st)) (calls st).
Proof.
  unfold one_pending, debounced, setTimeout, clearTimeout.
  destruct st as [now next timers id done]. cbn.
  destruct timers as [|t [|t' timers]]; [|intros ->|done].
  - by destruct id.
  - cbn. by destruct (decide (timer_id t <> timer_id t)).
Qed.

Lemma tick_waits (st : State A) (t : Timer A) :
  pending st = [t] -> (S (time st) < due t)%nat ->
  tick st
  = mkState (S (time st)) (nextTimer st) [t] (timeout st) (calls st).
Proof.
  intros Hp Hdue. unfold tick. rewrite Hp. cbn.
  repeat destruct (decide _); try lia. cbn. by rewrite List.app_nil_r.
Qed.

Lemma tick_fires (st : State A) (t : Timer A) :
  pending st = [t] -> (due t <= S (time st))%nat ->
  tick st
  = mkState (S (time st)) (nextTimer st) [] (timeout st)
      (calls st ++ [(S (time st), call t)]).
Proof.
  intros Hp Hdue. unfold tick. rewrite Hp. cbn.
  by repeat destruct (decide _); try lia.
Qed.

Lemma tick_idle (st : State A) :
  pending st = [] ->
  tick st = mkState (S (time st)) (nextTimer st) [] (timeout st) (calls st).
Proof.
  intros Hp. unfold tick. rewrite Hp. cbn. by rewrite List.app_nil_r.
Qed.

Lemma ticks_add (a b : nat) (st : State A) :
  ticks (a + b) st = ticks b (ticks a st).
Proof. revert st. induction a as [|a IH]; intros st; [done|]. apply IH. Qed.

Lemma ticks_wait (k : nat) (st : State A) (t : Timer A) :
  pending st = [t] -> (time st + k < due t)%nat ->
  ticks k st
  = mkState (time st + k) (nextTimer st) [t] (timeout st) (calls st).
Proof.
  revert st. induction k as [|k IH]; intros st Hp Hdue.
  - cbn. rewrite Nat.add_0_r, <- Hp. symmetry. apply state_eta.
  - cbn [ticks]. rewrite (tick_waits st t Hp) by lia.
    rewrite IH by (cbn; try done; lia). cbn. f_equal. lia.
Qed.

Lemma ticks_idle (k : nat) (st : State A) :
  pending st = [] ->
  ticks k st
  = mkState (time st + k) (nextTimer st) [] (timeout st) (calls st).
Proof.
  revert st. induction k as [|k IH]; intros st Hp.
  - cbn. rewrite Nat.add_0_r, <- Hp. symmetry. apply state_eta.
  - cbn [ticks]. rewrite (tick_idle st Hp), IH by done. cbn. f_equal. lia.
Qed.

(** A timer runs at the tick at which its delay has passed, and then no
    more. *)
Lemma ticks_fire (k : nat) (st : State A) (t : Timer A) :
  pending st = [t] -> (time st < due t)%nat -> (due t <= time st + k)%nat ->
  ticks k st
  = mkState (time st + k) (nextTimer st) [] (timeout st)
      (calls st ++ [(due t, call t)]).
Proof.
  intros Hp Hlater Hdue.
  replace k with ((due t - time st - 1) + (1 + (k - (due t - time st))))%nat
    by lia.
  rewrite ticks_add, (ticks_wait _ st t Hp) by lia.
  rewrite ticks_add. cbn [ticks].
  rewrite (tick_fires _ t) by (cbn; try done; lia). cbn.
  rewrite ticks_idle by done. cbn. f_equal; [lia|].
  do 3 f_equal. lia.
Qed.

Lemma step_one_pending (delay : nat) (st : State A) (s : Step A) :
  one_pending st -> one_pending (step delay st s).
Proof.
  intros Hone. destruct s as [c|]; cbn [step].
  - by rewrite debounced_eq.
  - unfold one_pending in *. unfold tick. cbv zeta. cbn.
    destruct (pending st) as [|t [|t' timers]]; [done| |done].
    rewrite filter_cons, filter_nil. by destruct (decide _).
Qed.

Lemma run_one_pending (delay : nat) (steps : list (Step A)) (st : State A) :
  one_pending st -> one_pending (run delay steps st).
Proof.
  revert st. induction steps as [|s steps IH]; intros st Hone; [done|].
  cbn [run fold_left]. apply IH. by apply step_one_pending.
Qed.

(** Calls in quick succession run nothing. *)
Lemma burst_waits (delay : nat) (quick : list (A * nat)) (st : State A) :
  one_pending st ->
  Forall (fun c => (snd c < delay)%nat) quick ->
  one_pending (burst delay quick st)
  /\ calls (burst delay quick st) = calls st.
Proof.
  intros Hone Hquick. revert st Hone.
  induction Hquick as [|[c gap] quick Hgap _ IH]; intros st Hone; [done|].
  cbn [burst fold_left fst snd]. cbn [snd] in Hgap.
  rewrite debounced_eq by done.
  erewrite ticks_wait; [|reflexivity|cbn; lia].
  cbn [time nextTimer timeout calls].
  match goal with
  | |- context [fold_left ?f quick ?st1] =>
      change (fold_left f quick st1) with (burst delay quick st1);
      destruct (IH st1) as [Hone' Hcalls]; [done|]
  end.
  split; [exact Hone'|]. by rewrite Hcalls.
Qed.

(** X18. The function that [debounce(func, delay)] returns never has
    more than one timer pending.  After calls in quick succession, each
    made less than [delay] milliseconds after the one before, [func] has
    not run; once [delay] milliseconds have passed since the last call,
    it has run once, at that moment and with the arguments of the last
    call, and nothing is pending. *)
Theorem debounce_runs_the_last_call_once (delay : nat)
  (steps : list (Step A)) (quick : list (A * nat)) (c : A) (more : nat) :
  (0 < delay)%nat ->
  Forall (fun c => (snd c < delay)%nat) quick ->
  let st := run delay steps start in
  let st1 := burst delay quick st in
  let st2 := ticks (delay + more) (debounced delay c st1) in
  one_pending st
  /\ calls st1 = calls st
  /\ calls st2 = calls st ++ [((time st1 + delay)%nat, c)]
  /\ pending st2 = [].
Proof.
  intros Hdelay Hquick st st1 st2.
  assert (Hone : one_pending st) by (by apply run_one_pending).
  destruct (burst_waits delay quick st Hone Hquick) as [Hone1 Hcalls].
  fold st1 in Hone1, Hcalls.
  split; [exact Hone|]. split; [exact Hcalls|].
  subst st2. rewrite debounced_eq by exact Hone1.
  erewrite ticks_fire; [|reflexivity|cbn; lia|cbn; lia].
  cbn. by rewrite Hcalls.
Qed.

End Debouncing.

(** ** The size of the panel, the buffer of part_000, the iframe *)

Section Rest.

Context `{H : Host}.

Local Abbreviation Value := (JsValue HostValue).

(** X19. With a store that works, [saveConsoleSize] writes the offset
    width and the offset height of the panel, each followed by [px],
    under the two keys of the size and changes no instance; the instance
    that the constructor makes from that store has them as its known
    size.  Without the panel it changes nothing. *)
Theorem saved_size_is_the_panel_size file (this : nat) (W : World)
  (w : Widget) :
  storage_works ->
  widgets W !! this = Some w ->
  let W' := exec (saveConsoleSize file this) W in
  completion (saveConsoleSize file this) W = Normal tt
  /\ match consoleDisplay w with
     | Some d =>
         W' = set_localStorage
                (<[HEIGHT_KEY := offsetHeight d +:+ "px"]>
                   (<[WIDTH_KEY := offsetWidth d +:+ "px"]> (localStorage W)))
                W
         /\ lastKnownWidth (fresh (localStorage W')) = offsetWidth d +:+ "px"
         /\ lastKnownHeight (fresh (localStorage W'))
            = offsetHeight d +:+ "px"
     | None => W' = W
     end.
Proof.
  intros [_ Hset] Hw W'. subst W'. unfold exec, completion, saveConsoleSize.
  rewrite bind_eq. step Hw.
  destruct (consoleDisplay w) as [d|]; [|done].
  rewrite bind_eq, setLocalStorageItem_eq, Hset. cbv beta iota.
  rewrite setLocalStorageItem_eq, Hset. cbn [fst snd].
  split; [reflexivity|]. split; [by destruct W|].
  unfold fresh. widget_simp. world_simp.
  rewrite lookup_insert_ne, lookup_insert_eq by done.
  by rewrite lookup_insert_eq.
Qed.

(** Calls of the console in part_000 fill the buffer in call order and
    leave every instance alone. *)
Lemma calls_buffered (calls : list (ConsoleMethod * list Value)) (W : World) :
  run part_000 (console_calls calls) W =
  mkWorld (consoleMessageBuffer W ++ entries_from (clockReads W) calls)
    (activeConsoleAppender W) (originalConsole W ++ forwarded calls)
    (localStorage W) (widgets W) (nextWidget W) (nextFunction W)
    (clockReads W + length calls)%nat (strangers W).
Proof.
  revert W. induction calls as [|[method args] calls IH]; intros W.
  - cbn. rewrite !List.app_nil_r, Nat.add_0_r. by destruct W.
  - cbn [console_calls map run fold_left fst snd handle].
    unfold exec. rewrite intercepted_part_000. cbn [snd].
    change (fold_left _ ?l ?W0) with (run part_000 l W0).
    fold (console_calls calls). rewrite IH, forwarded_cons.
    unfold buffered, formats. cbn [entries_from].
    destruct (formatConsoleMessage args); world_simp;
      rewrite <- ?List.app_assoc; cbn [app length];
      by rewrite Nat.add_succ_r.
Qed.

(** X20. In part_000 the calls of the console made before an instance
    is attached are shown when it is attached, whatever the slot holds:
    the calls whose arguments can be written fill the buffer in call
    order, are forwarded to the original console and change no instance;
    [connectedCallback] puts every buffered entry in the output area in
    that order, one line each, after the text of the template, and
    leaves the buffer empty. *)
Theorem part_000_shows_the_buffer_at_attach (this : nat) (html : Template)
  (W : World) (w : Widget) (out : string)
  (calls : list (ConsoleMethod * list Value)) :
  widgets W !! this = Some w ->
  tpl_consoleOutput html = Some out ->
  let before := run part_000 (console_calls calls) W in
  let attached_world := exec (connectedCallback part_000 this html) before in
  consoleMessageBuffer before
  = consoleMessageBuffer W ++ entries_from (clockReads W) calls
  /\ originalConsole before = originalConsole W ++ forwarded calls
  /\ widgets before = widgets W
  /\ consoleMessageBuffer attached_world = []
  /\ textarea <$> widgets attached_world !! this
     = Some (Some (out +:+ transcript (consoleMessageBuffer before))).
Proof.
  intros Hw Hout before attached_world. subst attached_world before.
  rewrite calls_buffered. world_simp.
  split; [reflexivity|]. split; [reflexivity|]. split; [reflexivity|].
  unfold exec. erewrite connectedCallback_eq by (world_simp; exact Hw).
  cbn [snd]. world_simp. split; [reflexivity|].
  rewrite lookup_insert_eq. cbn [fmap option_fmap option_map]. f_equal.
  match goal with
  | |- context [attached html ?b w] =>
      destruct (attached_fields html b w) as (-> & _)
  end.
  by rewrite Hout, render_transcript.
Qed.

(** X21. [connectedCallback] gives the instance the window of the
    iframe exactly when the template has the iframe; without it the
    instance keeps the window it had, the original [console.error] is
    told that the iframe was not found, and nothing is buffered or shown
    for it.  The accumulated program and the history are kept in both
    cases. *)
Theorem context_needs_the_iframe file (this : nat) (html : Template)
  (W : World) (w : Widget) :
  widgets W !! this = Some w ->
  let W' := exec (connectedCallback file this html) W in
  exists w',
    widgets W' !! this = Some w'
    /\ iframeWindow w'
       = (if tpl_consoleIframe html then Some host_contentWindow
          else iframeWindow w)
    /\ originalConsole W'
       = originalConsole W
         ++ (if tpl_consoleIframe html then []
             else [(error, [JsString "Iframe de consola no encontrado."])])
    /\ textarea w'
       = (fun out => out +:+ render (consoleMessageBuffer W))
           <$> tpl_consoleOutput html
    /\ cumulativeExecutedCode w' = cumulativeExecutedCode w
    /\ inputHistory w' = inputHistory w.
Proof.
  intros Hw W'. subst W'. unfold exec.
  rewrite (connectedCallback_eq file this html W w Hw). cbn [snd].
  world_simp. rewrite lookup_insert_eq. eexists. split; [reflexivity|].
  destruct (attached_fields html (consoleMessageBuffer W) w)
    as (-> & _ & -> & _ & -> & ->).
  done.
Qed.

End Rest.

(** ** One instance and the others *)

Section Others.

Context `{H : Host}.
Context (this : nat) (Hstore : storage_works).

Local Abbreviation Value := (JsValue HostValue).

Lemma others_refl (W : World) : others_kept this W W.
Proof. by intros other _. Qed.

Lemma others_trans (W1 W2 W3 : World) :
  others_kept this W1 W2 -> others_kept this W2 W3 -> others_kept this W1 W3.
Proof.
  intros H12 H23 other Hother. by rewrite H23, H12.
Qed.

Lemma others_heap {A : Type} (m : M A) :
  (forall W, widgets (snd (m W)) = widgets W) -> sat (others_kept this) m.
Proof. intros E W other _. by rewrite E. Qed.

Lemma others_bind {A B : Type} (m : M A) (k : A -> M B) :
  sat (others_kept this) m -> (forall a, sat (others_kept this) (k a)) ->
  sat (others_kept this) (m ≫= k).
Proof.
  intros Hm Hk W. rewrite bind_eq. specialize (Hm W).
  destruct (m W) as [[a|e] W1]; cbn [snd] in *; [|exact Hm].
  eapply others_trans; [exact Hm|apply Hk].
Qed.

Lemma others_try_catch {A : Type} (body : M A) (handler : Value -> M A) :
  sat (others_kept this) body ->
  (forall e, sat (others_kept this) (handler e)) ->
  sat (others_kept this) (try_catch body handler).
Proof.
  intros Hb Hh W. unfold try_catch. specialize (Hb W).
  destruct (body W) as [[a|e] W1]; cbn [snd] in *; [exact Hb|].
  eapply others_trans; [exact Hb|apply Hh].
Qed.

Lemma others_update (f : Widget -> Widget) :
  sat (others_kept this) (update this f).
Proof.
  intros W other Hother. unfold update. cbn.
  by rewrite lookup_alter_ne.
Qed.

Lemma others_appendMessage (text type : string) stamp :
  sat (others_kept this) (appendMessage this text type stamp).
Proof.
  unfold appendMessage. apply others_bind; [|intros; apply others_update].
  destruct stamp; apply others_heap; reflexivity.
Qed.

Lemma others_setLocalStorageItem file (key value : string) :
  sat (others_kept this) (setLocalStorageItem file key value).
Proof.
  intros W. rewrite setLocalStorageItem_eq.
  destruct Hstore as [_ Hset]. rewrite Hset. by intros other _.
Qed.

Lemma others_report (reported : list MessageEntry) :
  sat (others_kept this) (report this reported).
Proof.
  induction reported as [|entry rest IH]; cbn [report].
  - apply others_heap; reflexivity.
  - apply others_bind; [apply others_appendMessage|]. intros. exact IH.
Qed.

End Others.

(** Follows the structure of a method body of the instance [this]. *)
Ltac others_auto :=
  repeat
    (lazymatch goal with
     | |- sat _ (_ ≫= _) => apply others_bind; [|intros ?]
     | |- sat _ (mret _) => apply others_heap; reflexivity
     | |- sat _ (try_catch _ _) => apply others_try_catch; [|intros ?]
     | |- sat _ (lift _) => apply others_heap; reflexivity
     | |- sat _ get => apply others_heap; reflexivity
     | |- sat _ (throw _) => apply others_heap; reflexivity
     | |- sat _ (the _) => apply others_heap; reflexivity
     | |- sat _ now => apply others_heap; reflexivity
     | |- sat _ (original _ _) => apply others_heap; reflexivity
     | |- sat _ (modify (set_consoleMessageBuffer _)) =>
         apply others_heap; reflexivity
     | |- sat _ (modify (set_activeConsoleAppender _)) =>
         apply others_heap; reflexivity
     | |- sat _ (modify (set_nextFunction _)) => apply others_heap; reflexivity
     | |- sat _ (update _ _) => apply others_update
     | |- sat _ (appendMessage _ _ _ _) => apply others_appendMessage
     | |- sat _ (report _ _) => apply others_report
     | |- sat _ (setLocalStorageItem _ _ _) =>
         by apply others_setLocalStorageItem
     | |- sat _ (match ?x with _ => _ end) => destruct x eqn:?
     | |- sat _ (if ?x then _ else _) => destruct x eqn:?
     | |- sat _ (let _ := _ in _) => cbv zeta
     end).

Section OthersMethods.

Context `{H : Host}.
Context (this : nat) (Hstore : storage_works).

Local Abbreviation Value := (JsValue HostValue).

Lemma others_flush_loop (fuel : nat) :
  sat (others_kept this) (flush_loop fuel this).
Proof.
  induction fuel as [|fuel IH]; cbn [flush_loop]; others_auto. exact IH.
Qed.

Lemma others_handle file (ev : Event) :
  event_of ev = Some this -> sat (others_kept this) (handle file ev).
Proof.
  intros Hev. destruct ev; try discriminate; injection Hev as ->;
    cbn [handle].
  - unfold connectedCallback, setupIframeContext, register,
      bind_appendMessage, flushMessageBuffer, updateVisibility.
    others_auto. apply others_flush_loop.
  - unfold disconnectedCallback, unregister, bind_appendMessage.
    others_auto.
  - unfold on_keydown, processInput, navigateHistory, remember, evaluate,
      iframe_eval, display_result.
    others_auto.
  - unfold on_input. others_auto.
  - unfold clearConsole, setupIframeContext. others_auto.
  - unfold hideConsole, updateVisibility, saveConsoleSize. others_auto.
  - unfold showConsole, updateVisibility. others_auto.
Qed.

End OthersMethods.

Section Independence.

Context `{H : Host}.

(** X22. With a store that works, the events of one instance, its
    attachment and removal, its keys, its edits and its buttons, change
    no other instance of the page, in either file. *)
Theorem events_leave_other_instances file (this other : nat) (ev : Event)
  (W : World) :
  storage_works ->
  event_of ev = Some this ->
  other <> this ->
  widgets (exec (handle file ev) W) !! other = widgets W !! other.
Proof.
  intros Hstore Hev Hother.
  by apply (others_handle this Hstore file ev Hev W).
Qed.

End Independence.

(** ** More on the console, on Clear and on the arrows *)

Section More.

Context `{H : Host}.

Local Abbreviation Value := (JsValue HostValue).

Lemma logged_slot file method (args : list Value) (W : World) :
  activeConsoleAppender (logged file method args W) = activeConsoleAppender W.
Proof.
  destruct file; unfold logged, routed, buffered;
    destruct (formatConsoleMessage args); try done.
  by destruct (activeConsoleAppender W) eqn:E.
Qed.

(** X23. Calls of the intercepted console, in either file, forward
    every call whose arguments can be written to the original console,
    in call order, and the others to nothing; they change nothing but
    the buffer, the clock and text added to output areas: the store,
    the slot of the active display and every other field of every
    instance are as they were. *)
Theorem console_calls_are_quiet file
  (calls : list (ConsoleMethod * list Value)) (W : World) :
  let W' := run file (console_calls calls) W in
  originalConsole W' = originalConsole W ++ forwarded calls
  /\ localStorage W' = localStorage W
  /\ activeConsoleAppender W' = activeConsoleAppender W
  /\ nextWidget W' = nextWidget W
  /\ quiet W W'.
Proof.
  cbv zeta. revert W. induction calls as [|[method args] calls IH]; intros W.
  - cbn. rewrite List.app_nil_r. repeat split. apply quiet_refl.
  - cbn [console_calls map run fold_left fst snd handle].
    change (fold_left _ ?l ?W0) with (run file l W0).
    fold (console_calls calls).
    destruct (IH (exec (intercepted file method args) W))
      as (Ho & Hs & Ha & Hn & Hq).
    rewrite Ho, Hs, Ha, Hn. unfold exec in *. rewrite intercepted_eq in *.
    cbn [snd] in *.
    destruct (logged_fields file method args W) as (-> & -> & -> & _).
    rewrite logged_slot, (forwarded_cons method args calls),
      (forwarded_cons method args []).
    change (forwarded []) with (@nil (ConsoleMethod * list Value)).
    rewrite List.app_nil_r, <- List.app_assoc.
    repeat split.
    eapply quiet_trans; [|exact Hq].
    destruct (intercepted_quiet file method args W) as (W1 & E & Hq1 & _).
    rewrite intercepted_eq in E. by injection E as <-.
Qed.

(** [clearConsole] on an instance whose template had the iframe. *)
Lemma clearConsole_eq (this : nat) (W : World) w :
  widgets W !! this = Some w ->
  consoleIframe w = true ->
  clearConsole this W =
  (Normal tt,
   set_widgets
     (<[this := append_line
                  (line (host_toLocaleTimeString (clockReads W)) "SYSTEM"
                     "Consola y contexto de ejecución limpiados.")
                  (set_iframeWindow (Some host_contentWindow)
                     (set_cumulativeExecutedCode "" (clear_output w)))]>
        (widgets W))
     (set_clockReads (S (clockReads W)) W)).
Proof.
  intros Hw Hiframe. unfold clearConsole, setupIframeContext.
  rewrite bind_eq. step Hw. rewrite bind_eq. step Hw.
  rewrite bind_eq, bind_eq. step Hw.
  replace (consoleIframe _) with true
    by (destruct w; cbn in Hiframe; subst; widget_crunch).
  step Hw. step Hw. reflexivity.
Qed.

(** The window of the iframe after a submission with a context. *)
Lemma processInput_window file (this : nat) (input : string) (W : World) w
  window :
  widgets W !! this = Some w ->
  iframeWindow w = Some window ->
  JsStr.is_empty (JsStr.trim input) = false ->
  iframeWindow <$> widgets (exec (processInput file this input) W) !! this
  = Some (Some (host_eval window
                  (cumulativeExecutedCode w +:+ JsStr.newline +:+ input)).1.1).
Proof.
  intros Hw Hctx Hne.
  destruct (processInput_begins file this input W w Hw Hne)
    as (W1 & add & t & Hw1 & _ & _ & Hrun).
  unfold exec. rewrite Hrun, Hctx. clear Hrun.
  rewrite bind_eq. erewrite evaluate_eq by exact Hw1.
  destruct (host_eval window _) as [[window' reported] [v|e]]; cbn [fst].
  - cbv beta iota. erewrite display_result_eq by lookup_now Hw1. cbv zeta.
    destruct (is_undefined v); [|destruct (JSON_stringify v)];
      cbn [snd]; world_simp; rewrite ?insert_insert_eq, lookup_insert_eq;
      cbn [fmap option_fmap option_map]; do 2 f_equal;
      unfold evaluated; rewrite ?iframeWindow_append_line;
      cbn [set_cumulativeExecutedCode iframeWindow];
      by rewrite ?iframeWindow_append_line.
  - destruct (message_of e).
    + cbv beta iota. erewrite display_result_eq by lookup_now Hw1.
      cbv zeta. cbn [is_undefined snd]. world_simp.
      rewrite ?insert_insert_eq, lookup_insert_eq.
      cbn [fmap option_fmap option_map]. do 2 f_equal.
      unfold evaluated. by rewrite !iframeWindow_append_line.
    + cbn [snd]. world_simp. rewrite lookup_insert_eq.
      cbn [fmap option_fmap option_map]. do 2 f_equal.
      unfold evaluated. by rewrite iframeWindow_append_line.
Qed.

(** X24. After Clear, the next submission is evaluated alone in the new
    window of the iframe: what is evaluated is a line break and the input,
    whatever program and window the instance had before, and afterwards
    the accumulated program is that text when the evaluation returned and
    empty when it threw. *)
Theorem cleared_console_evaluates_alone file (this : nat) (input : string)
  (W : World) (w : Widget) :
  widgets W !! this = Some w ->
  consoleIframe w = true ->
  JsStr.is_empty (JsStr.trim input) = false ->
  let cleared := exec (clearConsole this) W in
  let W' := exec (processInput file this input) cleared in
  let candidate := "" +:+ JsStr.newline +:+ input in
  iframeWindow <$> widgets W' !! this
  = Some (Some (host_eval host_contentWindow candidate).1.1)
  /\ cumulativeExecutedCode <$> widgets W' !! this
     = Some (match host_eval host_contentWindow candidate with
             | (_, _, Normal _) => candidate
             | (_, _, Throw _) => ""
             end).
Proof.
  intros Hw Hiframe Hne cleared W' candidate. subst W' cleared candidate.
  unfold exec at 2 4. rewrite (clearConsole_eq this W w Hw Hiframe).
  cbn [snd].
  match goal with
  | |- context [exec _ ?W1] =>
      assert (Hw1 : exists w1,
                widgets W1 !! this = Some w1
                /\ iframeWindow w1 = Some host_contentWindow
                /\ cumulativeExecutedCode w1 = "")
  end.
  { world_simp. rewrite lookup_insert_eq. eexists. split; [reflexivity|].
    rewrite iframeWindow_append_line.
    by destruct (append_line_fields
                   (line (host_toLocaleTimeString (clockReads W)) "SYSTEM"
                      "Consola y contexto de ejecución limpiados.")
                   (set_iframeWindow (Some host_contentWindow)
                      (set_cumulativeExecutedCode "" (clear_output w))))
      as (_ & _ & _ & _ & -> & _). }
  destruct Hw1 as (w1 & Hw1 & Hctx & Hprogram).
  split.
  - rewrite (processInput_window file this input _ w1 host_contentWindow
               Hw1 Hctx Hne).
    by rewrite Hprogram.
  - pose proof (program_committed_on_success_only file this input _ w1
                  host_contentWindow Hw1 Hctx Hne) as Hp.
    cbv zeta in Hp. by rewrite Hprogram in Hp.
Qed.

(** One arrow up below the end of the history, or at the end with a
    blank field. *)
Lemma up_once file (this : nat) (W : World) w value :
  widgets W !! this = Some w ->
  inputElement w = Some value ->
  0 <= historyIndex w <= Z.of_nat (length (inputHistory w)) ->
  inputHistory w <> [] ->
  historyIndex w < Z.of_nat (length (inputHistory w))
  \/ JsStr.is_empty (JsStr.trim value) = true ->
  exists w' entry,
    widgets (exec (navigateHistory file this (-1)) W) !! this = Some w'
    /\ inputHistory w' = inputHistory w
    /\ historyIndex w' = Z.max 0 (historyIndex w - 1)
    /\ history_entry (inputHistory w) (Z.max 0 (historyIndex w - 1))
       = Some entry
    /\ inputElement w' = Some entry.
Proof.
  intros Hw Hinput Hrange Hne Hcase.
  destruct (navigateHistory_fields file this (-1) W w value Hw Hinput)
    as (w' & Hw' & _ & Hh & Hi & He).
  assert (Hdraft : drafted (-1) value w = w).
  { unfold drafted. destruct Hcase as [Hlt|Hblank].
    - replace (historyIndex w =? _) with false
        by (symmetry; apply Z.eqb_neq; lia).
      by rewrite andb_false_r.
    - rewrite Hblank. by rewrite andb_false_r. }
  rewrite Hdraft in Hh, Hi, He.
  assert (Hlen : 0 < Z.of_nat (length (inputHistory w)))
    by (destruct (inputHistory w); [done|cbn [length]; lia]).
  assert (Hc : clamped (Z.of_nat (length (inputHistory w)))
                 (historyIndex w + -1)
               = Z.max 0 (historyIndex w - 1))
    by (unfold clamped; lia).
  rewrite Hc in Hi, He.
  replace (_ =? _) with false in He by (symmetry; apply Z.eqb_neq; lia).
  assert (Hentry : is_Some (history_entry (inputHistory w)
                              (Z.max 0 (historyIndex w - 1)))).
  { unfold history_entry.
    replace (_ <? 0) with false by (symmetry; apply Z.ltb_ge; lia).
    apply lookup_lt_is_Some. lia. }
  destruct Hentry as [entry Hentry]. rewrite Hentry in He.
  by exists w', entry.
Qed.

(** X25. From the end of a history that is not empty and with a blank
    field, the arrow up pressed k times shows the k-th entry from the end
    and puts the cursor on it, and once the first entry is reached it
    stays there; the history is not changed. *)
Theorem arrow_up_walks_back file (this : nat) (k : nat) (W : World)
  (w : Widget) (value : string) :
  widgets W !! this = Some w ->
  inputElement w = Some value ->
  JsStr.is_empty (JsStr.trim value) = true ->
  historyIndex w = Z.of_nat (length (inputHistory w)) ->
  inputHistory w <> [] ->
  let i := Z.max 0 (Z.of_nat (length (inputHistory w)) - Z.of_nat (S k)) in
  exists w' entry,
    widgets (navigate file this (replicate (S k) (-1)) W) !! this = Some w'
    /\ inputHistory w' = inputHistory w
    /\ historyIndex w' = i
    /\ history_entry (inputHistory w) i = Some entry
    /\ inputElement w' = Some entry.
Proof.
  intros Hw Hinput Hblank Hend Hne. cbv zeta.
  induction k as [|k IH].
  - destruct (up_once file this W w value Hw Hinput) as
      (w' & entry & Hw' & Hh & Hi & Hentry & He);
      [lia|exact Hne|by right|].
    rewrite Hend in Hi, Hentry. exists w', entry.
    cbn [navigate replicate fold_left]. repeat split; try done.
    all: first [rewrite Hi; lia | rewrite <- Hentry; f_equal; lia].
  - destruct IH as (w1 & entry1 & Hw1 & Hh1 & Hi1 & Hentry1 & He1).
    replace (replicate (S (S k)) (-1)) with (replicate (S k) (-1) ++ [-1])
      by (by rewrite <- replicate_cons_app).
    unfold navigate in *. rewrite fold_left_app. cbn [fold_left].
    assert (Hlen : 0 < Z.of_nat (length (inputHistory w)))
      by (destruct (inputHistory w); [done|cbn [length]; lia]).
    destruct (up_once file this _ w1 entry1 Hw1 He1) as
      (w' & entry & Hw' & Hh & Hi & Hentry & He);
      [rewrite Hh1, Hi1; lia|by rewrite Hh1|left; rewrite Hh1, Hi1; lia|].
    rewrite Hh1, Hi1 in *. exists w', entry. repeat split; try done.
    all: first [rewrite Hi; lia | rewrite <- Hentry; f_equal; lia].
Qed.

End More.

(** ** The statements at work in the small browser *)

Import Demo.

Ltac computed := vm_compute; reflexivity.

(** A fact that a theorem gives, with its right-hand side evaluated. *)
Ltac evaluated_from T := etrans; [exact T|vm_compute; reflexivity].

(** Submitting [throw null]: the evaluation throws [null], the handler
    throws when it reads the message, and the accumulated program is
    unchanged. *)
Lemma failed_submission_keeps_program_witness :
  widgets ready !! 0%nat = Some (instance ready)
  /\ iframeWindow (instance ready) = Some 0%nat
  /\ JsStr.is_empty (JsStr.trim "throw null") = false
  /\ cumulativeExecutedCode
       <$> widgets (exec (processInput main 0 "throw null") ready) !! 0%nat
     = Some ""
  /\ completion (processInput main 0 "throw null") ready
     = Throw (JsHost nullRead).
Proof.
  split; [computed|]. split; [computed|]. split; [computed|].
  pose proof (failed_submission_keeps_program main 0 "throw null" ready
                (instance ready) 0%nat ltac:(computed) ltac:(computed)
                ltac:(computed)) as T.
  cbv zeta in T.
  set (result := host_eval _ _) in T. vm_compute in result. subst result.
  cbv beta iota in T. cbn [message_of] in T.
  destruct T as [Hprogram [Hthrown _]].
  split; [exact Hprogram|exact Hthrown].
Defined.

(** The output area after [throw null] holds the echo and nothing else. *)
Example thrown_null_shows_echo_only :
  field textarea 0 (exec (processInput main 0 "throw null") ready)
  = Some (Some (line "10:00:10" "INPUT" "> throw null"))
  /\ JsStr.includes "[ERROR]" (line "10:00:10" "INPUT" "> throw null") = false
  /\ JsStr.includes "[OUTPUT]" (line "10:00:10" "INPUT" "> throw null") = false.
Proof. vm_compute. repeat split; reflexivity. Qed.

(** A call with an empty slot, and a call that cannot be written. *)
Example call_is_buffered_once :
  console_log main [JsString "a"; JsHost (DNumber 1)] constructed
  = (Normal tt,
     set_originalConsole [(log, [JsString "a"; JsHost (DNumber 1)])]
       (set_consoleMessageBuffer [mkEntry "10:00:10" "LOG" "a 1"]
          (set_clockReads 1 constructed))).
Proof. computed. Qed.

(** [o = Object.create(null); o.self = o; console.log(o)]:
    [JSON.stringify] refuses the object and [String] throws; the call
    throws, makes no entry and does not reach the original console. *)
Example unwritable_argument_escapes :
  formatConsoleMessage [JsHost DBare] = Throw (JsHost notPrimitive)
  /\ console_log main [JsHost DBare] constructed
     = (Throw (JsHost notPrimitive), set_clockReads 1 constructed)
  /\ consoleMessageBuffer (exec (console_log main [JsHost DBare]) constructed)
     = []
  /\ originalConsole (exec (console_log main [JsHost DBare]) constructed)
     = []
  /\ console_error main [JsString "failed:"; JsHost DBare] ready
     = (Throw (JsHost notPrimitive), set_clockReads 1 ready).
Proof. vm_compute. repeat split; reflexivity. Qed.

(** The same call, and a call with an appender in the slot. *)
Lemma console_call_routes_one_entry_witness :
  console_log main [JsHost DBare] constructed
  = (Throw (JsHost notPrimitive), set_clockReads 1 constructed)
  /\ completion (console_warn main [JsString "a"]) ready = Normal tt
  /\ consoleMessageBuffer (exec (console_warn main [JsString "a"]) ready)
     = []
  /\ widgets (exec (console_warn main [JsString "a"]) ready) !! 0%nat
     = Some (set_textarea (Some ("[10:00:10] [WARN] a" +:+ nl))
               (instance ready)).
Proof.
  assert (Hbare : formatConsoleMessage [JsHost DBare]
                  = Throw (JsHost notPrimitive)) by computed.
  assert (Htext : formatConsoleMessage [JsString "a"] = Normal "a")
    by computed.
  assert (Hslot : activeConsoleAppender ready = Some (mkBound 0 0))
    by computed.
  pose proof (console_call_routes_one_entry log [JsHost DBare] constructed)
    as T.
  cbv zeta in T. rewrite Hbare in T.
  split; [evaluated_from T|].
  pose proof (console_call_routes_one_entry warn [JsString "a"] ready) as U.
  cbv zeta in U. rewrite Htext, Hslot in U.
  destruct U as (Hreturns & _ & _ & Hbuffer & _ & Hshown).
  specialize (Hshown (instance ready) ltac:(computed)).
  change (textarea (instance ready)) with (Some "") in Hshown.
  cbv beta iota in Hshown.
  split; [exact Hreturns|]. split; [evaluated_from Hbuffer|].
  evaluated_from Hshown.
Defined.

(** Two calls before widget 0 is attached, one after. *)
Lemma attach_replays_buffer_in_order_witness :
  widgets constructed !! 0%nat = Some (instance constructed)
  /\ tpl_consoleOutput html = Some ""
  /\ let before :=
       run main
         (console_calls [(log, [JsString "a"]); (warn, [JsHost (DNumber 1)])])
         constructed in
     let attached := exec (connectedCallback main 0 html) before in
     let after :=
       run main (console_calls [(error, [JsString "b"])]) attached in
     consoleMessageBuffer before
     = [mkEntry "10:00:10" "LOG" "a"; mkEntry "10:00:11" "WARN" "1"]
     /\ consoleMessageBuffer attached = []
     /\ textarea <$> widgets attached !! 0%nat
        = Some (Some ("[10:00:10] [LOG] a" +:+ nl
                      +:+ "[10:00:11] [WARN] 1" +:+ nl))
     /\ consoleMessageBuffer after = []
     /\ textarea <$> widgets after !! 0%nat
        = Some (Some ("[10:00:10] [LOG] a" +:+ nl
                      +:+ "[10:00:11] [WARN] 1" +:+ nl
                      +:+ "[10:00:12] [ERROR] b" +:+ nl)).
Proof.
  split; [computed|]. split; [computed|].
  pose proof (attach_replays_buffer_in_order constructed 0
                (instance constructed) html ""
                [(log, [JsString "a"]); (warn, [JsHost (DNumber 1)])]
                [(error, [JsString "b"])]
                ltac:(computed) ltac:(computed)) as T.
  cbv zeta in T |- *.
  destruct T as (Hbefore & _ & Hflushed & Hshown & Hafter & Hlive).
  split; [evaluated_from Hbefore|]. split; [exact Hflushed|].
  split; [evaluated_from Hshown|]. split; [exact Hafter|].
  evaluated_from Hlive.
Defined.

Example replayed_then_live :
  field textarea 0
    (run main
       (console_calls [(log, [JsString "a"]); (warn, [JsHost (DNumber 1)])]
        ++ [ev_connected 0 html]
        ++ console_calls [(error, [JsString "b"])])
       constructed)
  = Some (Some (line "10:00:10" "LOG" "a" +:+ line "10:00:11" "WARN" "1"
                +:+ line "10:00:12" "ERROR" "b")).
Proof. computed. Qed.

(** Widget 0 is attached and then detached; a call follows, and then
    widget 1 is made and attached.  No display was attached when the
    call was made, but the slot still held the appender of widget 0:
    the entry was not buffered, widget 1 is shown nothing, and the line
    is in the output area of the detached widget 0. *)
Example call_after_detach_is_not_replayed :
  let W :=
    run main
      [ev_new; ev_connected 0 html; ev_disconnected 0;
       ev_console log [JsString "a"]; ev_new; ev_connected 1 html]
      (initial ∅) in
  field textarea 1 W = Some (Some "")
  /\ consoleMessageBuffer W = []
  /\ field textarea 0 W = Some (Some ("[10:00:10] [LOG] a" +:+ nl)).
Proof. vm_compute. repeat split; reflexivity. Qed.

(** The widget that registered itself is detached: the slot still holds
    its appender. *)
Example detached_widget_stays_registered :
  activeConsoleAppender ready = Some (mkBound 0 0)
  /\ activeConsoleAppender (run main [ev_disconnected 0] ready)
     = Some (mkBound 0 0).
Proof. vm_compute. split; reflexivity. Qed.

(** Submitting an expression whose value contains itself. *)
Lemma unserializable_result_escapes_witness :
  widgets ready !! 0%nat = Some (instance ready)
  /\ iframeWindow (instance ready) = Some 0%nat
  /\ JsStr.is_empty (JsStr.trim "var a = {}; a.self = a; a") = false
  /\ host_eval 0%nat
       (cumulativeExecutedCode (instance ready) +:+ JsStr.newline
        +:+ "var a = {}; a.self = a; a")
     = (1%nat, [], Normal (JsHost DCircular))
  /\ JSON_stringify (JsHost DCircular) = Throw (JsHost circularStructure)
  /\ completion (processInput main 0 "var a = {}; a.self = a; a") ready
     = Throw (JsHost circularStructure).
Proof.
  split; [computed|]. split; [computed|]. split; [computed|].
  split; [computed|]. split; [computed|].
  exact (unserializable_result_escapes main 0 "var a = {}; a.self = a; a"
           ready (instance ready) 0%nat 1%nat [] (JsHost DCircular)
           (JsHost circularStructure) ltac:(computed) ltac:(computed)
           ltac:(computed) ltac:(computed) ltac:(computed)).
Defined.

(** The exception of the handler and the exception of [JSON.stringify]
    end the [keydown] listener before it clears the input field. *)
Example escaped_exception_skips_the_listener :
  field inputElement 0
    (run main [ev_input 0 "var a = {}; a.self = a; a"; ev_keydown 0 Enter]
       ready)
  = Some (Some "var a = {}; a.self = a; a").
Proof. computed. Qed.

(** Clear after a submission. *)
Lemma clear_resets_program_keeps_history_witness :
  widgets submitted !! 0%nat = Some (instance submitted)
  /\ consoleIframe (instance submitted) = true
  /\ completion (clearConsole 0) submitted = Normal tt
  /\ localStorage (exec (clearConsole 0) submitted) = localStorage submitted
  /\ exists w',
       widgets (exec (clearConsole 0) submitted) !! 0%nat = Some w'
       /\ textarea w'
          = Some ("[10:00:12] [SYSTEM] "
                  +:+ "Consola y contexto de ejecución limpiados." +:+ nl)
       /\ cumulativeExecutedCode w' = ""
       /\ inputHistory w' = ["let x = 1;"].
Proof.
  split; [computed|]. split; [computed|].
  pose proof (clear_resets_program_keeps_history 0 submitted
                (instance submitted) ltac:(computed) ltac:(computed)) as T.
  cbv zeta in T.
  destruct T as (Hreturns & Hstore & w' & Hw' & Htext & Hcode & _ & Hhist & _).
  split; [exact Hreturns|]. split; [exact Hstore|].
  exists w'. split; [exact Hw'|]. split; [evaluated_from Htext|].
  split; [exact Hcode|]. evaluated_from Hhist.
Defined.

Example cleared_program_and_kept_history :
  field cumulativeExecutedCode 0 submitted = Some (nl +:+ "let x = 1;")
  /\ field cumulativeExecutedCode 0 (exec (clearConsole 0) submitted)
     = Some ""
  /\ field inputHistory 0 (exec (clearConsole 0) submitted)
     = Some ["let x = 1;"]
  /\ field textarea 0 (exec (clearConsole 0) submitted)
     = Some (Some (line "10:00:12" "SYSTEM"
                     "Consola y contexto de ejecución limpiados.")).
Proof. vm_compute. repeat split; reflexivity. Qed.

(** The same declaration submitted twice. *)
Lemma submission_recorded_once_witness :
  widgets ready !! 0%nat = Some (instance ready)
  /\ inputHistory
       <$> widgets
             (exec (processInput main 0 "let x = 1;")
                (exec (processInput main 0 "let x = 1;") ready)) !! 0%nat
     = Some ["let x = 1;"].
Proof.
  split; [computed|].
  pose proof (submission_recorded_once main 0 "let x = 1;" ready
                (instance ready) ltac:(computed)) as T.
  cbv zeta in T. destruct T as (_ & _ & Htwice).
  exact Htwice.
Defined.

Example history_is_persisted :
  localStorage (exec (processInput main 0 " let x = 1; ") ready)
    !! HISTORY_KEY
  = Some (JsStr.json_string_array ["let x = 1;"]).
Proof. computed. Qed.



(** [throw null] again: neither an ERROR line nor a marker. *)
Lemma marker_follows_error_line_witness :
  widgets ready !! 0%nat = Some (instance ready)
  /\ iframeWindow (instance ready) = Some 0%nat
  /\ JsStr.is_empty (JsStr.trim "throw null") = false
  /\ host_eval 0%nat
       (cumulativeExecutedCode (instance ready) +:+ JsStr.newline
        +:+ "throw null")
     = (1%nat, [], Throw JsNull)
  /\ exists add t,
       completion (processInput main 0 "throw null") ready
       = Throw (JsHost nullRead)
       /\ textarea
            <$> widgets (exec (processInput main 0 "throw null") ready)
                  !! 0%nat
          = Some ((fun out =>
                     out +:+ add +:+ line t "INPUT" ("> " +:+ "throw null")
                     +:+ render [])
                    <$> textarea (instance ready)).
Proof.
  split; [computed|]. split; [computed|]. split; [computed|].
  split; [computed|].
  pose proof (marker_follows_error_line main 0 "throw null" ready
                (instance ready) 0%nat 1%nat [] JsNull ltac:(computed)
                ltac:(computed) ltac:(computed) ltac:(computed)) as T.
  cbv zeta in T. cbn [message_of] in T.
  destruct T as (add & t & _ & Hthrown & Htext).
  exists add, t. split; [exact Hthrown|exact Htext].
Defined.

(** A failure whose message can be read: the ERROR line, then the
    marker. *)
Example error_line_then_marker :
  field textarea 0 (exec (processInput main 0 "y") ready)
  = Some (Some (line "10:00:10" "INPUT" "> y"
                +:+ line "10:00:11" "ERROR" "  Error: y is not defined"
                +:+ line "10:00:12" "OUTPUT" "  < (undefined)"))
  /\ field textarea 0 (exec (processInput main 0 "let z = y;") ready)
     = Some (Some (line "10:00:10" "INPUT" "> let z = y;"
                   +:+ line "10:00:11" "ERROR" "  Error: y is not defined"
                   +:+ line "10:00:12" "OUTPUT"
                         "  < (Declaración ejecutada)")).
Proof. vm_compute. split; reflexivity. Qed.


Example late_entry_is_never_shown :
  let W :=
    run part_000
      [ev_console log [JsString "late"]; ev_input 0 "x"; ev_keydown 0 Enter;
       ev_click_clear 0]
      ready0 in
  consoleMessageBuffer W = [mkEntry "10:00:10" "LOG" "late"]
  /\ field textarea 0 W
     = Some (Some (line "10:00:13" "SYSTEM"
                     "Consola y contexto de ejecución limpiados.")).
Proof. vm_compute. split; reflexivity. Qed.

(** A declaration stays in scope for the next submission. *)
Example scope_persists :
  field textarea 0
    (run main [ev_input 0 "x + 1"; ev_keydown 0 Enter] submitted)
  = Some (Some (line "10:00:10" "INPUT" "> let x = 1;"
                +:+ line "10:00:11" "OUTPUT" "  < (Declaración ejecutada)"
                +:+ line "10:00:12" "INPUT" "> x + 1"
                +:+ line "10:00:13" "OUTPUT" "  < 2")).
Proof. computed. Qed.

Example trim_examples :
  JsStr.trim "  let x = 1; " = "let x = 1;"
  /\ JsStr.trim (" " +:+ JsStr.newline +:+ " ") = ""
  /\ JsStr.matches_declaration "let x = 1;" = true
  /\ JsStr.matches_declaration "letter" = false.
Proof. repeat split; reflexivity. Qed.

(** ** More statements at work in the small browser *)

Import Scenes.

Lemma browser_storage_works : storage_works.
Proof. split; reflexivity. Qed.

(** A value written under a key of the store and read back. *)
Lemma stored_item_is_read_back_witness :
  host_setItem_error (localStorage ready) "k" "v" = None
  /\ getLocalStorageItem main "k" "default"
       (exec (setLocalStorageItem main "k" "v") ready)
     = (Normal "v", exec (setLocalStorageItem main "k" "v") ready).
Proof.
  split; [reflexivity|].
  pose proof (stored_item_is_read_back main "k" "v" "other" "default" ready
                eq_refl (fun _ => eq_refl)) as T.
  cbv zeta in T. destruct T as (Hback & _).
  exact Hback.
Defined.

(** The store that refuses: a read returns the default and logs. *)
Lemma storage_failure_is_contained_witness :
  @host_getItem_error locked (@localStorage locked (@initial locked ∅)) "k"
  = Some (JsHost securityError)
  /\ @getLocalStorageItem locked main "k" "default" (@initial locked ∅)
     = (Normal "default",
        @logged locked main error
          [JsString "Error al leer de localStorage:"; JsHost securityError]
          (@initial locked ∅)).
Proof.
  split; [reflexivity|].
  pose proof (@storage_failure_is_contained locked main "k" "v" "default"
                (@initial locked ∅) (JsHost securityError)) as T.
  destruct T as (Hread & _).
  exact (Hread eq_refl).
Defined.

(** The refused read is buffered as an ERROR entry and reaches the
    original console. *)
Example refused_read_is_logged :
  let W :=
    snd (@getLocalStorageItem locked main "k" "default" (@initial locked ∅))
  in
  @consoleMessageBuffer locked W
  = [mkEntry "10:00:10" "ERROR"
       "Error al leer de localStorage: {}"]
  /\ length (@originalConsole locked W) = 1%nat.
Proof. vm_compute. split; reflexivity. Qed.

(** Widget 0 hidden and shown again: the panel measured 640 by 200
    before, and 0px by 0px is what is saved. *)
Lemma hide_then_show_restores_panel_witness :
  storage_works
  /\ widgets ready !! 0%nat = Some (instance ready)
  /\ consoleDisplay (instance ready)
     = Some (mkDisplay "80vw" "25vh" "flex" "both" "640" "200")
  /\ showButton (instance ready) = Some "none"
  /\ offsetWidth (mkDisplay "80vw" "25vh" "flex" "both" "640" "200") = "640"
  /\ localStorage (exec (hideConsole main 0) ready)
     = <[HEIGHT_KEY := "0px"]>
         (<[WIDTH_KEY := "0px"]>
            (<[VISIBLE_KEY := "false"]> (localStorage ready)))
  /\ exists w2,
       widgets (exec (showConsole main 0) (exec (hideConsole main 0) ready))
         !! 0%nat = Some w2
       /\ consoleDisplay w2
          = Some (mkDisplay "80vw" "25vh" "flex" "both" "640" "200").
Proof.
  split; [exact browser_storage_works|].
  split; [computed|]. split; [computed|]. split; [computed|].
  split; [reflexivity|].
  pose proof (hide_then_show_restores_panel main 0 ready (instance ready)
                (mkDisplay "80vw" "25vh" "flex" "both" "640" "200") "none"
                browser_storage_works ltac:(computed) ltac:(computed)
                ltac:(computed)) as T.
  cbv zeta in T. destruct T as (_ & Hstore & (w2 & Hw2 & _ & Hpanel & _) & _).
  split; [exact Hstore|]. exists w2. split; [exact Hw2|exact Hpanel].
Defined.

(** Widget 0 hidden, then the page loaded again: the panel of the new
    page is 0px by 0px. *)
Lemma visual_state_survives_reload_witness :
  storage_works
  /\ history_loads (localStorage ready)
  /\ widgets ready !! 0%nat = Some (instance ready)
  /\ consoleDisplay (instance ready)
     = Some (mkDisplay "80vw" "25vh" "flex" "both" "640" "200")
  /\ showButton (instance ready) = Some "none"
  /\ tpl_consoleDisplay html = Some (mkDisplay "" "" "" "" "640" "200")
  /\ tpl_showButton html = true
  /\ exists w',
       widgets
         (run main [ev_new; ev_connected 0 html]
            (reload (exec (hideConsole main 0) ready))) !! 0%nat = Some w'
       /\ isConsoleVisible w' = false
       /\ consoleDisplay w'
          = Some (mkDisplay "0px" "0px" "none" "none" "640" "200")
       /\ showButton w' = Some "block".
Proof.
  assert (Hloads : history_loads (localStorage ready)) by (by vm_compute).
  split; [exact browser_storage_works|]. split; [exact Hloads|].
  split; [computed|]. split; [computed|]. split; [computed|].
  split; [computed|]. split; [computed|].
  pose proof (visual_state_survives_reload main 0 ready (instance ready)
                (mkDisplay "80vw" "25vh" "flex" "both" "640" "200")
                (mkDisplay "" "" "" "" "640" "200") "none" html
                browser_storage_works Hloads ltac:(computed) ltac:(computed)
                ltac:(computed) ltac:(computed) ltac:(computed)) as T.
  cbv zeta in T. destruct T as (Hhidden & _).
  exact Hhidden.
Defined.

(** [let x = 1;] submitted, then the page loaded again. *)
Lemma history_survives_reload_witness :
  storage_works
  /\ widgets ready !! 0%nat = Some (instance ready)
  /\ JsStr.is_empty (JsStr.trim " let x = 1; ") = false
  /\ last (inputHistory (instance ready)) <> Some (JsStr.trim " let x = 1; ")
  /\ host_JSON_parse
       (JsStr.json_string_array
          (inputHistory (instance ready) ++ [JsStr.trim " let x = 1; "]))
     = Normal
         (ParsedStrings
            (inputHistory (instance ready) ++ [JsStr.trim " let x = 1; "]))
  /\ exists w',
       widgets
         (exec (constructor main)
            (reload (exec (processInput main 0 " let x = 1; ") ready)))
         !! 0%nat = Some w'
       /\ inputHistory w'
          = inputHistory (instance ready) ++ [JsStr.trim " let x = 1; "]
       /\ historyIndex w'
          = Z.of_nat
              (length (inputHistory (instance ready)
                       ++ [JsStr.trim " let x = 1; "]))
       /\ cumulativeExecutedCode w' = "".
Proof.
  split; [exact browser_storage_works|].
  split; [computed|]. split; [computed|].
  split; [by vm_compute|]. split; [computed|].
  exact (history_survives_reload main 0 " let x = 1; " ready (instance ready)
           browser_storage_works ltac:(computed) ltac:(computed)
           ltac:(by vm_compute) ltac:(computed)).
Defined.

(** A store whose history is not JSON. *)
Lemma unreadable_history_starts_empty_witness :
  host_JSON_parse (default "[]" (broken_store !! HISTORY_KEY))
  = Throw (JsHost (DError "SyntaxError" "Unexpected token"))
  /\ completion (constructor main) (initial broken_store) = Normal 0%nat
  /\ consoleMessageBuffer (exec (constructor main) (initial broken_store))
     = [].
Proof.
  split; [computed|].
  pose proof (unreadable_history_starts_empty main (initial broken_store)
                (JsHost (DError "SyntaxError" "Unexpected token"))
                (fun _ => eq_refl) ltac:(computed)) as T.
  cbv zeta in T. destruct T as (Hreturns & _ & _ & Hbuffer & _).
  split; [exact Hreturns|exact Hbuffer].
Defined.

(** Two strings and a number, formatted in two parts; an object that
    contains itself, with and without a prototype. *)
Lemma formatConsoleMessage_joins_witness :
  formatConsoleMessage
    ([JsString "a"; JsString "b"] ++ [JsHost (DNumber 1)])
  = Normal "a b 1"
  /\ formatConsoleMessage [JsHost DCircular] = Normal "[object Object]"
  /\ formatConsoleMessage [JsHost DBare] = Throw (JsHost notPrimitive)
  /\ formatConsoleMessage ([JsHost DBare] ++ [JsString "a"])
     = Throw (JsHost notPrimitive).
Proof.
  pose proof (formatConsoleMessage_joins [JsString "a"; JsString "b"]
                [JsHost (DNumber 1)] [] DCircular
                (JsHost circularStructure)) as T.
  destruct T as (Happ & _ & Hfallback & _).
  pose proof (formatConsoleMessage_joins [JsHost DBare] [JsString "a"] []
                DBare (JsHost circularStructure)) as U.
  destruct U as (_ & _ & Hthrows & Hfirst & _).
  split; [evaluated_from (Happ "a b" "1" ltac:(done) ltac:(done)
                            ltac:(computed) ltac:(computed))|].
  split; [exact (Hfallback eq_refl eq_refl)|].
  split; [exact (Hthrows eq_refl eq_refl)|].
  exact (Hfirst _ (Hthrows eq_refl eq_refl)).
Defined.

(** A page from its start: widget 0 is made and attached, [x] is typed,
    and the arrows are pressed past both ends of the history. *)
Lemma cursor_always_in_range_witness :
  let events :=
    [ev_new; ev_connected 0 html; ev_input 0 "x"; ev_keydown 0 ArrowUp;
     ev_keydown 0 ArrowUp; ev_keydown 0 ArrowDown; ev_keydown 0 ArrowDown] in
  Forall (parses_to (fun _ => True)) (history_reads main events (initial ∅))
  /\ every_widget cursor_in_range (initial ∅)
  /\ every_widget cursor_in_range (run main events (initial ∅))
  /\ strangers (run main events (initial ∅)) = ∅.
Proof.
  cbv zeta.
  assert (Hreads :
            Forall (parses_to (fun _ => True))
              (history_reads main
                 [ev_new; ev_connected 0 html; ev_input 0 "x";
                  ev_keydown 0 ArrowUp; ev_keydown 0 ArrowUp;
                  ev_keydown 0 ArrowDown; ev_keydown 0 ArrowDown]
                 (initial ∅))).
  { replace (history_reads _ _ _) with ["[]"] by computed.
    apply Forall_singleton. by vm_compute. }
  split; [exact Hreads|].
  split; [apply every_widget_initial|].
  exact (cursor_always_in_range main _ (initial ∅) Hreads
           (every_widget_initial _ ∅)).
Defined.

(** A stored history that is [null] stops the constructor, and one that
    is a number gives an instance whose history is no list. *)
Example history_that_is_no_list :
  completion (constructor main) (initial {[ HISTORY_KEY := "null" ]})
  = Throw (JsHost host_TypeError)
  /\ widgets (exec (constructor main) (initial {[ HISTORY_KEY := "null" ]}))
       !! 0%nat = None
  /\ completion (constructor main) (initial {[ HISTORY_KEY := "5" ]})
     = Normal 0%nat
  /\ strangers (exec (constructor main) (initial {[ HISTORY_KEY := "5" ]}))
       !! 0%nat = Some (JsHost (DNumber 5))
  /\ widgets (exec (constructor main) (initial {[ HISTORY_KEY := "5" ]}))
       !! 0%nat = None.
Proof. vm_compute. repeat split; reflexivity. Qed.

(** The same text submitted twice, then recalled and submitted again. *)
Lemma history_stays_tidy_witness :
  let events :=
    [ev_new; ev_connected 0 html; ev_input 0 "x"; ev_keydown 0 Enter;
     ev_input 0 " x "; ev_keydown 0 Enter; ev_input 0 "  ";
     ev_keydown 0 Enter] in
  Forall (parses_to tidy) (history_reads main events (initial ∅))
  /\ every_widget (fun w => tidy (inputHistory w)) (initial ∅)
  /\ every_widget (fun w => tidy (inputHistory w))
       (run main events (initial ∅))
  /\ strangers (run main events (initial ∅)) = ∅.
Proof.
  cbv zeta.
  assert (Hreads :
            Forall (parses_to tidy)
              (history_reads main
                 [ev_new; ev_connected 0 html; ev_input 0 "x";
                  ev_keydown 0 Enter; ev_input 0 " x "; ev_keydown 0 Enter;
                  ev_input 0 "  "; ev_keydown 0 Enter]
                 (initial ∅))).
  { replace (history_reads _ _ _) with ["[]"] by computed.
    apply Forall_singleton. unfold parses_to.
    change (host_JSON_parse "[]")
      with (@Normal DemoValue _ (@ParsedStrings DemoValue [])).
    by split. }
  split; [exact Hreads|].
  split; [apply every_widget_initial|].
  exact (history_stays_tidy main _ (initial ∅) Hreads
           (every_widget_initial _ ∅)).
Defined.

Example history_after_repeats :
  field inputHistory 0
    (run main
       [ev_input 0 "x"; ev_keydown 0 Enter; ev_input 0 " x ";
        ev_keydown 0 Enter; ev_input 0 "  "; ev_keydown 0 Enter]
       ready)
  = Some ["x"].
Proof. computed. Qed.

(** Enter on the empty field of widget 0. *)
Lemma Enter_on_blank_input_witness :
  widgets ready !! 0%nat = Some (instance ready)
  /\ inputElement (instance ready) = Some ""
  /\ JsStr.is_empty (JsStr.trim "") = true
  /\ on_keydown main 0 Enter ready
     = (Normal tt,
        set_widgets
          (<[0%nat := set_historyIndex
                        (Z.of_nat (length (inputHistory (instance ready))))
                        (set_inputElement (Some "") (instance ready))]>
             (widgets ready)) ready).
Proof.
  split; [computed|]. split; [computed|]. split; [computed|].
  exact (Enter_on_blank_input main 0 ready (instance ready) ""
           ltac:(computed) ltac:(computed) ltac:(computed)).
Defined.

(** A submission on the widget whose template has no iframe. *)
Lemma submission_without_context_witness :
  widgets no_context !! 0%nat = Some (instance no_context)
  /\ iframeWindow (instance no_context) = None
  /\ JsStr.is_empty (JsStr.trim "1 + 1") = false
  /\ completion (processInput main 0 "1 + 1") no_context = Normal tt.
Proof.
  split; [computed|]. split; [computed|]. split; [computed|].
  pose proof (submission_without_context main 0 "1 + 1" no_context
                (instance no_context) ltac:(computed) ltac:(computed)
                ltac:(computed)) as T.
  cbv zeta in T. destruct T as (Hreturns & _).
  exact Hreturns.
Defined.

Example context_not_ready_is_shown :
  field textarea 0 (exec (processInput main 0 "1 + 1") no_context)
  = Some (Some (line "10:00:10" "INPUT" "> 1 + 1"
                +:+ line "10:00:11" "ERROR"
                      "  Error: El contexto de la consola no está listo."))
  /\ field cumulativeExecutedCode 0
       (exec (processInput main 0 "1 + 1") no_context) = Some "".
Proof. vm_compute. split; reflexivity. Qed.

(** [x + 1] submitted after [let x = 1;]. *)
Lemma result_is_shown_witness :
  widgets submitted !! 0%nat = Some (instance submitted)
  /\ iframeWindow (instance submitted) = Some 1%nat
  /\ JsStr.is_empty (JsStr.trim "x + 1") = false
  /\ host_eval 1%nat
       (cumulativeExecutedCode (instance submitted) +:+ JsStr.newline
        +:+ "x + 1")
     = (2%nat, [], Normal (JsHost (DNumber 2)))
  /\ JSON_stringify (JsHost (DNumber 2)) = Normal "2"
  /\ completion (processInput main 0 "x + 1") submitted = Normal tt.
Proof.
  split; [computed|]. split; [computed|]. split; [computed|].
  split; [computed|]. split; [computed|].
  pose proof (result_is_shown main 0 "x + 1" submitted (instance submitted)
                1%nat 2%nat [] (JsHost (DNumber 2)) ("  < " +:+ "2")
                ltac:(computed) ltac:(computed) ltac:(computed)
                ltac:(computed)
                (ex_intro _ "2" (conj eq_refl eq_refl))) as T.
  cbv zeta in T. destruct T as (Hreturns & _).
  exact Hreturns.
Defined.

(** A failure, a declaration and an expression, one after the other. *)
Lemma program_is_the_accepted_inputs_witness :
  widgets ready !! 0%nat = Some (instance ready)
  /\ exists accepted w',
       sublist accepted ["y"; "let x = 1;"; "x + 1"]
       /\ widgets (submissions main 0 ["y"; "let x = 1;"; "x + 1"] ready)
            !! 0%nat = Some w'
       /\ cumulativeExecutedCode w'
          = cumulativeExecutedCode (instance ready) +:+ appended accepted.
Proof.
  split; [computed|].
  exact (program_is_the_accepted_inputs main 0 ["y"; "let x = 1;"; "x + 1"]
           ready (instance ready) ltac:(computed)).
Defined.

Example failed_input_is_left_out :
  field cumulativeExecutedCode 0
    (submissions main 0 ["y"; "let x = 1;"; "x + 1"] ready)
  = Some (appended ["let x = 1;"; "x + 1"]).
Proof. computed. Qed.

(** [let x = 1;] typed and submitted with Enter, then the arrow up. *)
Lemma submitted_text_is_recalled_witness :
  let typed := run main [ev_input 0 " let x = 1; "] ready in
  widgets typed !! 0%nat = Some (instance typed)
  /\ inputElement (instance typed) = Some " let x = 1; "
  /\ JsStr.is_empty (JsStr.trim " let x = 1; ") = false
  /\ completion (processInput main 0 " let x = 1; ") typed = Normal tt
  /\ exists w2,
       widgets
         (exec (on_keydown main 0 ArrowUp)
            (exec (on_keydown main 0 Enter) typed)) !! 0%nat = Some w2
       /\ inputElement w2 = Some (JsStr.trim " let x = 1; ")
       /\ historyIndex w2 = Z.of_nat (length (inputHistory w2)) - 1.
Proof.
  cbv zeta.
  split; [computed|]. split; [computed|]. split; [computed|].
  split; [computed|].
  pose proof (submitted_text_is_recalled main 0
                (run main [ev_input 0 " let x = 1; "] ready)
                (instance (run main [ev_input 0 " let x = 1; "] ready))
                " let x = 1; " ltac:(computed) ltac:(computed)
                ltac:(computed) ltac:(computed)) as T.
  cbv zeta in T. destruct T as (_ & Hrecalled).
  exact Hrecalled.
Defined.

(** [y] typed after [let x = 1;] was submitted: up, then down. *)
Lemma draft_comes_back_witness :
  widgets drafting !! 0%nat = Some (instance drafting)
  /\ inputElement (instance drafting) = Some "y"
  /\ historyIndex (instance drafting)
     = Z.of_nat (length (inputHistory (instance drafting)))
  /\ JsStr.is_empty (JsStr.trim "y") = false
  /\ last (inputHistory (instance drafting)) = Some "let x = 1;"
  /\ "let x = 1;" <> JsStr.trim "y"
  /\ exists w2,
       widgets
         (exec (navigateHistory main 0 1)
            (exec (navigateHistory main 0 (-1)) drafting)) !! 0%nat
       = Some w2
       /\ inputHistory w2
          = inputHistory (instance drafting) ++ [JsStr.trim "y"]
       /\ inputElement w2 = Some (JsStr.trim "y").
Proof.
  split; [computed|]. split; [computed|]. split; [computed|].
  split; [computed|]. split; [computed|]. split; [by vm_compute|].
  pose proof (draft_comes_back main 0 drafting (instance drafting) "y"
                "let x = 1;" ltac:(computed) ltac:(computed)
                ltac:(computed) ltac:(computed) ltac:(computed)
                ltac:(by vm_compute)) as T.
  cbv zeta in T. destruct T as (_ & Hdown).
  exact Hdown.
Defined.

Example up_shows_previous_then_down_the_draft :
  field inputElement 0 (run main [ev_keydown 0 ArrowUp] drafting)
  = Some (Some "let x = 1;")
  /\ field inputElement 0
       (run main [ev_keydown 0 ArrowUp; ev_keydown 0 ArrowDown] drafting)
     = Some (Some "y")
  /\ field inputElement 0
       (run main
          [ev_keydown 0 ArrowUp; ev_keydown 0 ArrowDown; ev_keydown 0 ArrowDown]
          drafting)
     = Some (Some "").
Proof. vm_compute. repeat split; reflexivity. Qed.

(** A second widget attached after widget 0; one call that can be
    written and one that cannot. *)
Lemma last_attached_display_receives_witness :
  let live := [(log, [JsString "a"]); (warn, [JsHost DBare])] in
  let after :=
    run main (console_calls live) (exec (connectedCallback main 1 html) two)
  in
  widgets two !! 1%nat = Some (second two)
  /\ tpl_consoleOutput html = Some ""
  /\ activeConsoleAppender after = Some (mkBound (nextFunction two) 1)
  /\ textarea <$> widgets after !! 1%nat
     = Some (Some ("[10:00:10] [LOG] a" +:+ nl))
  /\ originalConsole after = [(log, [JsString "a"])]
  /\ widgets after !! 0%nat = widgets two !! 0%nat.
Proof.
  cbv zeta. split; [computed|]. split; [computed|].
  pose proof (last_attached_display_receives 1 html two (second two) ""
                [(log, [JsString "a"]); (warn, [JsHost DBare])]
                ltac:(computed) ltac:(computed))
    as T.
  cbv zeta in T. destruct T as (Hslot & _ & Hshown & Hforwarded & Hothers).
  split; [exact Hslot|]. split; [evaluated_from Hshown|].
  split; [evaluated_from Hforwarded|]. by apply Hothers.
Defined.

Example second_widget_takes_the_console :
  let W :=
    run main [ev_new; ev_connected 1 html; ev_console log [JsString "a"]]
      ready in
  field textarea 0 W = Some (Some "")
  /\ field textarea 1 W = Some (Some (line "10:00:10" "LOG" "a")).
Proof. vm_compute. split; reflexivity. Qed.

(** Widget 0 attached with the template that has no output area. *)
Lemma entries_are_lost_without_output_area_witness :
  let W := run main [ev_console log [JsString "early"]] constructed in
  let attached_world := exec (connectedCallback main 0 without_output) W in
  let after :=
    run main (console_calls [(warn, [JsString "late"])]) attached_world in
  widgets W !! 0%nat = Some (instance W)
  /\ tpl_consoleOutput without_output = None
  /\ consoleMessageBuffer W = [mkEntry "10:00:10" "LOG" "early"]
  /\ consoleMessageBuffer attached_world = []
  /\ textarea <$> widgets attached_world !! 0%nat = Some None
  /\ consoleMessageBuffer after = []
  /\ widgets after = widgets attached_world
  /\ originalConsole after
     = [(log, [JsString "early"]); (warn, [JsString "late"])].
Proof.
  cbv zeta. split; [computed|]. split; [computed|]. split; [computed|].
  pose proof (entries_are_lost_without_output_area main 0 without_output
                (run main [ev_console log [JsString "early"]] constructed)
                (instance
                   (run main [ev_console log [JsString "early"]] constructed))
                [(warn, [JsString "late"])]
                ltac:(computed) ltac:(computed)) as T.
  cbv zeta in T. destruct T as (Hbuffer & Harea & Hlive).
  destruct (Hlive eq_refl) as (Hempty & Hsame & Hforwarded).
  split; [exact Hbuffer|]. split; [exact Harea|]. split; [exact Hempty|].
  split; [exact Hsame|]. evaluated_from Hforwarded.
Defined.

(** Three calls 100 ms apart with a delay of 500 ms. *)
Lemma debounce_runs_the_last_call_once_witness :
  (0 < 500)%nat
  /\ Forall (fun c : string * nat => (snd c < 500)%nat)
       [("a", 100%nat); ("b", 100%nat)]
  /\ Debounce.calls
       (Debounce.ticks (500 + 200)
          (Debounce.debounced 500 "c"
             (Debounce.burst 500 [("a", 100%nat); ("b", 100%nat)]
                (Debounce.run 500 [] Debounce.start))))
     = [(700%nat, "c")].
Proof.
  split; [lia|].
  assert (Hquick : Forall (fun c : string * nat => (snd c < 500)%nat)
                     [("a", 100%nat); ("b", 100%nat)])
    by (repeat constructor; cbn; lia).
  split; [exact Hquick|].
  pose proof (debounce_runs_the_last_call_once 500 [] 
                [("a", 100%nat); ("b", 100%nat)] "c" 200
                ltac:(lia) Hquick) as T.
  cbv zeta in T. destruct T as (_ & _ & Hcalls & _).
  exact Hcalls.
Defined.

(** The size of the panel of widget 0, saved. *)
Lemma saved_size_is_the_panel_size_witness :
  storage_works
  /\ widgets ready !! 0%nat = Some (instance ready)
  /\ completion (saveConsoleSize main 0) ready = Normal tt.
Proof.
  split; [exact browser_storage_works|]. split; [computed|].
  pose proof (saved_size_is_the_panel_size main 0 ready (instance ready)
                browser_storage_works ltac:(computed)) as T.
  cbv zeta in T. destruct T as (Hreturns & _).
  exact Hreturns.
Defined.

Example saved_size_of_widget_0 :
  localStorage (exec (saveConsoleSize main 0) ready) !! WIDTH_KEY
  = Some "640px"
  /\ localStorage (exec (saveConsoleSize main 0) ready) !! HEIGHT_KEY
     = Some "200px".
Proof. vm_compute. split; reflexivity. Qed.

(** In part_000: two calls, then widget 0 is attached. *)
Lemma part_000_shows_the_buffer_at_attach_witness :
  let before :=
    run part_000
      (console_calls [(log, [JsString "a"]); (warn, [JsString "b"])])
      constructed0 in
  let attached_world := exec (connectedCallback part_000 0 html) before in
  widgets constructed0 !! 0%nat = Some (instance constructed0)
  /\ tpl_consoleOutput html = Some ""
  /\ consoleMessageBuffer before
     = [mkEntry "10:00:10" "LOG" "a"; mkEntry "10:00:11" "WARN" "b"]
  /\ consoleMessageBuffer attached_world = []
  /\ textarea <$> widgets attached_world !! 0%nat
     = Some (Some ("[10:00:10] [LOG] a" +:+ nl
                   +:+ "[10:00:11] [WARN] b" +:+ nl)).
Proof.
  cbv zeta. split; [computed|]. split; [computed|].
  pose proof (part_000_shows_the_buffer_at_attach 0 html constructed0
                (instance constructed0) ""
                [(log, [JsString "a"]); (warn, [JsString "b"])]
                ltac:(computed) ltac:(computed)) as T.
  cbv zeta in T. destruct T as (Hbefore & _ & _ & Hbuffer & Hshown).
  split; [evaluated_from Hbefore|]. split; [exact Hbuffer|].
  evaluated_from Hshown.
Defined.

Example part_000_replays_two_entries :
  field textarea 0
    (run part_000
       [ev_new; ev_console log [JsString "a"]; ev_console warn [JsString "b"];
        ev_connected 0 html; ev_console error [JsString "late"]]
       (initial ∅))
  = Some (Some (line "10:00:10" "LOG" "a" +:+ line "10:00:11" "WARN" "b")).
Proof. computed. Qed.

(** Widget 0 attached with the template that has no iframe. *)
Lemma context_needs_the_iframe_witness :
  widgets constructed !! 0%nat = Some (instance constructed)
  /\ originalConsole
       (exec (connectedCallback main 0 without_iframe) constructed)
     = originalConsole constructed
       ++ (if tpl_consoleIframe without_iframe then []
           else [(error, [JsString "Iframe de consola no encontrado."])]).
Proof.
  split; [computed|].
  pose proof (context_needs_the_iframe main 0 without_iframe constructed
                (instance constructed) ltac:(computed)) as T.
  cbv zeta in T. destruct T as (w' & _ & _ & Horiginal & _).
  exact Horiginal.
Defined.

Example widget_without_iframe_has_no_context :
  field iframeWindow 0
    (exec (connectedCallback main 0 without_iframe) constructed)
  = Some None
  /\ originalConsole
       (exec (connectedCallback main 0 without_iframe) constructed)
     = [(error, [JsString "Iframe de consola no encontrado."])].
Proof. vm_compute. split; reflexivity. Qed.

(** Enter in the second of two widgets. *)
Lemma events_leave_other_instances_witness :
  storage_works
  /\ event_of (ev_keydown 1 Enter) = Some 1%nat
  /\ 0%nat <> 1%nat
  /\ widgets (exec (handle main (ev_keydown 1 Enter)) pair) !! 0%nat
     = widgets pair !! 0%nat.
Proof.
  split; [exact browser_storage_works|]. split; [reflexivity|].
  split; [done|].
  exact (events_leave_other_instances main 1 0 (ev_keydown 1 Enter) pair
           browser_storage_works eq_refl ltac:(done)).
Defined.

Example second_widget_has_its_own_program :
  field cumulativeExecutedCode 1 (run main [ev_keydown 1 Enter] pair)
  = Some (nl +:+ "let x = 1;")
  /\ field cumulativeExecutedCode 0 (run main [ev_keydown 1 Enter] pair)
     = Some "".
Proof. vm_compute. split; reflexivity. Qed.

(** [y] submitted after Clear: the program from before is gone. *)
Lemma cleared_console_evaluates_alone_witness :
  widgets submitted !! 0%nat = Some (instance submitted)
  /\ consoleIframe (instance submitted) = true
  /\ JsStr.is_empty (JsStr.trim "y") = false
  /\ cumulativeExecutedCode
       <$> widgets
             (exec (processInput main 0 "y")
                (exec (clearConsole 0) submitted)) !! 0%nat
     = Some "".
Proof.
  split; [computed|]. split; [computed|]. split; [computed|].
  pose proof (cleared_console_evaluates_alone main 0 "y" submitted
                (instance submitted) ltac:(computed) ltac:(computed)
                ltac:(computed)) as T.
  cbv zeta in T. destruct T as (_ & Hprogram).
  set (result := host_eval _ _) in Hprogram. vm_compute in result.
  subst result. cbv beta iota in Hprogram.
  exact Hprogram.
Defined.

Example cleared_console_forgets_declarations :
  field cumulativeExecutedCode 0 submitted = Some (nl +:+ "let x = 1;")
  /\ field textarea 0
       (run main [ev_click_clear 0; ev_input 0 "y"; ev_keydown 0 Enter]
          submitted)
     = Some (Some (line "10:00:12" "SYSTEM"
                     "Consola y contexto de ejecución limpiados."
                   +:+ line "10:00:13" "INPUT" "> y"
                   +:+ line "10:00:14" "ERROR" "  Error: y is not defined"
                   +:+ line "10:00:15" "OUTPUT" "  < (undefined)")).
Proof. vm_compute. split; reflexivity. Qed.

(** Two arrows up after two submissions. *)
Lemma arrow_up_walks_back_witness :
  widgets browsed !! 0%nat = Some (instance browsed)
  /\ inputElement (instance browsed) = Some ""
  /\ JsStr.is_empty (JsStr.trim "") = true
  /\ historyIndex (instance browsed)
     = Z.of_nat (length (inputHistory (instance browsed)))
  /\ inputHistory (instance browsed) <> []
  /\ exists w' entry,
       widgets (navigate main 0 (replicate 2 (-1)) browsed) !! 0%nat
       = Some w'
       /\ inputHistory w' = inputHistory (instance browsed)
       /\ historyIndex w'
          = Z.max 0
              (Z.of_nat (length (inputHistory (instance browsed)))
               - Z.of_nat 2)
       /\ history_entry (inputHistory (instance browsed))
            (Z.max 0
               (Z.of_nat (length (inputHistory (instance browsed)))
                - Z.of_nat 2))
          = Some entry
       /\ inputElement w' = Some entry.
Proof.
  split; [computed|]. split; [computed|]. split; [computed|].
  split; [computed|]. split; [by vm_compute|].
  exact (arrow_up_walks_back main 0 1 browsed (instance browsed) ""
           ltac:(computed) ltac:(computed) ltac:(computed) ltac:(computed)
           ltac:(by vm_compute)).
Defined.

Example arrows_up_to_the_first_entry :
  field inputElement 0 (run main [ev_keydown 0 ArrowUp] browsed)
  = Some (Some "x + 1")
  /\ field inputElement 0
       (run main [ev_keydown 0 ArrowUp; ev_keydown 0 ArrowUp] browsed)
     = Some (Some "let x = 1;")
  /\ field inputElement 0
       (run main
          [ev_keydown 0 ArrowUp; ev_keydown 0 ArrowUp; ev_keydown 0 ArrowUp]
          browsed)
     = Some (Some "let x = 1;").
Proof. vm_compute. repeat split; reflexivity. Qed.
